(** * SyriaGPT intelligent Q&A pipeline: a shallow embedding

    The development follows the Python services under [services/ai] and
    [services/repositories]:

    - [embedding_service.py]      (EmbeddingService)
    - [qdrant_service.py]         (QdrantService, the vector index)
    - [qa_pair_repository.py]     (QAPairRepository, the canonical store)
    - [gemini_service.py]         (GeminiService)
    - [web_scraping_service.py]   (WebScrapingService)
    - [intelligent_qa_service.py] (IntelligentQAService, the pipeline)
    - [news_integration_service.py] (NewsIntegrationService)
    - [api/ai/intelligent_qa.py]  (the HTTP endpoint in front of the pipeline)

    Python [str] values are lists of Unicode code points, floats are
    rationals (reals where a square root is taken), dictionaries are
    association lists with Python's update semantics, and every call to an
    external collaborator (embedding provider, Qdrant, PostgreSQL, Gemini)
    is an entry of an explicit I/O trace.  Exceptions do not roll the world
    back: a state-and-exception monad threads the world through both
    outcomes.

    Three facts about the libraries decide what several functions do, and
    are modelled where they act:
    - [google.generativeai.embed_content] returns a [dict]
      ([{"embedding": vector}]), and a [dict] has the method [values];
    - the Qdrant client takes a list of floats as a vector and refuses any
      other list, and Qdrant refuses a vector that has not the size of
      the collection (768) and a search limit below 1;
    - [qa_metadata] is a [JSON] column (not [JSONB]), on which SQLAlchemy's
      [contains] is the string operator, rendered as [LIKE], which
      PostgreSQL does not define for the type [json]. *)

From Stdlib Require Import List String Ascii Bool NArith ZArith QArith Lia.
From Stdlib Require Import DecimalString.
From Stdlib Require Import Reals Qreals Lra.
From Stdlib Require Lqa.
Import ListNotations.

Close Scope R_scope.
Close Scope Q_scope.
Local Open Scope string_scope.
Local Open Scope list_scope.

(* ================================================================== *)
(** * Python strings *)
(* ================================================================== *)

Module PyStr.

(** A Python [str]: a sequence of code points. *)
Definition pystr := list N.

(** Code points of an ASCII literal. *)
Definition lit (s : string) : pystr :=
  map N_of_ascii (list_ascii_of_string s).

Definition eqb (a b : pystr) : bool :=
  if list_eq_dec N.eq_dec a b then true else false.


(** [str.isspace] for one code point, which is also what [\s] matches in
    a [str] pattern and what [str.strip()] removes. *)
Definition is_space (c : N) : bool :=
  ((9 <=? c) && (c <=? 13) || (28 <=? c) && (c <=? 32) ||
   (c =? 133) || (c =? 160) || (c =? 5760) ||
   (8192 <=? c) && (c <=? 8202) || (c =? 8232) || (c =? 8233) ||
   (c =? 8239) || (c =? 8287) || (c =? 12288))%N.

Fixpoint lstrip (s : pystr) : pystr :=
  match s with
  | c :: s' => if is_space c then lstrip s' else s
  | [] => []
  end.

Definition rstrip (s : pystr) : pystr := rev (lstrip (rev s)).

(** [s.strip()] *)
Definition strip (s : pystr) : pystr := rstrip (lstrip s).

(** [re.sub(r"\s+", " ", s)]: every maximal run of white space becomes
    one U+0020.  [in_run] tells that the previous code point was white
    space, already replaced. *)
Fixpoint sub_ws (in_run : bool) (s : pystr) : pystr :=
  match s with
  | [] => []
  | c :: s' =>
      if is_space c
      then (if in_run then sub_ws true s' else 32%N :: sub_ws true s')
      else c :: sub_ws false s'
  end.

(** [s.endswith((c1, c2, ...))] for one-character suffixes. *)
Definition endswith_any (s : pystr) (cs : list N) : bool :=
  match rev s with
  | c :: _ => existsb (N.eqb c) cs
  | [] => false
  end.

(** [ch in s] *)
Definition contains (s : pystr) (ch : N) : bool := existsb (N.eqb ch) s.

(** [not s] *)
Definition falsy (s : pystr) : bool :=
  match s with [] => true | _ => false end.

(** [s.startswith(prefix)] *)
Fixpoint startswith (s prefix : pystr) : bool :=
  match prefix, s with
  | [], _ => true
  | p :: prefix', c :: s' => N.eqb c p && startswith s' prefix'
  | _ :: _, [] => false
  end.

(** [needle in s] for two strings. *)
Fixpoint occurs (needle s : pystr) : bool :=
  startswith s needle ||
  match s with
  | [] => false
  | _ :: s' => occurs needle s'
  end.

(** [s.split()]: the maximal runs without white space; [cur] is the run
    being read, last code point first. *)
Fixpoint split_from (cur s : pystr) : list pystr :=
  match s with
  | [] => match cur with [] => [] | _ => [rev cur] end
  | c :: s' =>
      if is_space c
      then match cur with
           | [] => split_from [] s'
           | _ => rev cur :: split_from [] s'
           end
      else split_from (c :: cur) s'
  end.

Definition split (s : pystr) : list pystr := split_from [] s.

End PyStr.
Import PyStr.

(** [name in names], for attribute, global and keyword look-ups. *)
Definition mem_name (x : string) (names : list string) : bool :=
  existsb (String.eqb x) names.

(* ================================================================== *)
(** * Values, identifiers and dictionaries *)
(* ================================================================== *)

(** A [qa_id] is a Python [str]; two identifiers are the same when their
    texts are. *)
Definition QaId := pystr.

Definition QaId_eqb (a b : QaId) : bool := PyStr.eqb a b.

(** [str(n)] for an integer. *)
Definition decimal (n : Z) : pystr := lit (NilZero.string_of_int (Z.to_int n)).

(** The identifiers the services build with f-strings:
    - [qa_{abs(hash(question))}_{int(time.time())}]       (_store_new_qa_pair)
    - [variant_{abs(hash(variant))}_{int(time.time())}]   (_generate_and_store_variants)
    - [augment_{abs(hash(variant))}_{int(time.time())}]   (augment_question_variants)
    - [news_{md5(question+answer).hexdigest()[:16]}]      (_process_qa_pair)
    and any other text, for identifiers coming from outside. *)
Definition IdQa (h t : Z) : QaId :=
  lit "qa_" ++ decimal h ++ lit "_" ++ decimal t.
Definition IdVariant (h t : Z) : QaId :=
  lit "variant_" ++ decimal h ++ lit "_" ++ decimal t.
Definition IdAugment (h t : Z) : QaId :=
  lit "augment_" ++ decimal h ++ lit "_" ++ decimal t.
Definition IdNews (digest : pystr) : QaId := lit "news_" ++ digest.
Definition IdText (s : pystr) : QaId := s.

(** JSON-like values stored in payloads and metadata. *)
Inductive PyAtom :=
| ANone
| ABool (b : bool)
| AStr (s : pystr)
| ANum (q : Q)
| AUuid (u : N).

(** An identifier as a value: the string it is. *)
Definition AId (i : QaId) : PyAtom := AStr i.

Inductive PyVal :=
| VAtom (a : PyAtom)
| VList (l : list PyAtom)
| VDict (d : list (string * PyAtom)).

Definition PyAtom_eqb (a b : PyAtom) : bool :=
  match a, b with
  | ANone, ANone => true
  | ABool x, ABool y => Bool.eqb x y
  | AStr x, AStr y => PyStr.eqb x y
  | ANum x, ANum y => Qeq_bool x y
  | AUuid x, AUuid y => N.eqb x y
  | _, _ => false
  end.

(** A Python [dict] with string keys, in insertion order. *)
Definition dict := list (string * PyVal).

Fixpoint dict_get (d : dict) (k : string) : option PyVal :=
  match d with
  | [] => None
  | (k', v) :: d' => if String.eqb k k' then Some v else dict_get d' k
  end.

(** [d[k] = v] *)
Fixpoint dict_set (d : dict) (k : string) (v : PyVal) : dict :=
  match d with
  | [] => [(k, v)]
  | (k', v') :: d' =>
      if String.eqb k k' then (k', v) :: d' else (k', v') :: dict_set d' k v
  end.

(** [{**d, **e}] *)
Definition dict_update (d e : dict) : dict :=
  fold_left (fun acc kv => dict_set acc (fst kv) (snd kv)) e d.

(** [d.get(k)] as the atom it holds ([None] when absent or not an atom). *)
Definition dict_atom (d : dict) (k : string) : PyAtom :=
  match dict_get d k with
  | Some (VAtom a) => a
  | _ => ANone
  end.


(** A component of the list the embedding service hands on as an
    embedding: a float, or a whole vector where the service took a
    container of vectors for the vector. *)
Inductive Component :=
| CNum (x : Q)
| CVec (v : list Q).

(** A list of floats as such a list. *)
Definition floats (v : list Q) : list Component := map CNum v.

(** The floats of a list that holds nothing but floats. *)
Fixpoint floats_of (embedding : list Component) : option (list Q) :=
  match embedding with
  | [] => Some []
  | CNum x :: rest =>
      match floats_of rest with
      | Some v => Some (x :: v)
      | None => None
      end
  | CVec _ :: _ => None
  end.


(* ================================================================== *)
(** * Records of the two stores *)
(* ================================================================== *)

(** [models/domain/qa_pair.py]: a row of table [qa_pairs].  The primary
    key is a [uuid4]; [created_at] and [updated_at] are left out. *)
Record QAPair := mkQAPair {
  qa_pk : N;
  question_text : pystr;
  answer_text : pystr;
  qa_user_id : option N;
  qa_confidence : Q;
  qa_source : pystr;
  qa_language : pystr;
  qa_metadata : dict
}.

(** A Qdrant [PointStruct]. *)
Record Point := mkPoint {
  point_id : N;
  point_vector : list Q;
  point_payload : dict
}.

(** One formatted result of [search_similar_questions]. *)
Record Hit := mkHit {
  hit_qa_id : PyAtom;
  hit_question : PyAtom;
  hit_answer : PyAtom;
  similarity_score : Q;
  hit_metadata : dict
}.

(* ================================================================== *)
(** * Exceptions, I/O events, the world and the collaborators *)
(* ================================================================== *)

Inductive PyExc :=
| AttributeError (obj attr : string)
| NameError (name : string)
| TypeError (callee keyword : string)
| ValueError (what : string)
| RuntimeError (what : string)
| StorageError (what : string)
| TransportError (what : string).

(** Calls that leave the process. *)
Inductive Event :=
| EvEmbedContent (text : pystr)
| EvQdrantGetCollections
| EvQdrantCreateCollection
| EvQdrantGetCollection
| EvQdrantUpsert (points : nat)
| EvQdrantSearch
| EvQdrantScroll
| EvQdrantDelete (points : nat)
| EvGeminiGenerate
| EvDbSession
| EvDbQuery
| EvDbCommit
| EvDbRollback.

(** What one call [self.client.embed_content(model=..., content=text)]
    comes to, as far as lines 86-112 of embedding_service.py tell results
    apart:
    - the call raises;
    - a false result ([None], an empty dict), or an object that is no
      dict and has none of the attributes [embedding], [values],
      [embeddings];
    - an object that is no dict and whose attribute [embedding], or
      without it [values], holds a list of floats;
    - an object that is no dict, has neither, and whose attribute
      [embeddings] is a list of vectors;
    - a dict whose values are vectors.  This is what
      [google.generativeai.embed_content], the client of line 44,
      returns for one text: [{"embedding": vector}]. *)
Inductive EmbedReply :=
| EmbedRaises
| EmbedNoResult
| EmbedValues (values : list Q)
| EmbedBatch (embeddings : list (list Q))
| EmbedDict (entries : list (string * list Q)).

(** What Gemini's [answer_question] hands back on success. *)
Record GeminiAnswer := mkGeminiAnswer {
  g_answer : pystr;
  g_confidence : Q;
  g_language : pystr;
  g_keywords : list PyAtom;
  g_model_used : pystr
}.

(** The collaborators outside the repository, as the services see them. *)
Record Env := mkEnv {
  (** EmbeddingService.client is set (library importable, key present) *)
  embed_client : bool;
  embed_content : pystr -> EmbedReply;
  (** QdrantService.client is set *)
  qdrant_client : bool;
  (** [client.get_collections()] answers *)
  qdrant_alive : bool;
  qdrant_collection_present : bool;
  qdrant_get_collection_ok : bool;
  qdrant_upsert_ok : bool;
  qdrant_search_ok : bool;
  qdrant_scroll_ok : bool;
  (** [client.delete(...)] goes through *)
  qdrant_delete_ok : bool;
  (** the score Qdrant gives a stored vector against a query vector *)
  qdrant_score : list Q -> list Q -> Q;
  (** GeminiService.model is set (key present) *)
  gemini_model : bool;
  (** Gemini's text for a question, [None] when the call fails or is empty *)
  gemini_answer : pystr -> option GeminiAnswer;
  gemini_variants : pystr -> option (list pystr);
  gemini_health_ok : bool;
  (** PostgreSQL *)
  db_session_ok : bool;
  db_commit_ok : bool;
  db_query_ok : bool;
  (** what the scraper would hand back as context *)
  web_context_for : pystr -> pystr;
  (** [hash(str)] of this process *)
  py_hash : pystr -> Z
}.

(** The mutable state: both stores, the service flag, the clock, the
    source of [uuid4] values and the trace of external calls. *)
Record World := mkWorld {
  w_db : list QAPair;
  w_index : list Point;
  w_initialized : bool;
  w_now : Z;
  w_uuid : N;
  w_trace : list Event
}.

Definition set_db (w : World) (db : list QAPair) : World :=
  mkWorld db (w_index w) (w_initialized w) (w_now w) (w_uuid w) (w_trace w).
Definition set_index (w : World) (ix : list Point) : World :=
  mkWorld (w_db w) ix (w_initialized w) (w_now w) (w_uuid w) (w_trace w).
Definition set_initialized (w : World) (b : bool) : World :=
  mkWorld (w_db w) (w_index w) b (w_now w) (w_uuid w) (w_trace w).
Definition set_uuid (w : World) (u : N) : World :=
  mkWorld (w_db w) (w_index w) (w_initialized w) (w_now w) u (w_trace w).
Definition add_event (w : World) (e : Event) : World :=
  mkWorld (w_db w) (w_index w) (w_initialized w) (w_now w) (w_uuid w)
          (w_trace w ++ [e]).

(** ** The monad *)

Inductive Outcome (A : Type) :=
| Return (a : A)
| Raise (e : PyExc).
Arguments Return {A} a.
Arguments Raise {A} e.

Definition M (A : Type) : Type := World -> Outcome A * World.

Definition ret {A} (a : A) : M A := fun w => (Return a, w).
Definition raise {A} (e : PyExc) : M A := fun w => (Raise e, w).
Definition bind {A B} (c : M A) (k : A -> M B) : M B :=
  fun w => match c w with
           | (Return a, w') => k a w'
           | (Raise e, w') => (Raise e, w')
           end.

(** [try: c  except Exception as e: h e] *)
Definition try_except {A} (c : M A) (h : PyExc -> M A) : M A :=
  fun w => match c w with
           | (Return a, w') => (Return a, w')
           | (Raise e, w') => h e w'
           end.

Declare Scope py_scope.
Delimit Scope py_scope with py.
Notation "x <- c ;; k" := (bind c (fun x => k))
  (at level 61, c at next level, right associativity) : py_scope.
Notation "c ;;; k" := (bind c (fun _ => k))
  (at level 61, right associativity) : py_scope.
Local Open Scope py_scope.

Definition emit (e : Event) : M unit := fun w => (Return tt, add_event w e).
Definition get_world : M World := fun w => (Return w, w).

(** [uuid4()]: a value not handed out before. *)
Definition uuid4 : M N :=
  fun w => (Return (w_uuid w), set_uuid w (N.succ (w_uuid w))).

(** Binding of keyword arguments: a keyword that is not a parameter of the
    callee raises [TypeError] before the callee's body runs. *)
Definition bind_keywords (callee : string) (params keywords : list string)
  : M unit :=
  match find (fun k => negb (mem_name k params)) keywords with
  | Some k => raise (TypeError callee k)
  | None => ret tt
  end.

(** Attribute look-up on an instance whose class defines [attrs]. *)
Definition getattr (obj : string) (attrs : list string) (name : string)
  : M unit :=
  if mem_name name attrs then ret tt else raise (AttributeError obj name).

(** Look-up of a global name in a module that binds [globals]. *)
Definition load_global (globals : list string) (name : string) : M unit :=
  if mem_name name globals then ret tt else raise (NameError name).

(* ================================================================== *)
(** * services/ai/embedding_service.py *)
(* ================================================================== *)

Module EmbeddingService.

(** [text: Union[str, List[str]]] *)
Inductive TextArg :=
| OneText (t : pystr)
| ManyTexts (ts : list pystr).

(** What [generate_embedding] returns: [None], one embedding, or a list
    of them.  The annotation says
    [Optional[Union[List[float], List[List[float]]]]]; what an embedding
    holds is decided by lines 86-112. *)
Inductive Embeddings :=
| NoEmbedding
| OneEmbedding (v : list Component)
| ManyEmbeddings (vs : list (list Component)).

(** [not question_embedding] *)
Definition falsy (e : Embeddings) : bool :=
  match e with
  | NoEmbedding | OneEmbedding [] | ManyEmbeddings [] => true
  | _ => false
  end.

(** [embedding[:d] + [0.0] * (d - len(embedding))]; a negative count
    repeats nothing. *)
Definition resize (d : nat) (embedding : list Component) : list Component :=
  firstn d embedding ++ repeat (CNum 0) (d - List.length embedding).

(** Lines 114-116: [if self.output_dim and len(embedding) != self.output_dim]. *)
Definition coerce (output_dim : option nat) (embedding : list Component)
  : list Component :=
  match output_dim with
  | Some d =>
      if negb (Nat.eqb d 0) && negb (Nat.eqb (List.length embedding) d)
      then resize d embedding
      else embedding
  | None => embedding
  end.

(** Lines 86-112: what the chain of [hasattr] tests takes out of the
    result, as a list ([None] where the chain raises or is left with
    nothing).
    - Line 88, [hasattr(result, 'embedding')], and line 90,
      [hasattr(result, 'values')]: the attribute's floats.
    - Line 92, [hasattr(result, 'embeddings')]: the first vector of the
      list; indexing an empty list raises.
    - A dict has no attribute [embedding], but it has the method
      [values]: line 90 takes the method, line 103 calls it, and line
      111 makes a list of the dict's values.  Each component of that
      list is one of the dict's vectors.  The branch of line 96,
      [isinstance(result, dict)], which would read the key
      [embedding], is not reached by a dict. *)
Definition extract (result : EmbedReply) : option (list Component) :=
  match result with
  | EmbedRaises | EmbedNoResult => None
  | EmbedValues values => Some (floats values)
  | EmbedBatch [] => None
  | EmbedBatch (first :: _) => Some (floats first)
  | EmbedDict entries => Some (map (fun kv => CVec (snd kv)) entries)
  end.

(** The body of the [for text_item in texts] loop, lines 76-129: the
    call, the extraction, and on a true embedding the resize; every
    failure inside it leaves as [RuntimeError]. *)
Definition embed_item (env : Env) (output_dim : option nat) (text_item : pystr)
  : M (list Component) :=
  emit (EvEmbedContent text_item) ;;;
  match extract (embed_content env text_item) with
  | Some (c :: embedding) => ret (coerce output_dim (c :: embedding))
  | _ => raise (RuntimeError "Embedding generation failed")
  end.

Fixpoint embed_items (env : Env) (output_dim : option nat) (texts : list pystr)
  : M (list (list Component)) :=
  match texts with
  | [] => ret []
  | t :: ts =>
      e <- embed_item env output_dim t ;;
      es <- embed_items env output_dim ts ;;
      ret (e :: es)
  end.

(** [EmbeddingService.generate_embedding], lines 50-135. *)
Definition generate_embedding (env : Env) (output_dim : option nat)
    (text : TextArg) : M Embeddings :=
  match text with
  | OneText [] => ret NoEmbedding
  | ManyTexts [] => ret NoEmbedding
  | OneText t =>
      try_except
        (if embed_client env
         then e <- embed_item env output_dim t ;; ret (OneEmbedding e)
         else raise (RuntimeError "Embedding client not initialized"))
        (fun _ => raise (RuntimeError "Embedding service failed"))
  | ManyTexts ts =>
      try_except
        (if embed_client env
         then es <- embed_items env output_dim ts ;; ret (ManyEmbeddings es)
         else raise (RuntimeError "Embedding client not initialized"))
        (fun _ => raise (RuntimeError "Embedding service failed"))
  end.

(** Line 343: [embedding_service = EmbeddingService(output_dim=768)]. *)
Definition output_dim : option nat := Some 768.

(** [np.dot(vec1, vec2)] on vectors of one length. *)
Fixpoint dot (a b : list Q) : Q :=
  match a, b with
  | x :: a', y :: b' => (x * y + dot a' b')%Q
  | _, _ => 0%Q
  end.

(** [np.linalg.norm(vec)] *)
Definition norm (a : list Q) : R := sqrt (Q2R (dot a a)).

(** [EmbeddingService.compute_similarity], lines 141-177.  Both vectors
    are cut to the shorter List.length first. *)
Definition compute_similarity (embedding1 embedding2 : list Q) : R :=
  let min_len := Nat.min (List.length embedding1) (List.length embedding2) in
  let vec1 := if Nat.eqb (List.length embedding1) (List.length embedding2)
              then embedding1 else firstn min_len embedding1 in
  let vec2 := if Nat.eqb (List.length embedding1) (List.length embedding2)
              then embedding2 else firstn min_len embedding2 in
  let n1 := norm vec1 in
  let n2 := norm vec2 in
  if Req_dec_T n1 0%R then 0%R
  else if Req_dec_T n2 0%R then 0%R
  else (Q2R (dot vec1 vec2) / (n1 * n2))%R.

(** [EmbeddingService.get_system_health], lines 297-340: the health probe
    embeds a fixed sentence. *)
Definition health_check_text : pystr := lit "Hello, this is a health check.".

Definition get_system_health (env : Env) : M bool :=
  try_except
    (if negb (embed_client env) then ret false
     else e <- generate_embedding env output_dim (OneText health_check_text) ;;
          ret (negb (falsy e)))
    (fun _ => ret false).

(** ** The rule-based question variants, lines 179-255 *)

(** [l[:n]] for an integer [n]: a negative [n] counts from the end. *)
Definition slice_to {A} (n : Z) (l : list A) : list A :=
  if (0 <=? n)%Z then firstn (Z.to_nat n) l
  else firstn (List.length l - Z.to_nat (- n)) l.

(** The letters of line 198. *)
Definition variant_arabic_letters : list N :=
  [1571; 1576; 1578; 1579; 1580; 1581; 1582; 1583; 1584; 1585; 1586; 1587;
   1588; 1589; 1590; 1591; 1592; 1593; 1594; 1601; 1602; 1603; 1604; 1605;
   1606; 1607; 1608; 1610]%N.

(** Lines 202-211 and 218. *)
Definition arabic_prefixes : list pystr :=
  [[1605; 1575; 32; 1607; 1608];
   [1571; 1582; 1576; 1585; 1606; 1610; 32; 1593; 1606];
   [1588; 1585; 1581];
   [1605; 1575; 32; 1607; 1610];
   [1603; 1610; 1601];
   [1605; 1578; 1609];
   [1571; 1610; 1606];
   [1604; 1605; 1575; 1584; 1575]]%N.

Definition arabic_alt_prefixes : list pystr := firstn 3 arabic_prefixes.

(** Lines 225-234 and 241. *)
Definition english_prefixes : list pystr :=
  [lit "What is"; lit "Tell me about"; lit "Explain"; lit "How"; lit "When";
   lit "Where"; lit "Why"; lit "Can you describe"].

Definition english_alt_prefixes : list pystr := firstn 3 english_prefixes.

(** [f"{prefix} {original_question}"] *)
Definition prefixed (prefix original_question : pystr) : pystr :=
  prefix ++ [32%N] ++ original_question.

(** One turn of the loop over the prefixes, lines 213-222 and 236-245:
    the question under the prefix, or, when it already starts with it,
    under the first alternative prefix that differs. *)
Definition variants_for_prefix (alt_prefixes : list pystr)
    (original_question prefix : pystr) : list pystr :=
  if negb (startswith original_question prefix)
  then [prefixed prefix original_question]
  else match find (fun alt => negb (PyStr.eqb alt prefix)) alt_prefixes with
       | Some alt_prefix => [prefixed alt_prefix original_question]
       | None => []
       end.

(** Lines 247-253: the first occurrence of every variant, in order. *)
Fixpoint unique_variants (seen variants : list pystr) : list pystr :=
  match variants with
  | [] => []
  | v :: vs =>
      if existsb (PyStr.eqb v) seen then unique_variants seen vs
      else v :: unique_variants (v :: seen) vs
  end.

(** [EmbeddingService.generate_question_variants], lines 179-255. *)
Definition generate_question_variants (original_question : pystr)
    (num_variants : Z) : list pystr :=
  let is_arabic :=
    existsb (PyStr.contains original_question) variant_arabic_letters in
  let variants :=
    if is_arabic
    then flat_map (variants_for_prefix arabic_alt_prefixes original_question)
                  (slice_to num_variants arabic_prefixes)
    else flat_map (variants_for_prefix english_alt_prefixes original_question)
                  (slice_to num_variants english_prefixes) in
  slice_to num_variants (unique_variants [] variants).

(** The values of [range(i, n, step)] for a positive [step]; [fuel]
    bounds their number. *)
Fixpoint range_from (fuel i n step : nat) : list nat :=
  match fuel with
  | O => []
  | S fuel' =>
      if Nat.ltb i n then i :: range_from fuel' (i + step) n step else []
  end.

(** The loop of [batch_generate_embeddings], lines 274-285, over the
    start indices [starts], with [all_embeddings] as collected so far. *)
Fixpoint embed_batches (env : Env) (output_dim : option nat)
    (texts : list pystr) (batch_size : nat) (starts : list nat)
    (all_embeddings : list (list Component)) : M (list (list Component)) :=
  match starts with
  | [] => ret all_embeddings
  | i :: starts' =>
      batch_embeddings <-
        generate_embedding env output_dim
          (ManyTexts (firstn batch_size (skipn i texts))) ;;
      match batch_embeddings with
      | ManyEmbeddings (e :: es) =>
          embed_batches env output_dim texts batch_size starts'
            (all_embeddings ++ e :: es)
      | _ => raise (RuntimeError "Failed to generate embeddings for batch")
      end
  end.

(** [EmbeddingService.batch_generate_embeddings], lines 257-291.  A
    zero step makes [range] raise [ValueError]; a negative one gives the
    empty range. *)
Definition batch_generate_embeddings (env : Env) (output_dim : option nat)
    (texts : list pystr) (batch_size : Z) : M (list (list Component)) :=
  try_except
    (if Z.eqb batch_size 0
     then raise (ValueError "range() arg 3 must not be zero")
     else if Z.ltb batch_size 0 then ret []
     else embed_batches env output_dim texts (Z.to_nat batch_size)
            (range_from (List.length texts) 0 (List.length texts)
               (Z.to_nat batch_size))
            [])
    (fun _ => raise (RuntimeError "Batch embedding generation failed")).

End EmbeddingService.

(* ================================================================== *)
(** * services/ai/qdrant_service.py *)
(* ================================================================== *)

Module QdrantService.

(** [QdrantService.is_connected], lines 71-81. *)
Definition is_connected (env : Env) : M bool :=
  if negb (qdrant_client env) then ret false
  else emit EvQdrantGetCollections ;;; ret (qdrant_alive env).

(** [not self.client or not self.is_connected()] *)
Definition usable (env : Env) : M bool :=
  if negb (qdrant_client env) then ret false else is_connected env.

(** [_ensure_collection_exists], lines 44-69. *)
Definition _ensure_collection_exists (env : Env) : M unit :=
  if negb (qdrant_client env) then ret tt
  else
    emit EvQdrantGetCollections ;;;
    if qdrant_alive env && negb (qdrant_collection_present env)
    then emit EvQdrantCreateCollection
    else ret tt.

(** Qdrant's [upsert] of one point: a point with the same id is replaced
    in place, a new id is appended. *)
Fixpoint upsert_point (ix : list Point) (p : Point) : list Point :=
  match ix with
  | [] => [p]
  | q :: ix' =>
      if N.eqb (point_id q) (point_id p) then p :: ix'
      else q :: upsert_point ix' p
  end.

Definition upsert_points (ix : list Point) (ps : list Point) : list Point :=
  fold_left upsert_point ps ix.

(** [self.embedding_dimension], line 28: the size of the vectors of the
    collection, lines 56-63. *)
Definition embedding_dimension : nat := 768.

(** Qdrant takes a vector only if it has the size of the collection. *)
Definition fits (vector : list Q) : bool :=
  Nat.eqb (List.length vector) embedding_dimension.

(** [self.client.upsert(collection_name, points)]: one vector of another
    size and the request is refused as a whole. *)
Definition client_upsert (env : Env) (ps : list Point) : M unit :=
  emit (EvQdrantUpsert (List.length ps)) ;;;
  if qdrant_upsert_ok env && forallb (fun p => fits (point_vector p)) ps
  then fun w => (Return tt, set_index w (upsert_points (w_index w) ps))
  else raise (TransportError "upsert").

(** The vector of a [PointStruct] and the [query_vector] of a search are
    lists of floats: the client's models refuse a list with any other
    component, before anything is sent. *)
Definition as_vector (embedding : list Component) : M (list Q) :=
  match floats_of embedding with
  | Some v => ret v
  | None => raise (ValueError "vector")
  end.

(** Parameters of [store_qa_embedding] besides [self], line 83-89. *)
Definition store_qa_embedding_params : list string :=
  ["qa_id"; "question"; "embedding"; "metadata"].

(** The payload built at lines 108-113. *)
Definition store_payload (qa_id : QaId) (question : pystr)
    (metadata : option dict) : dict :=
  dict_update
    [("question", VAtom (AStr question));
     ("qa_id", VAtom (AId qa_id));
     ("question_id", VAtom (AId qa_id))]
    (match metadata with Some m => m | None => [] end).

(** [QdrantService.store_qa_embedding], lines 83-134. *)
Definition store_qa_embedding (env : Env) (qa_id : QaId) (question : pystr)
    (embedding : list Component) (metadata : option dict) : M bool :=
  ok <- usable env ;;
  if negb ok then ret false
  else
    try_except
      (pid <- uuid4 ;;
       vector <- as_vector embedding ;;
       client_upsert env
         [mkPoint pid vector (store_payload qa_id question metadata)] ;;;
       ret true)
      (fun _ => ret false).

(** A call [qdrant_service.store_qa_embedding(k1=..., k2=..., ...)] with
    the keywords [keywords]. *)
Definition call_store_qa_embedding (env : Env) (keywords : list string)
    (qa_id : QaId) (question : pystr) (embedding : list Component)
    (metadata : option dict) : M bool :=
  bind_keywords "store_qa_embedding" store_qa_embedding_params keywords ;;;
  store_qa_embedding env qa_id question embedding metadata.

(** Insertion into a list sorted by decreasing score; equal scores keep
    their order of arrival. *)
Fixpoint insert_desc (x : Point * Q) (l : list (Point * Q)) : list (Point * Q) :=
  match l with
  | [] => [x]
  | y :: l' =>
      if Qle_bool (snd x) (snd y) then y :: insert_desc x l' else x :: y :: l'
  end.

Definition sort_desc (l : list (Point * Q)) : list (Point * Q) :=
  fold_left (fun acc x => insert_desc x acc) l [].

(** Qdrant's [search] with [limit] and [score_threshold] and no filter:
    the stored points scoring at least the threshold, best first, at most
    [limit] of them. *)
Definition scored_points (env : Env) (ix : list Point) (query : list Q)
    (limit : nat) (score_threshold : Q) : list (Point * Q) :=
  firstn limit
    (sort_desc
       (filter (fun ps => Qle_bool score_threshold (snd ps))
          (map (fun p => (p, qdrant_score env (point_vector p) query)) ix))).

(** Lines 190-199: one formatted result. *)
Definition format_hit (ps : Point * Q) : Hit :=
  let payload := point_payload (fst ps) in
  mkHit (dict_atom payload "qa_id")
        (dict_atom payload "question")
        (dict_atom payload "answer")
        (snd ps)
        (filter (fun kv => negb (mem_name (fst kv) ["qa_id"; "question"; "answer"]))
                payload).

(** [QdrantService.search_similar_questions] with [filters=None],
    lines 136-207.  [limit] is a Python [int]; Qdrant takes a limit of
    at least 1 and a query vector of the size of the collection, and
    refuses the request otherwise. *)
Definition search_similar_questions (env : Env)
    (query_embedding : list Component) (limit : Z) (score_threshold : Q)
  : M (list Hit) :=
  ok <- usable env ;;
  if negb ok then ret []
  else
    try_except
      (query_vector <- as_vector query_embedding ;;
       emit EvQdrantSearch ;;;
       if qdrant_search_ok env && (1 <=? limit)%Z && fits query_vector
       then w <- get_world ;;
            ret (map format_hit
                   (scored_points env (w_index w) query_vector
                      (Z.to_nat limit) score_threshold))
       else raise (TransportError "search"))
      (fun _ => ret []).

(** [FieldCondition(key="qa_id", match=MatchValue(value=qa_id))] *)
Definition has_qa_id (qa_id : QaId) (p : Point) : bool :=
  PyAtom_eqb (dict_atom (point_payload p) "qa_id") (AId qa_id).

(** [self.client.delete(collection_name, points_selector=point_ids)] *)
Definition client_delete (env : Env) (point_ids : list N) : M unit :=
  emit (EvQdrantDelete (List.length point_ids)) ;;;
  if qdrant_delete_ok env
  then fun w =>
         (Return tt,
          set_index w
            (filter (fun p => negb (existsb (N.eqb (point_id p)) point_ids))
                    (w_index w)))
  else raise (TransportError "delete").

(** [QdrantService.delete_qa_embedding], lines 209-239: the scroll
    returns at most 100 matching points; a failure of the scroll or of
    the delete is answered with [False]. *)
Definition delete_qa_embedding (env : Env) (qa_id : QaId) : M bool :=
  ok <- usable env ;;
  if negb ok then ret false
  else
    try_except
      (emit EvQdrantScroll ;;;
       if qdrant_scroll_ok env
       then
         w <- get_world ;;
         let point_ids :=
           map point_id (firstn 100 (filter (has_qa_id qa_id) (w_index w))) in
         match point_ids with
         | [] => ret true
         | _ => client_delete env point_ids ;;; ret true
         end
       else raise (TransportError "scroll"))
      (fun _ => ret false).

(** [QdrantService.update_qa_embedding], lines 241-251: the result of
    the delete is not looked at. *)
Definition update_qa_embedding (env : Env) (qa_id : QaId) (question : pystr)
    (embedding : list Component) (metadata : option dict) : M bool :=
  delete_qa_embedding env qa_id ;;;
  store_qa_embedding env qa_id question embedding metadata.

(** One element of [qa_data] for [batch_store_embeddings]. *)
Record BatchItem := mkBatchItem {
  b_qa_id : QaId;
  b_question : pystr;
  b_embedding : list Component;
  b_metadata : dict
}.

(** The loop of lines 293-306: one [PointStruct] per element. *)
Fixpoint batch_points (qa_data : list BatchItem) : M (list Point) :=
  match qa_data with
  | [] => ret []
  | d :: rest =>
      pid <- uuid4 ;;
      vector <- as_vector (b_embedding d) ;;
      ps <- batch_points rest ;;
      ret (mkPoint pid vector
             (dict_update
                [("question", VAtom (AStr (b_question d)));
                 ("qa_id", VAtom (AId (b_qa_id d)))]
                (b_metadata d)) :: ps)
  end.

(** [QdrantService.batch_store_embeddings], lines 278-322. *)
Definition batch_store_embeddings (env : Env) (qa_data : list BatchItem)
  : M nat :=
  ok <- usable env ;;
  if negb ok then ret 0%nat
  else
    try_except
      (points <- batch_points qa_data ;;
       client_upsert env points ;;;
       ret (List.length points))
      (fun _ => ret 0%nat).

(** [QdrantService.get_collection_stats], lines 253-276, as the
    [connected] flag the health check reads. *)
Definition get_collection_stats (env : Env) : M bool :=
  ok <- usable env ;;
  if negb ok then ret false
  else emit EvQdrantGetCollection ;;; ret (qdrant_get_collection_ok env).

End QdrantService.

(* ================================================================== *)
(** * services/repositories/qa_pair_repository.py *)
(* ================================================================== *)

Module QAPairRepository.

(** [db = next(get_db())] (services/database/database.py, lines 32-51). *)
Definition get_db (env : Env) : M unit :=
  emit EvDbSession ;;;
  if db_session_ok env then ret tt else raise (StorageError "session").

(** [QAPairRepository.create_qa_pair], lines 17-65: add, commit, refresh;
    on any failure roll back and re-raise.  Nothing is looked up before
    the insert and the table has no uniqueness constraint on the text. *)
Definition create_qa_pair (env : Env) (question_text answer_text : pystr)
    (user_id : option N) (confidence : Q) (source language : pystr)
    (metadata : dict) : M QAPair :=
  try_except
    (pk <- uuid4 ;;
     let qa_pair :=
       mkQAPair pk question_text answer_text user_id confidence source
                language metadata in
     emit EvDbCommit ;;;
     if db_commit_ok env
     then fun w => (Return qa_pair, set_db w (w_db w ++ [qa_pair]))
     else raise (StorageError "commit"))
    (fun e => emit EvDbRollback ;;; raise e).

(** The query of lines 96-98,
    [db.query(QAPair).filter(QAPair.qa_metadata.contains({"qa_id": question_id})).first()].
    [qa_metadata] is [Column(JSON)] (models/domain/qa_pair.py, line 21;
    [postgresql.JSON] in the migration).  Containment is an operator of
    [JSONB] only: on a [JSON] column [contains] is the string operator
    and the statement reads [qa_metadata LIKE '%' || ... || '%'].
    PostgreSQL has no [LIKE] for the type [json], so the statement is
    sent and refused. *)
Definition query_by_metadata_qa_id (env : Env) (question_id : PyAtom)
  : M (option QAPair) :=
  emit EvDbQuery ;;;
  raise (StorageError "operator does not exist: json ~~ text").

(** [QAPairRepository.get_qa_pair_by_question_id], lines 84-102: any
    failure of the query is answered with [None]. *)
Definition get_qa_pair_by_question_id (env : Env) (question_id : PyAtom)
  : M (option QAPair) :=
  try_except (query_by_metadata_qa_id env question_id) (fun _ => ret None).

(** [QAPairRepository.get_qa_pair_by_id], lines 67-82. *)
Definition get_qa_pair_by_id (env : Env) (qa_id : N) : M (option QAPair) :=
  try_except
    (emit EvDbQuery ;;;
     if db_query_ok env
     then w <- get_world ;;
          ret (find (fun row => N.eqb (qa_pk row) qa_id) (w_db w))
     else raise (StorageError "query"))
    (fun _ => ret None).

(** [QAPairRepository.delete_qa_pair], lines 213-238: look the row up,
    delete it, commit; on any failure roll back and answer [False]. *)
Definition delete_qa_pair (env : Env) (qa_id : N) : M bool :=
  try_except
    (qa_pair <- get_qa_pair_by_id env qa_id ;;
     match qa_pair with
     | None => ret false
     | Some row =>
         emit EvDbCommit ;;;
         if db_commit_ok env
         then fun w =>
                (Return true,
                 set_db w (filter (fun r => negb (N.eqb (qa_pk r) (qa_pk row)))
                                  (w_db w)))
         else raise (StorageError "commit")
     end)
    (fun _ => emit EvDbRollback ;;; ret false).

End QAPairRepository.

(* ================================================================== *)
(** * services/ai/gemini_service.py *)
(* ================================================================== *)

Module GeminiService.

(** The names module [gemini_service] binds: its imports (lines 1-12),
    [logger], the class and the instance. *)
Definition module_globals : list string :=
  ["os"; "logging"; "Optional"; "Dict"; "Any"; "List"; "asyncio"; "genai";
   "HarmCategory"; "HarmBlockThreshold"; "json"; "get_logger"; "time"; "ast";
   "datetime"; "re"; "logger"; "GeminiService"; "gemini_service"].

(** Attributes of a [GeminiService] instance: those set in [__init__]
    and the methods of the class. *)
Definition attributes : list string :=
  ["api_key"; "model_name"; "pro_model_name"; "client"; "model"; "pro_model";
   "max_tokens"; "_initialize_client"; "is_connected"; "answer_question";
   "generate_question_variants"; "_calculate_confidence"; "_extract_keywords";
   "_detect_language"; "check_content_safety"; "get_system_health"].

(** [GeminiService.answer_question], lines 81-177.  The first statement
    calls [log_function_entry], before the [try]; the success path calls
    [log_performance] and the handler calls [log_error_with_context]. *)
Definition answer_question (env : Env) (question : pystr)
    (context : option pystr) (language : pystr)
    (previous_qa_pairs : list Hit) : M GeminiAnswer :=
  load_global module_globals "log_function_entry" ;;;
  try_except
    (if gemini_model env
     then
       emit EvGeminiGenerate ;;;
       match gemini_answer env question with
       | Some a =>
           load_global module_globals "log_performance" ;;;
           load_global module_globals "log_function_exit" ;;;
           ret a
       | None => raise (RuntimeError "Empty response from Gemini")
       end
     else raise (RuntimeError "Gemini API key not configured"))
    (fun _ =>
       load_global module_globals "log_error_with_context" ;;;
       raise (RuntimeError "Failed to get answer from Gemini")).

(** [GeminiService.generate_question_variants], lines 179-241. *)
Definition generate_question_variants (env : Env) (original_question : pystr)
    (num_variants : nat) : M (list pystr) :=
  try_except
    (if gemini_model env
     then
       emit EvGeminiGenerate ;;;
       match gemini_variants env original_question with
       | Some variants => ret (firstn num_variants variants)
       | None => raise (RuntimeError "Empty response from Gemini")
       end
     else raise (RuntimeError "Gemini model not available"))
    (fun _ => raise (RuntimeError "Failed to generate question variants")).

(** [GeminiService.get_system_health], lines 336-369, as its
    [connected] flag. *)
Definition get_system_health (env : Env) : M bool :=
  if negb (gemini_model env) then ret false
  else emit EvGeminiGenerate ;;; ret (gemini_health_ok env).

(** [set(text.lower().split())]: the different words of the lowered
    text.  [lower] stands for [str.lower]. *)
Definition word_set (lower : pystr -> pystr) (text : pystr) : list pystr :=
  nodup (list_eq_dec N.eq_dec) (PyStr.split (lower text)).

(** [GeminiService._calculate_confidence], lines 243-268.  Nothing in
    the body raises, the division being guarded, so the handler's 0.8
    stays out. *)
Definition _calculate_confidence (lower : pystr -> pystr)
    (answer question : pystr) : Q :=
  let base : Q := (8 # 10)%Q in
  let by_length : Q :=
    if Nat.ltb 100 (List.length answer) then (base + (1 # 10))%Q
    else if Nat.ltb (List.length answer) 50 then (base - (1 # 10))%Q
    else base in
  let question_words := word_set lower question in
  let answer_words := word_set lower answer in
  let confidence : Q :=
    match question_words, answer_words with
    | _ :: _, _ :: _ =>
        let overlap :=
          List.length
            (filter (fun qw => existsb (PyStr.eqb qw) answer_words)
                    question_words) in
        let relevance : Q :=
          (Z.of_nat overlap # Pos.of_nat (List.length question_words))%Q in
        (by_length + relevance * (1 # 10))%Q
    | _, _ => by_length
    end in
  let capped : Q := if Qle_bool 1 confidence then 1%Q else confidence in
  if Qle_bool capped 0 then 0%Q else capped.

End GeminiService.

(* ================================================================== *)
(** * services/ai/web_scraping_service.py *)
(* ================================================================== *)

Module WebScrapingService.

(** Attributes of a [WebScrapingService] instance: those set in
    [__init__] (lines 53-119) and the methods of the class (lines
    121-571). *)
Definition attributes : list string :=
  ["session"; "rate_limit_delay"; "max_retries"; "timeout";
   "max_concurrent_requests"; "scraped_urls"; "last_request_time";
   "news_sources"; "headers"; "min_content_length"; "max_content_length";
   "blocked_words"; "__aenter__"; "__aexit__"; "initialize"; "cleanup";
   "_rate_limit"; "scrape_news_sources"; "_scrape_source"; "_fetch_page";
   "_extract_article_links"; "_is_article_link"; "_scrape_article";
   "_extract_title"; "_extract_content"; "_extract_date"; "_extract_author";
   "_extract_category"; "_extract_tags"; "_extract_keywords"; "_clean_text";
   "_is_valid_article"; "get_scraping_stats"; "clear_scraped_urls"].

(** The call [web_scraping_service.get_content_for_context(q, max_articles=5)]
    of intelligent_qa_service.py, line 248: the attribute is looked up
    first. *)
Definition call_get_content_for_context (env : Env) (question : pystr)
    (max_articles : nat) : M pystr :=
  getattr "WebScrapingService" attributes "get_content_for_context" ;;;
  ret (web_context_for env question).

(** What one evaluation of [self.session.get(url)] with the reading of
    the response comes to: status 200 with the text, status 404, another
    status, or an exception ([asyncio.TimeoutError] or any other, a
    missing session included). *)
Inductive PageReply :=
| Status200 (content : pystr)
| Status404
| StatusOther (status : nat)
| GetRaises.

(** What [_fetch_page] does that takes time or reaches the network. *)
Inductive FetchStep :=
| StRateLimit
| StRequest
| StSleep (seconds : Z).

(** A reply after which the loop goes on to the next attempt. *)
Definition transient (r : PageReply) : bool :=
  match r with
  | Status200 _ | Status404 => false
  | StatusOther _ | GetRaises => true
  end.

(** The page a reply that ends the loop gives. *)
Definition page_of (r : PageReply) : option pystr :=
  match r with
  | Status200 content => Some content
  | _ => None
  end.

(** The loop [for attempt in range(self.max_retries)] of [_fetch_page],
    lines 298-318, from [attempt] on with [todo] attempts left;
    [reply k] is what attempt [k] meets. *)
Fixpoint fetch_attempts (max_retries : Z) (reply : nat -> PageReply)
    (todo attempt : nat) : option pystr * list FetchStep :=
  match todo with
  | O => (None, [])
  | S todo' =>
      match reply attempt with
      | Status200 content => (Some content, [StRateLimit; StRequest])
      | Status404 => (None, [StRateLimit; StRequest])
      | StatusOther _ | GetRaises =>
          let backoff :=
            if Z.ltb (Z.of_nat attempt) (max_retries - 1)
            then [StSleep (2 ^ Z.of_nat attempt)]
            else [] in
          let rest := fetch_attempts max_retries reply todo' (S attempt) in
          (fst rest, StRateLimit :: StRequest :: backoff ++ snd rest)
      end
  end.

(** [WebScrapingService._fetch_page], lines 296-320: the page and what
    was done for it. *)
Definition _fetch_page (max_retries : Z) (reply : nat -> PageReply)
  : option pystr * list FetchStep :=
  fetch_attempts max_retries reply (Z.to_nat max_retries) 0.

(** The number of requests among the steps. *)
Definition requests (steps : list FetchStep) : nat :=
  List.length
    (filter (fun s => match s with StRequest => true | _ => false end) steps).

(** The back-off sleeps among the steps, in order. *)
Definition sleeps (steps : list FetchStep) : list Z :=
  flat_map (fun s => match s with StSleep d => [d] | _ => [] end) steps.

End WebScrapingService.

(* ================================================================== *)
(** * services/ai/intelligent_qa_service.py *)
(* ================================================================== *)

Module IntelligentQAService.

(** Lines 47-49. *)
Definition semantic_search_threshold : Q := 85 # 100.
Definition quality_threshold : Q := 95 # 100.
Definition max_variants_to_generate : nat := 5.
(** The literal of line 268. *)
Definition fallback_floor : Q := 3 # 10.

(** The letters of line 602. *)
Definition arabic_letters : list N :=
  [1571; 1576; 1578; 1579; 1580; 1581; 1582; 1583; 1584; 1585; 1586; 1587;
   1588; 1589; 1590; 1591; 1592; 1593; 1594; 1601; 1602; 1603; 1604; 1605;
   1606; 1607; 1608; 1610]%N.

(** ['?'], ['؟'] (U+061F) and ['.'] *)
Definition question_mark : N := 63.
Definition arabic_question_mark : N := 1567.
Definition full_stop : N := 46.

(** [IntelligentQAService._normalize_question], lines 592-607. *)
Definition _normalize_question (question : pystr) : pystr :=
  let normalized := sub_ws false (strip question) in
  if endswith_any normalized [question_mark; arabic_question_mark; full_stop]
  then normalized
  else
    let is_ar := existsb (contains normalized) arabic_letters in
    normalized ++ [if is_ar then arabic_question_mark else question_mark].

(** The dictionary both formatters return; the clock readings are left
    out. *)
Record Response := mkResponse {
  r_answer : option pystr;
  r_confidence : Q;
  r_source : string;
  r_steps : list string;
  r_metadata : dict;
  r_status : string;
  r_reason : option string
}.

(** [_format_response], lines 609-630. *)
Definition _format_response (answer : pystr) (source : string)
    (confidence : Q) (processing_steps : list string) (metadata : dict)
  : Response :=
  mkResponse (Some answer) confidence source processing_steps metadata
             "success" None.

(** [_format_error], lines 632-650. *)
Definition _format_error (processing_steps : list string) (reason : string)
  : Response :=
  mkResponse None 0%Q "error" processing_steps [] "error" (Some reason).

(** The caller's [user_id: Optional[str]]: text that parses as a UUID, or
    any other text. *)
Inductive UserRef :=
| UserUuid (u : N)
| UserText (s : pystr).

Definition user_atom (user_id : option UserRef) : PyAtom :=
  match user_id with
  | None => ANone
  | Some (UserUuid u) => AUuid u
  | Some (UserText s) => AStr s
  end.

(** [uuid.UUID(user_id) if user_id else None] *)
Definition parse_user_id (user_id : option UserRef) : M (option N) :=
  match user_id with
  | None => ret None
  | Some (UserText []) => ret None
  | Some (UserUuid u) => ret (Some u)
  | Some (UserText _) => raise (ValueError "badly formed hexadecimal UUID string")
  end.

(** [d.get(k, default)] for a text entry. *)
Definition dict_text (d : dict) (k : string) (default : pystr) : pystr :=
  match dict_get d k with
  | Some (VAtom (AStr s)) => s
  | _ => default
  end.

(** [_check_system_health], lines 106-149: the flags of Qdrant, the
    embedding service and Gemini. *)
Definition _check_system_health (env : Env) : M (bool * bool * bool) :=
  q <- try_except (QdrantService.get_collection_stats env) (fun _ => ret false) ;;
  e <- try_except (EmbeddingService.get_system_health env) (fun _ => ret false) ;;
  g <- try_except (GeminiService.get_system_health env) (fun _ => ret false) ;;
  ret (q, e, g).

(** [initialize_system], lines 59-104: initialised when Qdrant and the
    embedding service are healthy. *)
Definition initialize_system (env : Env) : M unit :=
  try_except
    (QdrantService._ensure_collection_exists env ;;;
     h <- _check_system_health env ;;
     let '(q, e, _) := h in
     if q && e then fun w => (Return tt, set_initialized w true) else ret tt)
    (fun _ => ret tt).

(** [ensure_initialized], lines 151-166. *)
Definition ensure_initialized (env : Env) : M unit :=
  w <- get_world ;;
  if w_initialized w then ret tt else initialize_system env.

(** The keywords of the three calls of [store_qa_embedding] in this file
    (lines 387-393, 427-438, 514-525) and of the one in
    news_integration_service.py (lines 281-287). *)
Definition store_call_keywords : list string :=
  ["qa_id"; "question"; "answer"; "embedding"; "metadata"].

(** [IntelligentQAService._store_new_qa_pair], lines 353-403.  The row
    returned by [create_qa_pair] is an object, hence true. *)
Definition _store_new_qa_pair (env : Env) (question answer : pystr)
    (embedding : list Component) (confidence : Q) (metadata : dict)
    (user_id : option UserRef) : M bool :=
  try_except
    (w <- get_world ;;
     let qa_id := IdQa (Z.abs (py_hash env question)) (w_now w) in
     QAPairRepository.get_db env ;;;
     uid <- parse_user_id user_id ;;
     qa_pair <- QAPairRepository.create_qa_pair env question answer uid
                  confidence
                  (dict_text metadata "model_used" (lit "gemini_api"))
                  (dict_text metadata "language" (lit "auto"))
                  (dict_set metadata "qa_id" (VAtom (AId qa_id))) ;;
     qdrant_success <-
       QdrantService.call_store_qa_embedding env store_call_keywords
         qa_id question embedding
         (Some (dict_set (dict_set metadata "qa_id" (VAtom (AId qa_id)))
                         "postgresql_id" (VAtom (AUuid (qa_pk qa_pair))))) ;;
     ret true)
    (fun _ => ret false).

(** The body of the loop of [_generate_and_store_variants], lines
    423-441. *)
Definition store_variant (env : Env) (original_question answer : pystr)
    (user_id : option UserRef) (variant : pystr) : M unit :=
  try_except
    (variant_embedding <-
       EmbeddingService.generate_embedding env EmbeddingService.output_dim
         (EmbeddingService.OneText variant) ;;
     match variant_embedding with
     | EmbeddingService.OneEmbedding (x :: v) =>
         w <- get_world ;;
         QdrantService.call_store_qa_embedding env store_call_keywords
           (IdVariant (Z.abs (py_hash env variant)) (w_now w))
           variant (x :: v)
           (Some [("is_variant", VAtom (ABool true));
                  ("original_question", VAtom (AStr original_question));
                  ("user_id", VAtom (user_atom user_id))]) ;;;
         ret tt
     | _ => ret tt
     end)
    (fun _ => ret tt).

Fixpoint store_variants (env : Env) (original_question answer : pystr)
    (user_id : option UserRef) (variants : list pystr) : M unit :=
  match variants with
  | [] => ret tt
  | v :: vs =>
      store_variant env original_question answer user_id v ;;;
      store_variants env original_question answer user_id vs
  end.

(** [IntelligentQAService._generate_and_store_variants], lines 405-446. *)
Definition _generate_and_store_variants (env : Env)
    (original_question answer : pystr) (original_embedding : list Component)
    (user_id : option UserRef) : M unit :=
  try_except
    (variants <- GeminiService.generate_question_variants env
                   original_question max_variants_to_generate ;;
     store_variants env original_question answer user_id variants)
    (fun _ => ret tt).

(** The outer [except Exception] of [process_question], lines 347-351,
    around one step: [processing_steps] is what was appended so far. *)
Definition guarded {A} (processing_steps : list string) (c : M A)
    (k : A -> M Response) : M Response :=
  fun w => match c w with
           | (Return a, w') => k a w'
           | (Raise _, w') =>
               (Return (_format_error processing_steps "internal_error"), w')
           end.

(** [[qa["question"] for qa in similar_qa_pairs[:3]]] *)
Definition similar_questions (similar_qa_pairs : list Hit) : PyVal :=
  VList (map hit_question (firstn 3 similar_qa_pairs)).

(** Lines 263-299: the handler of a failed Gemini call;
    ["gemini_api_failed"] is already appended. *)
Definition gemini_failed (env : Env) (similar_qa_pairs : list Hit)
    (processing_steps : list string) : M Response :=
  match similar_qa_pairs with
  | best_match :: _ =>
      if Qle_bool fallback_floor (similarity_score best_match)
      then
        guarded processing_steps (QAPairRepository.get_db env) (fun _ =>
        guarded processing_steps
          (QAPairRepository.get_qa_pair_by_question_id env (hit_qa_id best_match))
          (fun qa =>
             match qa with
             | Some qa_pair =>
                 ret (_format_response (answer_text qa_pair)
                        "vector_search_fallback"
                        (similarity_score best_match) processing_steps
                        [("similar_questions", similar_questions similar_qa_pairs);
                         ("original_qa_id", VAtom (hit_qa_id best_match));
                         ("postgresql_id", VAtom (AUuid (qa_pk qa_pair)));
                         ("fallback_reason",
                          VAtom (AStr (lit "gemini_api_unavailable")))])
             | None =>
                 ret (_format_error processing_steps "generation_failure")
             end))
      else ret (_format_error processing_steps "generation_failure")
  | [] => ret (_format_error processing_steps "generation_failure")
  end.

(** Lines 301-345: store the pair, expand the variants, answer.  The
    [created_at] and [processing_time] entries, clock readings, are left
    out of the two dictionaries. *)
Definition store_and_answer (env : Env) (normalized_question : pystr)
    (question_embedding : list Component) (gemini_response : GeminiAnswer)
    (web_context : pystr) (user_id : option UserRef)
    (processing_steps : list string) : M Response :=
  let metadata :=
    [("language", VAtom (AStr (g_language gemini_response)));
     ("sources", VList []);
     ("keywords", VList (g_keywords gemini_response));
     ("web_context_used", VAtom (ABool (negb (PyStr.falsy web_context))));
     ("model_used", VAtom (AStr (g_model_used gemini_response)));
     ("user_id", VAtom (user_atom user_id))] in
  guarded processing_steps
    (_store_new_qa_pair env normalized_question (g_answer gemini_response)
       question_embedding (g_confidence gemini_response) metadata user_id)
    (fun storage_success =>
  let steps1 := processing_steps ++
                [if storage_success then "answer_stored" else "storage_failed"] in
  guarded steps1
    (_generate_and_store_variants env normalized_question
       (g_answer gemini_response) question_embedding user_id)
    (fun _ =>
  ret (_format_response (g_answer gemini_response) "gemini_api"
         (g_confidence gemini_response) (steps1 ++ ["variants_generated"])
         [("sources", VList []);
          ("keywords", VList (g_keywords gemini_response));
          ("web_context_used", VAtom (ABool (negb (PyStr.falsy web_context))))]))).

(** Lines 253-345: the Gemini call with the fetched context, its handler
    and the write-back. *)
Definition generate_stage (env : Env) (normalized_question : pystr)
    (question_embedding : list Component) (similar_qa_pairs : list Hit)
    (web_context : pystr) (context : option pystr) (language : pystr)
    (user_id : option UserRef) (processing_steps : list string) : M Response :=
  fun w =>
    match GeminiService.answer_question env normalized_question
            (if PyStr.falsy web_context then context else Some web_context)
            language (firstn 3 similar_qa_pairs) w with
    | (Return gemini_response, w') =>
        store_and_answer env normalized_question question_embedding
          gemini_response web_context user_id
          (processing_steps ++ ["gemini_api_success"]) w'
    | (Raise _, w') =>
        gemini_failed env similar_qa_pairs
          (processing_steps ++ ["gemini_api_failed"]) w'
    end.

(** Lines 244-251 and on: the miss (or low-quality) branch. *)
Definition miss_branch (env : Env) (normalized_question : pystr)
    (question_embedding : list Component) (similar_qa_pairs : list Hit)
    (context : option pystr) (language : pystr) (user_id : option UserRef)
    (processing_steps : list string) : M Response :=
  let steps1 := processing_steps ++ ["semantic_search_miss_or_low_quality"] in
  guarded steps1
    (WebScrapingService.call_get_content_for_context env normalized_question 5)
    (fun web_context =>
       generate_stage env normalized_question question_embedding
         similar_qa_pairs web_context context language user_id
         (steps1 ++ ["web_content_fetched"])).

(** Lines 217-242: the hit branch, falling through to the miss branch. *)
Definition after_search (env : Env) (normalized_question : pystr)
    (question_embedding : list Component) (similar_qa_pairs : list Hit)
    (context : option pystr) (language : pystr) (user_id : option UserRef)
    (processing_steps : list string) : M Response :=
  match similar_qa_pairs with
  | best_match :: _ =>
      let steps1 := processing_steps ++ ["semantic_search_hit"] in
      if Qle_bool quality_threshold (similarity_score best_match)
      then
        guarded steps1 (QAPairRepository.get_db env) (fun _ =>
        guarded steps1
          (QAPairRepository.get_qa_pair_by_question_id env (hit_qa_id best_match))
          (fun qa =>
             match qa with
             | Some qa_pair =>
                 ret (_format_response (answer_text qa_pair) "vector_search"
                        (similarity_score best_match) steps1
                        [("similar_questions", similar_questions similar_qa_pairs);
                         ("original_qa_id", VAtom (hit_qa_id best_match));
                         ("postgresql_id", VAtom (AUuid (qa_pk qa_pair)))])
             | None =>
                 miss_branch env normalized_question question_embedding
                   similar_qa_pairs context language user_id steps1
             end))
      else miss_branch env normalized_question question_embedding
             similar_qa_pairs context language user_id steps1
  | [] =>
      miss_branch env normalized_question question_embedding
        similar_qa_pairs context language user_id processing_steps
  end.

(** [IntelligentQAService.process_question], lines 168-351. *)
Definition process_question (env : Env) (question : pystr)
    (user_id : option UserRef) (context : option pystr) (language : pystr)
  : M Response :=
  guarded [] (ensure_initialized env) (fun _ =>
  let normalized_question := _normalize_question question in
  let steps1 := ["input_normalized"] in
  guarded steps1
    (EmbeddingService.generate_embedding env EmbeddingService.output_dim
       (EmbeddingService.OneText normalized_question))
    (fun question_embedding =>
       match question_embedding with
       | EmbeddingService.OneEmbedding (x :: v) =>
           let steps2 := steps1 ++ ["embedding_generated"] in
           guarded steps2
             (QdrantService.search_similar_questions env (x :: v) 5%Z
                semantic_search_threshold)
             (fun similar_qa_pairs =>
                after_search env normalized_question (x :: v)
                  similar_qa_pairs context language user_id steps2)
       | _ => ret (_format_error steps1 "embedding_failure")
       end)).

(** [str(e)] for the exceptions of the interpreter; an exception of an
    external library gives the text it carries. *)
Definition exception_text (e : PyExc) : pystr :=
  match e with
  | NameError name => lit ("name '" ++ name ++ "' is not defined")
  | AttributeError obj attr =>
      lit ("'" ++ obj ++ "' object has no attribute '" ++ attr ++ "'")
  | TypeError callee keyword =>
      lit (callee ++ "() got an unexpected keyword argument '" ++ keyword ++ "'")
  | ValueError what | RuntimeError what | StorageError what
  | TransportError what => lit what
  end.

(** The dictionary [check_gemini_quota] returns: its [status] and, in
    the three failure cases, the [error] text. *)
Record QuotaReport := mkQuotaReport {
  quota_status : string;
  quota_error : option pystr
}.

(** [IntelligentQAService.check_gemini_quota], lines 537-573.  [lower]
    stands for [str.lower]. *)
Definition check_gemini_quota (lower : pystr -> pystr) (env : Env)
  : M QuotaReport :=
  try_except
    (GeminiService.answer_question env (lit "test") (Some (lit "test"))
       (lit "en") [] ;;;
     ret (mkQuotaReport "available" None))
    (fun e =>
       let error_str := exception_text e in
       if PyStr.occurs (lit "429") error_str &&
          PyStr.occurs (lit "quota") (lower error_str)
       then ret (mkQuotaReport "quota_exceeded" (Some error_str))
       else if PyStr.occurs (lit "401") error_str ||
               PyStr.occurs (lit "403") error_str
       then ret (mkQuotaReport "unauthorized" (Some error_str))
       else ret (mkQuotaReport "error" (Some error_str))).

(** One entry of the list [find_similar_questions] returns; the
    [created_at] entry, a clock reading of the row, is left out. *)
Record Suggestion := mkSuggestion {
  sg_question : pystr;
  sg_answer : pystr;
  sg_similarity_score : Q;
  sg_confidence : Q;
  sg_source : pystr
}.

(** The loop of [find_similar_questions], lines 472-485, with [results]
    as collected so far. *)
Fixpoint suggestions (env : Env) (similar_qa_pairs : list Hit)
    (results : list Suggestion) : M (list Suggestion) :=
  match similar_qa_pairs with
  | [] => ret results
  | qa_pair :: rest =>
      postgres_qa <-
        QAPairRepository.get_qa_pair_by_question_id env (hit_qa_id qa_pair) ;;
      match postgres_qa with
      | Some row =>
          suggestions env rest
            (results ++
             [mkSuggestion (question_text row) (answer_text row)
                (similarity_score qa_pair) (qa_confidence row)
                (qa_source row)])
      | None => suggestions env rest results
      end
  end.

(** The threshold of [find_similar_questions], line 466. *)
Definition suggestion_threshold : Q := (7 # 10)%Q.

(** [IntelligentQAService.find_similar_questions], lines 448-493.
    [limit] is the [int] the endpoint hands on as it gets it. *)
Definition find_similar_questions (env : Env) (question : pystr)
    (limit : Z) : M (list Suggestion) :=
  try_except
    (embedding <-
       EmbeddingService.generate_embedding env EmbeddingService.output_dim
         (EmbeddingService.OneText question) ;;
     match embedding with
     | EmbeddingService.OneEmbedding (x :: v) =>
         similar_qa_pairs <-
           QdrantService.search_similar_questions env (x :: v) limit
             suggestion_threshold ;;
         QAPairRepository.get_db env ;;;
         suggestions env similar_qa_pairs []
     | _ => ret []
     end)
    (fun _ => ret []).

(** The list handed on as [embedding=]; [None] has no components. *)
Definition embedding_values (e : EmbeddingService.Embeddings)
  : list Component :=
  match e with
  | EmbeddingService.OneEmbedding v => v
  | _ => []
  end.

(** The body of the loop of [augment_question_variants], lines
    510-528; the [created_at] entry, a clock reading, is left out. *)
Definition augment_variant (env : Env) (question answer : pystr)
    (user_id : option UserRef) (variant : pystr) : M unit :=
  try_except
    (variant_embedding <-
       EmbeddingService.generate_embedding env EmbeddingService.output_dim
         (EmbeddingService.OneText variant) ;;
     w <- get_world ;;
     QdrantService.call_store_qa_embedding env store_call_keywords
       (IdAugment (Z.abs (py_hash env variant)) (w_now w))
       variant (embedding_values variant_embedding)
       (Some [("is_augmented", VAtom (ABool true));
              ("original_question", VAtom (AStr question));
              ("user_id", VAtom (user_atom user_id))]) ;;;
     ret tt)
    (fun _ => ret tt).

Fixpoint augment_variants (env : Env) (question answer : pystr)
    (user_id : option UserRef) (variants : list pystr) : M unit :=
  match variants with
  | [] => ret tt
  | v :: vs =>
      augment_variant env question answer user_id v ;;;
      augment_variants env question answer user_id vs
  end.

(** [IntelligentQAService.augment_question_variants], lines 495-535. *)
Definition augment_question_variants (env : Env) (question answer : pystr)
    (user_id : option UserRef) : M (list pystr) :=
  try_except
    (variants <- GeminiService.generate_question_variants env question
                   max_variants_to_generate ;;
     augment_variants env question answer user_id variants ;;;
     ret variants)
    (fun _ => ret []).

End IntelligentQAService.

(* ================================================================== *)
(** * services/ai/news_integration_service.py *)
(* ================================================================== *)

Module NewsIntegrationService.

(** A processed pair, as [_process_qa_pair] builds it (lines 240-260):
    the identifier is [news_] followed by sixteen hex digits of the MD5
    of question and answer. *)
Record NewsPair := mkNewsPair {
  n_id : QaId;
  n_question : pystr;
  n_answer : pystr;
  n_source : pystr;
  n_metadata : dict
}.

Record StoreReport := mkStoreReport {
  sr_status : string;
  stored_count : nat;
  total_pairs : nat
}.

(** The body of the loop of [_store_qa_pairs], lines 274-294: [true]
    when the pair is counted as stored.  The only store it addresses is
    the vector index. *)
Definition store_pair (env : Env) (qa_pair : NewsPair) : M bool :=
  try_except
    (question_embedding <-
       EmbeddingService.generate_embedding env EmbeddingService.output_dim
         (EmbeddingService.OneText (n_question qa_pair)) ;;
     match question_embedding with
     | EmbeddingService.OneEmbedding (x :: v) =>
         QdrantService.call_store_qa_embedding env
           IntelligentQAService.store_call_keywords
           (n_id qa_pair) (n_question qa_pair) (x :: v)
           (Some (n_metadata qa_pair))
     | _ => ret false
     end)
    (fun _ => ret false).

Fixpoint store_pairs (env : Env) (qa_pairs : list NewsPair) (count : nat)
  : M nat :=
  match qa_pairs with
  | [] => ret count
  | p :: ps =>
      success <- store_pair env p ;;
      store_pairs env ps (if success then S count else count)
  end.

(** [NewsIntegrationService._store_qa_pairs], lines 268-308. *)
Definition _store_qa_pairs (env : Env) (qa_pairs : list NewsPair)
  : M StoreReport :=
  try_except
    (n <- store_pairs env qa_pairs 0 ;;
     ret (mkStoreReport "success" n (List.length qa_pairs)))
    (fun _ => ret (mkStoreReport "error" 0 0)).

(** A [ScrapedArticle] (web_scraping_service.py, lines 19-37), as far
    as this service reads it. *)
Record ScrapedArticle := mkScrapedArticle {
  art_title : pystr;
  art_content : pystr;
  art_url : pystr;
  art_source : pystr;
  art_published_date : option pystr;
  art_category : option pystr;
  art_language : pystr
}.

(** An element of the [qa_pairs] list of the provider's JSON answer. *)
Record RawPair := mkRawPair {
  raw_question : option pystr;
  raw_answer : option pystr
}.

(** What the call of [gemini_service.generate_content] and the parsing
    of its answer would come to. *)
Inductive ContentReply :=
| ContentRaises (e : PyExc)
| ContentEmpty
| ContentNotJson
| ContentJson (qa_pairs : list RawPair).

Definition opt_atom (s : option pystr) : PyAtom :=
  match s with Some t => AStr t | None => ANone end.

(** [NewsIntegrationService._process_qa_pair], lines 228-266.
    [md5_hex] stands for the hex digest of the MD5 of a text.  The
    [tags] of the article and the clock reading [generated_at] are left
    out of the metadata. *)
Definition _process_qa_pair (md5_hex : pystr -> pystr) (qa_pair : RawPair)
    (article : ScrapedArticle) : option NewsPair :=
  let question :=
    PyStr.strip (match raw_question qa_pair with Some q => q | None => [] end) in
  let answer :=
    PyStr.strip (match raw_answer qa_pair with Some a => a | None => [] end) in
  if PyStr.falsy question || PyStr.falsy answer then None
  else
    Some (mkNewsPair
            (IdNews (firstn 16 (md5_hex (question ++ answer))))
            question answer
            (lit "news_" ++ art_source article)
            [("original_article",
              VDict [("title", AStr (art_title article));
                     ("url", AStr (art_url article));
                     ("source", AStr (art_source article));
                     ("published_date", opt_atom (art_published_date article));
                     ("category", opt_atom (art_category article))]);
             ("language", VAtom (AStr (art_language article)))]).

(** The loop of lines 214-217. *)
Fixpoint process_pairs (md5_hex : pystr -> pystr) (qa_pairs : list RawPair)
    (article : ScrapedArticle) : list NewsPair :=
  match qa_pairs with
  | [] => []
  | qa_pair :: rest =>
      match _process_qa_pair md5_hex qa_pair article with
      | Some processed_pair =>
          processed_pair :: process_pairs md5_hex rest article
      | None => process_pairs md5_hex rest article
      end
  end.

(** [NewsIntegrationService._generate_qa_from_article], lines 191-226:
    the attribute [generate_content] is looked up on the Gemini service
    before anything is sent. *)
Definition _generate_qa_from_article (md5_hex : pystr -> pystr)
    (content_reply : ScrapedArticle -> ContentReply)
    (article : ScrapedArticle) : M (list NewsPair) :=
  try_except
    (getattr "GeminiService" GeminiService.attributes "generate_content" ;;;
     match content_reply article with
     | ContentRaises e => raise e
     | ContentEmpty => ret []
     | ContentNotJson => ret []
     | ContentJson qa_pairs => ret (process_pairs md5_hex qa_pairs article)
     end)
    (fun _ => ret []).

(** [NewsIntegrationService._convert_articles_to_qa], lines 174-189,
    with [qa_pairs] as collected so far. *)
Fixpoint _convert_articles_to_qa (md5_hex : pystr -> pystr)
    (content_reply : ScrapedArticle -> ContentReply)
    (articles : list ScrapedArticle) (qa_pairs : list NewsPair)
  : M (list NewsPair) :=
  match articles with
  | [] => ret qa_pairs
  | article :: rest =>
      fun w =>
        match _generate_qa_from_article md5_hex content_reply article w with
        | (Return article_qa_pairs, w') =>
            _convert_articles_to_qa md5_hex content_reply rest
              (qa_pairs ++ article_qa_pairs) w'
        | (Raise _, w') =>
            _convert_articles_to_qa md5_hex content_reply rest qa_pairs w'
        end
  end.

(** Line 29: [self.update_interval_hours = 6]. *)
Definition update_interval_hours : Z := 6.

(** [NewsIntegrationService._should_update], lines 143-149; times in
    microseconds, the resolution of [datetime]. *)
Definition _should_update (last_update_time : option Z) (now : Z) : bool :=
  match last_update_time with
  | None => true
  | Some t => Z.leb (update_interval_hours * 3600 * 1000000) (now - t)
  end.

(** The dictionary [_scrape_fresh_news] returns (lines 151-172), as far
    as [update_news_knowledge] reads it. *)
Record ScrapingResult := mkScrapingResult {
  scr_status : string;
  scr_error : option pystr;
  scr_articles : list ScrapedArticle
}.

(** The dictionaries [update_news_knowledge] returns. *)
Inductive UpdateReport :=
| UpSkipped (last_update : option Z)
| UpScrapingFailed (error : option pystr)
| UpNoArticles
| UpConversionFailed
| UpStored (articles_scraped qa_pairs_generated qa_pairs_stored : nat)
           (last_update : Z)
| UpFailed (error : pystr).

(** The [status] entry of a report. *)
Definition up_status (r : UpdateReport) : string :=
  match r with
  | UpSkipped _ => "skipped"
  | UpNoArticles | UpStored _ _ _ _ => "success"
  | UpScrapingFailed _ | UpConversionFailed | UpFailed _ => "error"
  end.

(** [NewsIntegrationService.update_news_knowledge], lines 57-141, from
    the result of [_scrape_fresh_news] on: the report and the new value
    of [self.last_update_time].  [now] is the reading of
    [datetime.now()]. *)
Definition update_news_knowledge (env : Env) (md5_hex : pystr -> pystr)
    (content_reply : ScrapedArticle -> ContentReply) (now : Z)
    (force_update : bool) (last_update_time : option Z)
    (scraping_result : ScrapingResult) : M (UpdateReport * option Z) :=
  try_except
    (if negb force_update && negb (_should_update last_update_time now)
     then ret (UpSkipped last_update_time, last_update_time)
     else if negb (String.eqb (scr_status scraping_result) "success")
     then ret (UpScrapingFailed (scr_error scraping_result), last_update_time)
     else
       match scr_articles scraping_result with
       | [] => ret (UpNoArticles, last_update_time)
       | articles =>
           qa_pairs <- _convert_articles_to_qa md5_hex content_reply articles [] ;;
           match qa_pairs with
           | [] => ret (UpConversionFailed, last_update_time)
           | _ =>
               storage_result <- _store_qa_pairs env qa_pairs ;;
               ret (UpStored (List.length articles) (List.length qa_pairs)
                      (stored_count storage_result) now,
                    Some now)
           end
       end)
    (fun e =>
       ret (UpFailed (IntelligentQAService.exception_text e),
            last_update_time)).

End NewsIntegrationService.

(* ================================================================== *)
(** * api/ai/intelligent_qa.py *)
(* ================================================================== *)

Module Api.

Inductive HttpResult :=
| HttpError (status_code : nat)
| HttpOk (data : IntelligentQAService.Response).

(** [status_code_mapping], lines 85-100. *)
Definition status_code_mapping (reason : string) : nat :=
  if mem_name reason
       ["embedding_failure"; "generation_failure"; "cache_failure";
        "vector_search_failure"; "storage_failure"; "service_unavailable"]
  then 503
  else if String.eqb reason "validation_error" then 400
  else if String.eqb reason "rate_limit_exceeded" then 429
  else if String.eqb reason "authentication_error" then 401
  else if String.eqb reason "authorization_error" then 403
  else if String.eqb reason "resource_not_found" then 404
  else 500.

(** [ask_intelligent_question], lines 17-135, for an authenticated
    [current_user] with primary key [current_user_id]. *)
Definition ask_intelligent_question (env : Env) (question : pystr)
    (user_id : option IntelligentQAService.UserRef) (context : option pystr)
    (language : pystr) (current_user_id : N) : M HttpResult :=
  if PyStr.falsy question || PyStr.falsy (strip question)
  then ret (HttpError 400)
  else
    let user_id' :=
      match user_id with
      | None | Some (IntelligentQAService.UserText []) =>
          Some (IntelligentQAService.UserUuid current_user_id)
      | _ => user_id
      end in
    result <- IntelligentQAService.process_question env (strip question)
                user_id' context language ;;
    if String.eqb (IntelligentQAService.r_status result) "error"
    then ret (HttpError
                (status_code_mapping
                   (match IntelligentQAService.r_reason result with
                    | Some r => r
                    | None => "unknown_error"
                    end)))
    else ret (HttpOk result).

End Api.

(* ================================================================== *)
(** * Properties the pipeline is checked against *)
(* ================================================================== *)

(** Running a computation: its outcome and the world it leaves. *)
Definition outcome {A} (c : M A) (w : World) : Outcome A := fst (c w).
Definition world_after {A} (c : M A) (w : World) : World := snd (c w).

(** Rows of the canonical store holding a given question text. *)
Definition rows_with_question (q : pystr) (db : list QAPair) : list QAPair :=
  filter (fun row => PyStr.eqb (question_text row) q) db.

(** Points of the vector index carrying a given [qa_id]. *)
Definition points_with_qa_id (i : QaId) (ix : list Point) : list Point :=
  filter (QdrantService.has_qa_id i) ix.

(** Points of the vector index whose payload holds a given value under
    [qa_id]. *)
Definition points_with_payload_qa_id (a : PyAtom) (ix : list Point)
  : list Point :=
  filter (fun p => PyAtom_eqb (dict_atom (point_payload p) "qa_id") a) ix.


(** The row's metadata holds this value under [qa_id]: what the row is
    to a reader of the table, whatever a query can find. *)
Definition row_carries_qa_id (qa_id : PyAtom) (row : QAPair) : bool :=
  match dict_get (qa_metadata row) "qa_id" with
  | Some (VAtom a) => PyAtom_eqb a qa_id
  | _ => false
  end.


(** The identifiers handed out so far are below the next [uuid4]. *)
Definition uuids_fresh (w : World) : Prop :=
  forall p, In p (w_index w) -> (point_id p < w_uuid w)%N.






(** The provider's result for the text gives a true embedding. *)
Definition embeds (env : Env) (t : pystr) : bool :=
  match EmbeddingService.extract (embed_content env t) with
  | Some (_ :: _) => true
  | _ => false
  end.

(** The embedding a text gets when the provider's result gives one. *)
Definition embedding_of (env : Env) (output_dim : option nat) (t : pystr)
  : list Component :=
  match EmbeddingService.extract (embed_content env t) with
  | Some e => EmbeddingService.coerce output_dim e
  | None => []
  end.

(** The world after one provider call per text, in order. *)
Definition after_embedding (w : World) (texts : list pystr) : World :=
  fold_left add_event (map EvEmbedContent texts) w.

(** No point of the index shares its identifier with another. *)
Definition point_ids_distinct (ix : list Point) : Prop :=
  NoDup (map point_id ix).

(** Every element of the batch holds a list of floats. *)
Definition batch_vectors (qa_data : list QdrantService.BatchItem)
  : option (list (list Q)) :=
  fold_right
    (fun d acc =>
       match floats_of (QdrantService.b_embedding d), acc with
       | Some v, Some vs => Some (v :: vs)
       | _, _ => None
       end)
    (Some []) qa_data.

(** The step lists an ask can end with. *)
Definition ask_step_lists : list (list string) :=
  [["input_normalized"];
   ["input_normalized"; "embedding_generated";
    "semantic_search_miss_or_low_quality"];
   ["input_normalized"; "embedding_generated"; "semantic_search_hit"];
   ["input_normalized"; "embedding_generated"; "semantic_search_hit";
    "semantic_search_miss_or_low_quality"]].

(** ** Concrete collaborators and worlds *)

Module Scenario.

(** Three unit vectors of 768 floats: against the first, the second
    scores 2/5 and the third 9/10. *)
Definition unit_query : list Q := 1%Q :: repeat 0%Q 767.
Definition unit_far : list Q :=
  [2 # 5; 4 # 5; 2 # 5; 1 # 5]%Q ++ repeat 0%Q 764.
Definition unit_close : list Q :=
  [9 # 10; 3 # 10; 3 # 10; 1 # 10]%Q ++ repeat 0%Q 764.

(** The first two as embeddings. *)
Definition v_query : list Component := floats unit_query.
Definition v_far : list Component := floats unit_far.

Definition damascus : GeminiAnswer :=
  mkGeminiAnswer (lit "Damascus") (8 # 10) (lit "en") [] (lit "gemini-1.5-flash").

(** Every collaborator answers; the provider's result for every text
    carries [unit_query] as a list of floats; Qdrant scores unit vectors
    by their dot product. *)
Definition env_ok : Env :=
  mkEnv true (fun _ => EmbedValues unit_query)
        true true true true true true true true
        (fun stored query => EmbeddingService.dot stored query)
        true (fun _ => Some damascus) (fun _ => Some []) true
        true true true
        (fun _ => [])
        (fun s => Z.of_nat (List.length s)).

(** The same with Gemini out of quota: no model call succeeds. *)
Definition env_llm_down : Env :=
  mkEnv true (fun _ => EmbedValues unit_query)
        true true true true true true true true
        (fun stored query => EmbeddingService.dot stored query)
        true (fun _ => None) (fun _ => None) false
        true true true
        (fun _ => [])
        (fun s => Z.of_nat (List.length s)).

(** The same as [env_ok] with the provider answering as
    [google.generativeai] does: a dict holding the vector under
    [embedding]. *)
Definition env_genai : Env :=
  mkEnv true (fun _ => EmbedDict [("embedding", unit_query)])
        true true true true true true true true
        (fun stored query => EmbeddingService.dot stored query)
        true (fun _ => Some damascus) (fun _ => Some []) true
        true true true
        (fun _ => [])
        (fun s => Z.of_nat (List.length s)).

(** Both stores empty, the service initialised. *)
Definition w_empty : World := mkWorld [] [] true 1700000000 1 [].

Definition capital_q : pystr := lit "What is the capital of Syria?".

Definition id_old : QaId := IdQa 7 1600000000.

(** One admitted pair whose point scores 2/5 against [unit_query]. *)
Definition row_old : QAPair :=
  mkQAPair 0 (lit "Where is Aleppo?") (lit "In the north.") None (8 # 10)
           (lit "gemini-1.5-flash") (lit "en")
           [("qa_id", VAtom (AId id_old))].

Definition point_far : Point :=
  mkPoint 0 unit_far
          (QdrantService.store_payload id_old (lit "Where is Aleppo?") None).

Definition w_far : World :=
  mkWorld [row_old] [point_far] true 1700000000 1 [].

(** The same pair with a point that [unit_query] matches exactly. *)
Definition point_near : Point :=
  mkPoint 0 unit_query
          (QdrantService.store_payload id_old (lit "Where is Aleppo?") None).

Definition w_near : World :=
  mkWorld [row_old] [point_near] true 1700000000 1 [].

(** The same pair with a point that scores 9/10: a hit of the search,
    below the quality threshold. *)
Definition point_close : Point :=
  mkPoint 0 unit_close
          (QdrantService.store_payload id_old (lit "Where is Aleppo?") None).

Definition w_close : World :=
  mkWorld [row_old] [point_close] true 1700000000 1 [].


End Scenario.

Module Cases.

(** Qdrant does not answer; everything else does. *)
Definition env_qdrant_down : Env :=
  mkEnv true (fun _ => EmbedValues Scenario.unit_query)
        true false true true true true true true
        (fun stored query => EmbeddingService.dot stored query)
        true (fun _ => Some Scenario.damascus) (fun _ => Some []) true
        true true true
        (fun _ => [])
        (fun s => Z.of_nat (List.length s)).

(** Qdrant answers, but refuses to delete. *)
Definition env_delete_fails : Env :=
  mkEnv true (fun _ => EmbedValues Scenario.unit_query)
        true true true true true true true false
        (fun stored query => EmbeddingService.dot stored query)
        true (fun _ => Some Scenario.damascus) (fun _ => Some []) true
        true true true
        (fun _ => [])
        (fun s => Z.of_nat (List.length s)).

(** The provider fails on the text ["bad"] and embeds every other text. *)
Definition env_one_bad_text : Env :=
  mkEnv true (fun t => if PyStr.eqb t (lit "bad") then EmbedRaises
                       else EmbedValues Scenario.unit_query)
        true true true true true true true true
        (fun stored query => EmbeddingService.dot stored query)
        true (fun _ => Some Scenario.damascus) (fun _ => Some []) true
        true true true
        (fun _ => [])
        (fun s => Z.of_nat (List.length s)).

Definition id_other : QaId := IdText (lit "kb_42").

(** Two points of [Scenario.id_old] around one point of another pair. *)
Definition w_three_points : World :=
  mkWorld [Scenario.row_old]
    [mkPoint 1 Scenario.unit_query
       (QdrantService.store_payload Scenario.id_old (lit "Where is Aleppo?") None);
     mkPoint 2 Scenario.unit_far
       (QdrantService.store_payload id_other (lit "Where is Homs?") None);
     mkPoint 3 Scenario.unit_query
       (QdrantService.store_payload Scenario.id_old (lit "Where is Aleppo") None)]
    true 1700000000 4 [].

(** An identifier from outside that reads like one of the pipeline's. *)
Definition id_old_as_text : QaId := IdText (lit "qa_7_1600000000").

End Cases.

(* ================================================================== *)
(** * Basic facts *)
(* ================================================================== *)

Lemma pystr_eqb_eq (a b : pystr) : PyStr.eqb a b = true <-> a = b.
Proof.
unfold PyStr.eqb. destruct (list_eq_dec N.eq_dec a b); split; congruence.
Qed.

Lemma QaId_eqb_refl (a : QaId) : QaId_eqb a a = true.
Proof. apply pystr_eqb_eq. reflexivity. Qed.

Lemma QaId_eqb_eq (a b : QaId) : QaId_eqb a b = true -> a = b.
Proof. apply pystr_eqb_eq. Qed.

Lemma PyAtom_eqb_refl (a : PyAtom) : PyAtom_eqb a a = true.
Proof.
  destruct a as [|b|s|q|u]; simpl.
  - reflexivity.
  - apply Bool.eqb_reflx.
  - apply pystr_eqb_eq. reflexivity.
  - apply Qeq_bool_iff. reflexivity.
  - apply N.eqb_refl.
Qed.

Lemma floats_of_floats (v : list Q) : floats_of (floats v) = Some v.
Proof.
  unfold floats. induction v as [|x v IH]; simpl; [reflexivity|].
  now rewrite IH.
Qed.

Lemma floats_of_some (e : list Component) (v : list Q) :
  floats_of e = Some v -> e = floats v.
Proof.
  revert v. induction e as [|c e IH]; simpl; intros v H.
  - injection H as <-. reflexivity.
  - destruct c as [x|u]; [|discriminate].
    destruct (floats_of e) as [v'|]; [|discriminate].
    injection H as <-. simpl. f_equal. now apply IH.
Qed.

Lemma dict_get_set_same (d : dict) (k : string) (v : PyVal) :
  dict_get (dict_set d k v) k = Some v.
Proof.
  induction d as [|[k' v'] d IH]; simpl.
  - rewrite String.eqb_refl. reflexivity.
  - destruct (String.eqb k k') eqn:E; simpl; rewrite E; auto.
Qed.

Lemma dict_get_set_other (d : dict) (k k0 : string) (v : PyVal) :
  k0 <> k -> dict_get (dict_set d k v) k0 = dict_get d k0.
Proof.
  intros Hn. induction d as [|[k' v'] d IH]; simpl.
  - destruct (String.eqb k0 k) eqn:E; auto.
    apply String.eqb_eq in E. contradiction.
  - destruct (String.eqb k k') eqn:E; simpl.
    + apply String.eqb_eq in E. subst k'.
      destruct (String.eqb k0 k) eqn:E0; auto.
      apply String.eqb_eq in E0. contradiction.
    + destruct (String.eqb k0 k'); auto.
Qed.

(* ================================================================== *)
(** * The embedding service *)
(* ================================================================== *)

Section Similarity.

Import EmbeddingService.
Local Open Scope R_scope.

Lemma Q2R_zero : Q2R 0 = 0.
Proof. unfold Q2R. simpl. lra. Qed.

Lemma dot_self_nonneg (a : list Q) : 0 <= Q2R (dot a a).
Proof.
  induction a as [|x a IH]; simpl.
  - rewrite Q2R_zero. lra.
  - rewrite Q2R_plus, Q2R_mult. nra.
Qed.

Lemma dot_self_zero (a : list Q) :
  Q2R (dot a a) = 0 -> Forall (fun x => Q2R x = 0) a.
Proof.
  induction a as [|x a IH]; simpl; intros H.
  - constructor.
  - rewrite Q2R_plus, Q2R_mult in H.
    pose proof (dot_self_nonneg a) as Hn.
    constructor.
    + nra.
    + apply IH. nra.
Qed.

Lemma zeros_dot (a b : list Q) :
  Forall (fun x => Q2R x = 0) a -> Q2R (dot a b) = 0.
Proof.
  intros Ha. revert b.
  induction Ha as [|x a Hx Ha IH]; intros b; simpl.
  - apply Q2R_zero.
  - destruct b as [|y b].
    + apply Q2R_zero.
    + rewrite Q2R_plus, Q2R_mult, Hx, IH. lra.
Qed.

Lemma zeros_firstn (n : nat) (a : list Q) :
  Forall (fun x => Q2R x = 0) a -> Forall (fun x => Q2R x = 0) (firstn n a).
Proof.
  intros Ha. revert n.
  induction Ha as [|x a Hx Ha IH]; intros [|n]; simpl; constructor; auto.
Qed.

Lemma norm_zero_zeros (a : list Q) :
  norm a = 0 -> Forall (fun x => Q2R x = 0) a.
Proof.
  unfold norm. intros H. apply dot_self_zero.
  apply sqrt_eq_0; [apply dot_self_nonneg | exact H].
Qed.

Lemma zeros_norm_zero (a : list Q) :
  Forall (fun x => Q2R x = 0) a -> norm a = 0.
Proof.
  intros H. unfold norm. rewrite (zeros_dot a a H). apply sqrt_0.
Qed.

(** A vector of norm zero keeps norm zero when it is cut. *)
Lemma norm_zero_firstn (n : nat) (a : list Q) :
  norm a = 0 -> norm (firstn n a) = 0.
Proof.
  intros H. apply zeros_norm_zero, zeros_firstn, norm_zero_zeros, H.
Qed.

(** C9.  Zero-norm similarity: whenever one of the two embedding vectors
    has norm zero, [compute_similarity] returns 0.0; no division takes
    place.  The function is total, so it does return. *)
Theorem compute_similarity_zero_norm (embedding1 embedding2 : list Q) :
  norm embedding1 = 0 \/ norm embedding2 = 0 ->
  compute_similarity embedding1 embedding2 = 0.
Proof.
  intros H. unfold compute_similarity.
  set (m := Nat.min (List.length embedding1) (List.length embedding2)).
  destruct (Nat.eqb (List.length embedding1) (List.length embedding2)).
  - destruct (Req_dec_T (norm embedding1) 0) as [|N1]; [reflexivity|].
    destruct (Req_dec_T (norm embedding2) 0) as [|N2]; [reflexivity|].
    destruct H; contradiction.
  - destruct (Req_dec_T (norm (firstn m embedding1)) 0) as [|N1]; [reflexivity|].
    destruct (Req_dec_T (norm (firstn m embedding2)) 0) as [|N2]; [reflexivity|].
    destruct H as [H|H]; apply (norm_zero_firstn m) in H; contradiction.
Qed.

(** The zero vector of any length against a vector of another length. *)
Lemma compute_similarity_zero_norm_witness :
  (norm [0; 0]%Q = 0 \/ norm [1; 2; 3]%Q = 0) /\
  compute_similarity [0; 0]%Q [1; 2; 3]%Q = 0.
Proof.
  assert (Hz : norm [0; 0]%Q = 0).
  { apply zeros_norm_zero. repeat constructor; apply Q2R_zero. }
  split.
  - left. exact Hz.
  - apply (compute_similarity_zero_norm [0; 0]%Q [1; 2; 3]%Q). left. exact Hz.
Defined.

End Similarity.

(** Unfolds the monad's combinators in the goal. *)
Ltac run :=
  unfold outcome, world_after, bind, ret, raise, emit, try_except, get_world,
    uuid4; simpl.

Section Dimension.

Import EmbeddingService.

Lemma resize_length (d : nat) (embedding : list Component) :
  List.length (resize d embedding) = d.
Proof.
  unfold resize. rewrite length_app, length_firstn, repeat_length. lia.
Qed.

(** Once the dimension is set, the guarded resize of lines 114-116 is the
    resize itself: at the right length it changes nothing. *)
Lemma coerce_resize (d : nat) (embedding : list Component) :
  d <> 0%nat -> coerce (Some d) embedding = resize d embedding.
Proof.
  intros Hd. unfold coerce.
  destruct (Nat.eqb d 0) eqn:E0.
  - apply Nat.eqb_eq in E0. contradiction.
  - destruct (Nat.eqb (List.length embedding) d) eqn:E; simpl; [|reflexivity].
    apply Nat.eqb_eq in E. unfold resize.
    rewrite firstn_all2 by lia.
    replace (d - List.length embedding)%nat with 0%nat by lia.
    simpl. now rewrite app_nil_r.
Qed.

(** A list that starts with a vector holds more than floats. *)
Lemma nested_not_floats (vector : list Q) (rest : list Component) :
  floats_of (CVec vector :: rest) = None.
Proof. reflexivity. Qed.

(** A list that holds more than floats is refused by every operation of
    the vector index that takes a vector. *)
Lemma malformed_vector_refused (env : Env) (embedding : list Component) :
  floats_of embedding = None ->
  (forall qa_id question metadata w,
      outcome (QdrantService.store_qa_embedding env qa_id question embedding
                 metadata) w = Return false /\
      w_index (world_after (QdrantService.store_qa_embedding env qa_id
                              question embedding metadata) w) = w_index w) /\
  (forall limit threshold w,
      outcome (QdrantService.search_similar_questions env embedding limit
                 threshold) w = Return []).
Proof.
  intros Hn.
  unfold QdrantService.store_qa_embedding,
    QdrantService.search_similar_questions, QdrantService.usable,
    QdrantService.is_connected, QdrantService.as_vector.
  rewrite Hn.
  split; intros; destruct (qdrant_client env); run; auto;
    destruct (qdrant_alive env); simpl; auto.
Qed.

(** C10, where the code departs from it.  The client of the service is
    [google.generativeai], whose [embed_content] returns a dict holding
    the vector under the key [embedding].  For such a result the
    service does not return the provider's vector cut or padded to 768
    floats: it returns a list of 768 components whose first component is
    the whole vector and whose other 767 components are 0.0, whatever
    the length of the vector.  The vector index refuses that list:
    storing it answers [False] and leaves the index alone, searching
    with it finds nothing. *)
Theorem dict_reply_nests_the_vector (env : Env) (t : pystr) (key : string)
    (vector : list Q) (w : World) :
  embed_client env = true -> t <> [] ->
  embed_content env t = EmbedDict [(key, vector)] ->
  let nested := CVec vector :: repeat (CNum 0) 767 in
  generate_embedding env output_dim (OneText t) w
  = (Return (OneEmbedding nested), add_event w (EvEmbedContent t)) /\
  List.length nested = 768%nat /\
  nested <> resize 768 (floats vector) /\
  (forall qa_id question metadata w1,
      outcome (QdrantService.store_qa_embedding env qa_id question nested
                 metadata) w1 = Return false /\
      w_index (world_after (QdrantService.store_qa_embedding env qa_id
                              question nested metadata) w1) = w_index w1) /\
  (forall limit threshold w1,
      outcome (QdrantService.search_similar_questions env nested limit
                 threshold) w1 = Return []).
Proof.
  intros Hc Ht He nested.
  split; [|split; [|split]].
  - unfold generate_embedding, output_dim.
    destruct t as [|c t]; [congruence|].
    unfold try_except, embed_item, bind, emit, ret. rewrite Hc, He.
    reflexivity.
  - change (S (List.length (repeat (CNum 0) 767)) = 768%nat).
    now rewrite repeat_length.
  - unfold nested, resize. destruct vector as [|x vector]; simpl; discriminate.
  - apply (malformed_vector_refused env nested).
    apply nested_not_floats.
Qed.

(** The provider answers with its dict for the question of the first
    scenario. *)
Lemma dict_reply_nests_the_vector_witness :
  generate_embedding Scenario.env_genai output_dim
    (OneText Scenario.capital_q) Scenario.w_empty
  = (Return (OneEmbedding (CVec Scenario.unit_query :: repeat (CNum 0) 767)),
     add_event Scenario.w_empty (EvEmbedContent Scenario.capital_q)) /\
  outcome (QdrantService.search_similar_questions Scenario.env_genai
             (CVec Scenario.unit_query :: repeat (CNum 0) 767) 5
             IntelligentQAService.semantic_search_threshold) Scenario.w_near
  = Return [].
Proof.
  destruct (dict_reply_nests_the_vector Scenario.env_genai Scenario.capital_q
              "embedding" Scenario.unit_query Scenario.w_empty eq_refl)
    as (H1 & _ & _ & _ & H5).
  - discriminate.
  - reflexivity.
  - split; [exact H1 | apply H5].
Defined.

End Dimension.

(* ================================================================== *)
(** * The vector index *)
(* ================================================================== *)

Section VectorIndex.

Import QdrantService.

Lemma dict_update_get_other (e d : dict) (k : string) :
  dict_get e k = None -> dict_get (dict_update d e) k = dict_get d k.
Proof.
  unfold dict_update. revert d.
  induction e as [|[k' v] e IH]; intros d; simpl; [reflexivity|].
  destruct (String.eqb k k') eqn:E; [discriminate|].
  intros He. rewrite (IH _ He). apply dict_get_set_other.
  intros ->. rewrite String.eqb_refl in E. discriminate.
Qed.

(** The payload carries the identifier it was stored under, unless the
    metadata overrides the key. *)
Lemma store_payload_qa_id (qa_id : QaId) (question : pystr)
    (metadata : option dict) :
  dict_get (match metadata with Some m => m | None => [] end) "qa_id" = None ->
  dict_atom (store_payload qa_id question metadata) "qa_id" = AId qa_id.
Proof.
  intros H. unfold dict_atom, store_payload.
  rewrite (dict_update_get_other _ _ _ H). reflexivity.
Qed.

(** Upserting under an identifier the index does not hold appends. *)
Lemma upsert_point_fresh (ix : list Point) (p : Point) :
  (forall q, In q ix -> point_id q <> point_id p) ->
  upsert_point ix p = ix ++ [p].
Proof.
  induction ix as [|q ix IH]; simpl; intros H; [reflexivity|].
  destruct (N.eqb (point_id q) (point_id p)) eqn:E.
  - apply N.eqb_eq in E. exfalso. apply (H q); auto.
  - rewrite IH; auto.
Qed.

(** Upserting under an identifier the index holds replaces that point
    and adds none: the operation of Qdrant itself is idempotent. *)
Lemma upsert_point_length_known (ix : list Point) (p : Point) :
  (exists q, In q ix /\ point_id q = point_id p) ->
  List.length (upsert_point ix p) = List.length ix.
Proof.
  induction ix as [|q ix IH]; simpl; intros (q0 & Hin & Hid); [contradiction|].
  destruct (N.eqb (point_id q) (point_id p)) eqn:E; simpl; [reflexivity|].
  f_equal. apply IH. destruct Hin as [->|Hin].
  - apply N.eqb_neq in E. contradiction.
  - exists q0. auto.
Qed.

(** The calls of [store_qa_embedding] that answer [True]: Qdrant is
    there and answers, the embedding is a list of 768 floats and the
    upsert goes through; the world they leave. *)
Lemma store_qa_embedding_true (env : Env) (qa_id : QaId) (question : pystr)
    (embedding : list Component) (metadata : option dict) (w : World) :
  outcome (store_qa_embedding env qa_id question embedding metadata) w
  = Return true ->
  exists vector,
    floats_of embedding = Some vector /\ fits vector = true /\
    qdrant_client env = true /\ qdrant_alive env = true /\
    qdrant_upsert_ok env = true /\
    w_index (world_after (store_qa_embedding env qa_id question embedding
                            metadata) w)
    = upsert_point (w_index w)
        (mkPoint (w_uuid w) vector (store_payload qa_id question metadata)).
Proof.
  unfold store_qa_embedding, usable, is_connected, client_upsert, as_vector.
  destruct (qdrant_client env); run; [|discriminate].
  destruct (qdrant_alive env); simpl; [|discriminate].
  destruct (floats_of embedding) as [vector|]; simpl; [|discriminate].
  destruct (qdrant_upsert_ok env); simpl; [|discriminate].
  destruct (fits vector) eqn:Ef; simpl; [|discriminate].
  intros _. exists vector. rewrite Ef. auto 7.
Qed.

(** C8, as the code has it.  Every call of [store_qa_embedding] that
    answers [True] has drawn a new [uuid4] for the point, so it has
    added one point to the index, behind the others, and replaced none:
    whatever the metadata, the index holds one more point with the
    payload's [qa_id] than before, and where the payload's [qa_id] is
    the identifier of the call, one more point carrying that
    identifier. *)
Theorem store_qa_embedding_appends (env : Env) (qa_id : QaId)
    (question : pystr) (embedding : list Component) (metadata : option dict)
    (w : World) :
  uuids_fresh w ->
  outcome (store_qa_embedding env qa_id question embedding metadata) w
  = Return true ->
  let w' := world_after (store_qa_embedding env qa_id question embedding
                           metadata) w in
  let payload := store_payload qa_id question metadata in
  exists vector,
    floats_of embedding = Some vector /\
    (forall p, In p (w_index w) -> point_id p <> w_uuid w) /\
    w_index w' = w_index w ++ [mkPoint (w_uuid w) vector payload] /\
    List.length
      (points_with_payload_qa_id (dict_atom payload "qa_id") (w_index w'))
    = S (List.length
           (points_with_payload_qa_id (dict_atom payload "qa_id") (w_index w))) /\
    (dict_atom payload "qa_id" = AId qa_id ->
     List.length (points_with_qa_id qa_id (w_index w'))
     = S (List.length (points_with_qa_id qa_id (w_index w)))).
Proof.
  intros Hf Ht.
  destruct (store_qa_embedding_true env qa_id question embedding metadata w Ht)
    as (vector & Hv & _ & _ & _ & _ & Hi).
  assert (Hnew : forall p, In p (w_index w) -> point_id p <> w_uuid w).
  { intros p Hp. specialize (Hf p Hp). lia. }
  exists vector. split; [exact Hv|]. split; [exact Hnew|].
  cbv zeta. rewrite Hi.
  rewrite (upsert_point_fresh (w_index w)
             (mkPoint (w_uuid w) vector (store_payload qa_id question metadata))
             Hnew).
  split; [reflexivity|]. split.
  - unfold points_with_payload_qa_id. rewrite filter_app, length_app. simpl.
    rewrite PyAtom_eqb_refl. simpl. lia.
  - intros Hq. unfold points_with_qa_id. rewrite filter_app, length_app.
    simpl. unfold has_qa_id at 2. simpl. rewrite Hq, PyAtom_eqb_refl.
    simpl. lia.
Qed.

Lemma uuids_fresh_empty : uuids_fresh Scenario.w_empty.
Proof. intros p []. Qed.

(** One call with a vector of 768 floats on the empty index. *)
Lemma store_qa_embedding_appends_witness :
  w_index (world_after
             (store_qa_embedding Scenario.env_ok Scenario.id_old
                Scenario.capital_q Scenario.v_query None)
             Scenario.w_empty)
  = [mkPoint 1 Scenario.unit_query
       (store_payload Scenario.id_old Scenario.capital_q None)] /\
  List.length
    (points_with_qa_id Scenario.id_old
       (w_index (world_after
                   (store_qa_embedding Scenario.env_ok Scenario.id_old
                      Scenario.capital_q Scenario.v_query None)
                   Scenario.w_empty))) = 1%nat.
Proof.
  assert (Ht : outcome (store_qa_embedding Scenario.env_ok Scenario.id_old
                          Scenario.capital_q Scenario.v_query None)
                 Scenario.w_empty = Return true)
    by (vm_compute; reflexivity).
  destruct (store_qa_embedding_appends Scenario.env_ok Scenario.id_old
              Scenario.capital_q Scenario.v_query None Scenario.w_empty
              uuids_fresh_empty Ht) as (vector & Hv & _ & Hi & _ & Hn).
  assert (E : vector = Scenario.unit_query).
  { unfold Scenario.v_query in Hv. rewrite floats_of_floats in Hv.
    now injection Hv. }
  subst vector. split; [exact Hi|]. apply Hn. reflexivity.
Defined.

(** C8, as stated, fails: storing twice under one [qa_id] leaves two
    points carrying it, under two point identifiers, not one. *)
Lemma store_twice_two_points :
  let store := store_qa_embedding Scenario.env_ok Scenario.id_old
                 Scenario.capital_q Scenario.v_query None in
  let ix := w_index (world_after (store ;;; store) Scenario.w_empty) in
  outcome (store ;;; store) Scenario.w_empty = Return true /\
  map point_id (points_with_qa_id Scenario.id_old ix) = [1%N; 2%N] /\
  map point_vector ix = [Scenario.unit_query; Scenario.unit_query] /\
  List.length (points_with_qa_id Scenario.id_old ix) <> 1%nat.
Proof. vm_compute. repeat split; discriminate. Qed.

End VectorIndex.

(* ================================================================== *)
(** * The write-back path *)
(* ================================================================== *)

Section Admission.

Import IntelligentQAService.

(** Every call of [store_qa_embedding] in the pipeline passes the keyword
    [answer], which the method does not take: the call raises before the
    method's body runs and leaves the world as it was. *)
Lemma call_store_raises (env : Env) (qa_id : QaId) (question : pystr)
    (embedding : list Component) (metadata : option dict) (w : World) :
  QdrantService.call_store_qa_embedding env store_call_keywords qa_id
    question embedding metadata w
  = (Raise (TypeError "store_qa_embedding" "answer"), w).
Proof. reflexivity. Qed.

(** [get_content_for_context] is no attribute of the scraping service. *)
Lemma get_content_for_context_raises (env : Env) (question : pystr)
    (max_articles : nat) (w : World) :
  WebScrapingService.call_get_content_for_context env question max_articles w
  = (Raise (AttributeError "WebScrapingService" "get_content_for_context"), w).
Proof. reflexivity. Qed.

(** [log_function_entry] is no global of module [gemini_service]. *)
Lemma answer_question_raises (env : Env) (question : pystr)
    (context : option pystr) (language : pystr) (previous : list Hit)
    (w : World) :
  GeminiService.answer_question env question context language previous w
  = (Raise (NameError "log_function_entry"), w).
Proof. reflexivity. Qed.

(** The embedding service touches neither store. *)
Lemma embed_item_stores (env : Env) (od : option nat) (t : pystr) (w : World) :
  w_db (world_after (EmbeddingService.embed_item env od t) w) = w_db w /\
  w_index (world_after (EmbeddingService.embed_item env od t) w) = w_index w.
Proof.
  unfold EmbeddingService.embed_item. run.
  destruct (EmbeddingService.extract (embed_content env t)) as [[|c e]|];
    simpl; auto.
Qed.

Lemma embed_items_stores (env : Env) (od : option nat) (ts : list pystr) :
  forall w,
    w_db (world_after (EmbeddingService.embed_items env od ts) w) = w_db w /\
    w_index (world_after (EmbeddingService.embed_items env od ts) w) = w_index w.
Proof.
  induction ts as [|t ts IH]; intros w; [run; auto|].
  pose proof (embed_item_stores env od t w) as [Hd Hi].
  unfold world_after in *.
  change (EmbeddingService.embed_items env od (t :: ts) w)
    with (match EmbeddingService.embed_item env od t w with
          | (Return e, w1) =>
              match EmbeddingService.embed_items env od ts w1 with
              | (Return es, w2) => (Return (e :: es), w2)
              | (Raise ex, w2) => (Raise ex, w2)
              end
          | (Raise ex, w1) => (Raise ex, w1)
          end).
  destruct (EmbeddingService.embed_item env od t w) as [[v|ex] w1];
    simpl in Hd, Hi; [|simpl; auto].
  destruct (IH w1) as [Hd' Hi'].
  destruct (EmbeddingService.embed_items env od ts w1) as [[vs|ex] w2];
    simpl in *; split; congruence.
Qed.

Lemma generate_embedding_stores (env : Env) (od : option nat)
    (text : EmbeddingService.TextArg) (w : World) :
  w_db (world_after (EmbeddingService.generate_embedding env od text) w) = w_db w /\
  w_index (world_after (EmbeddingService.generate_embedding env od text) w) = w_index w.
Proof.
  unfold EmbeddingService.generate_embedding.
  destruct text as [[|c t]|[|t0 ts]]; try (run; auto; fail).
  - unfold world_after, try_except.
    destruct (embed_client env); [|run; auto].
    unfold bind, ret.
    pose proof (embed_item_stores env od (c :: t) w) as [Hd Hi].
    unfold world_after in Hd, Hi.
    destruct (EmbeddingService.embed_item env od (c :: t) w) as [[v|ex] w1];
      simpl in *; auto.
  - unfold world_after, try_except.
    destruct (embed_client env); [|run; auto].
    unfold bind, ret.
    pose proof (embed_items_stores env od (t0 :: ts) w) as [Hd Hi].
    unfold world_after in Hd, Hi.
    destruct (EmbeddingService.embed_items env od (t0 :: ts) w) as [[v|ex] w1];
      simpl in *; auto.
Qed.

(** What [_store_new_qa_pair] does in every world: it answers [False],
    never writes the vector index, never reads the canonical store, and
    either leaves the canonical store alone or appends one row holding
    the question and the answer under a new primary key. *)
Lemma store_new_qa_pair_run (env : Env) (question answer : pystr)
    (embedding : list Component) (confidence : Q) (metadata : dict)
    (user_id : option UserRef) (w : World) :
  let admission := _store_new_qa_pair env question answer embedding confidence
                 metadata user_id in
  outcome admission w = Return false /\
  w_index (world_after admission w) = w_index w /\
  (w_db (world_after admission w) = w_db w \/
   exists row,
     w_db (world_after admission w) = w_db w ++ [row] /\
     question_text row = question /\ answer_text row = answer /\
     qa_pk row = w_uuid w /\
     w_trace (world_after admission w) = w_trace w ++ [EvDbSession; EvDbCommit]).
Proof.
  unfold _store_new_qa_pair, QAPairRepository.get_db,
    QAPairRepository.create_qa_pair, parse_user_id.
  run.
  destruct (db_session_ok env); simpl; [|auto].
  destruct user_id as [[u|[|c s]]|]; simpl; auto;
    destruct (db_commit_ok env); simpl; auto;
    (split; [reflexivity|]; split; [reflexivity|]; right;
     eexists; repeat split; simpl;
     rewrite <- app_assoc; reflexivity).
Qed.

(** C1, as the code has it.  Admission does not look for an earlier row
    and holds no guard: whenever the session opens, the caller's id is
    absent or a UUID, and the commit goes through, [_store_new_qa_pair]
    appends one new row to the canonical store, without a single query,
    so the number of rows holding the question text grows by one at
    each admit. *)
Theorem admission_appends_row (env : Env) (question answer : pystr)
    (embedding : list Component) (confidence : Q) (metadata : dict)
    (user_id : option UserRef) (w : World) :
  db_session_ok env = true -> db_commit_ok env = true ->
  (forall c s, user_id <> Some (UserText (c :: s))) ->
  let w' := world_after (_store_new_qa_pair env question answer embedding
                           confidence metadata user_id) w in
  (exists row, w_db w' = w_db w ++ [row] /\
     question_text row = question /\ answer_text row = answer) /\
  w_trace w' = w_trace w ++ [EvDbSession; EvDbCommit] /\
  List.length (rows_with_question question (w_db w')) =
    S (List.length (rows_with_question question (w_db w))).
Proof.
  intros Hs Hc Hu.
  unfold _store_new_qa_pair, QAPairRepository.get_db,
    QAPairRepository.create_qa_pair, parse_user_id.
  run. rewrite Hs. simpl.
  assert (Heq : PyStr.eqb question question = true)
    by (apply pystr_eqb_eq; reflexivity).
  destruct user_id as [[u|[|c s]]|]; simpl;
    try (exfalso; eapply Hu; reflexivity);
    rewrite Hc; simpl;
    (split; [eexists; repeat split|];
     split; [rewrite <- app_assoc; reflexivity|];
     unfold rows_with_question; rewrite filter_app, length_app; simpl;
     rewrite Heq; simpl; lia).
Qed.

Lemma admission_appends_row_witness :
  List.length
    (rows_with_question Scenario.capital_q
       (w_db (world_after
                (_store_new_qa_pair Scenario.env_ok Scenario.capital_q
                   (lit "Damascus") Scenario.v_query (8 # 10)%Q [] None)
                Scenario.w_empty))) = 1%nat.
Proof.
  refine (proj2 (proj2 (admission_appends_row Scenario.env_ok Scenario.capital_q
                   (lit "Damascus") Scenario.v_query (8 # 10)%Q [] None
                   Scenario.w_empty eq_refl eq_refl _))).
  intros c s. discriminate.
Defined.

(** C1, as stated, fails: two admits of one normalized question leave
    two rows with that text, under two primary keys; the second admission
    is not handed the first one's row. *)
Lemma two_admissions_two_rows :
  let admission := _store_new_qa_pair Scenario.env_ok Scenario.capital_q
                 (lit "Damascus") Scenario.v_query (8 # 10)%Q [] None in
  let db := w_db (world_after (admission ;;; admission) Scenario.w_empty) in
  map qa_pk (rows_with_question Scenario.capital_q db) = [1%N; 2%N] /\
  List.length (rows_with_question Scenario.capital_q db) <> 1%nat.
Proof. vm_compute. split; [reflexivity | discriminate]. Qed.

(** C4.  In every world and for every argument the write-back answers
    [False] and leaves the vector index as it was; at a concrete
    admission with every collaborator up, the row is created first and
    stays, the vector write that follows fails (the call raises on its
    [answer] keyword) and the answer is [False], where the code's own
    warning says it should go on and answer [True]. *)
Theorem admission_reports_failure_after_create :
  (forall env question answer embedding confidence metadata user_id w,
      outcome (_store_new_qa_pair env question answer embedding confidence
                 metadata user_id) w = Return false /\
      w_index (world_after (_store_new_qa_pair env question answer embedding
                              confidence metadata user_id) w) = w_index w) /\
  let admission := _store_new_qa_pair Scenario.env_ok Scenario.capital_q
                     (lit "Damascus") Scenario.v_query (8 # 10)%Q [] None in
  outcome admission Scenario.w_empty = Return false /\
  map question_text (w_db (world_after admission Scenario.w_empty))
    = [Scenario.capital_q] /\
  w_index (world_after admission Scenario.w_empty) = [] /\
  w_trace (world_after admission Scenario.w_empty) = [EvDbSession; EvDbCommit].
Proof.
  split.
  - intros env q a emb conf md uid w.
    destruct (store_new_qa_pair_run env q a emb conf md uid w) as (Ho & Hi & _).
    split; assumption.
  - vm_compute. repeat split.
Qed.

End Admission.

(* ================================================================== *)
(** * The ask pipeline *)
(* ================================================================== *)

Section Ask.

Import IntelligentQAService.

(** The miss branch ends at its first statement after the step tag, in
    every world and for every argument. *)
Lemma miss_branch_internal_error (env : Env) (normalized_question : pystr)
    (question_embedding : list Component) (similar_qa_pairs : list Hit)
    (context : option pystr) (language : pystr) (user_id : option UserRef)
    (processing_steps : list string) (w : World) :
  miss_branch env normalized_question question_embedding similar_qa_pairs
    context language user_id processing_steps w
  = (Return (_format_error
               (processing_steps ++ ["semantic_search_miss_or_low_quality"])
               "internal_error"), w).
Proof. reflexivity. Qed.

Lemma guarded_cases {A} (P : Outcome Response * World -> Prop)
    (processing_steps : list string) (c : M A) (k : A -> M Response)
    (w : World) :
  (forall w', P (Return (_format_error processing_steps "internal_error"), w')) ->
  (forall a w', P (k a w')) ->
  P (guarded processing_steps c k w).
Proof.
  intros He Hk. unfold guarded. destruct (c w) as [[a|e] w']; auto.
Qed.

(** After the search, an ask either answers from the stored pair of a
    hit scoring at least 0.95, or ends in an error. *)
Lemma after_search_outcomes (env : Env) (nq : pystr) (emb : list Component)
    (similar : list Hit) (context : option pystr) (language : pystr)
    (user_id : option UserRef) (steps : list string) (w : World) :
  exists r,
    outcome (after_search env nq emb similar context language user_id steps) w
    = Return r /\
    ((r_source r = "vector_search" /\
      exists best rest, similar = best :: rest /\
        (quality_threshold <= similarity_score best)%Q /\
        r_confidence r = similarity_score best) \/
     (r_source r = "error" /\ r_answer r = None)).
Proof.
  unfold outcome, after_search.
  destruct similar as [|best rest].
  - rewrite miss_branch_internal_error. eexists. split; [reflexivity|]. now right.
  - destruct (Qle_bool quality_threshold (similarity_score best)) eqn:Eq.
    + apply Qle_bool_iff in Eq.
      apply guarded_cases.
      * intros w'. eexists. split; [reflexivity|]. now right.
      * intros _ w'. apply guarded_cases.
        -- intros w''. eexists. split; [reflexivity|]. now right.
        -- intros [qa|] w''.
           ++ eexists. split; [reflexivity|]. left. split; [reflexivity|].
              exists best, rest. auto.
           ++ rewrite miss_branch_internal_error.
              eexists. split; [reflexivity|]. now right.
    + rewrite miss_branch_internal_error. eexists. split; [reflexivity|]. now right.
Qed.

(** The same of the whole ask: no answer with source [gemini_api] ever
    comes back. *)
Lemma process_question_outcomes (env : Env) (question : pystr)
    (user_id : option UserRef) (context : option pystr) (language : pystr)
    (w : World) :
  exists r,
    outcome (process_question env question user_id context language) w
    = Return r /\
    ((r_source r = "vector_search" /\
      (quality_threshold <= r_confidence r)%Q) \/
     (r_source r = "error" /\ r_answer r = None)).
Proof.
  unfold outcome, process_question.
  apply guarded_cases.
  - intros w'. eexists. split; [reflexivity|]. now right.
  - intros _ w1. apply guarded_cases.
    + intros w'. eexists. split; [reflexivity|]. now right.
    + intros e w2.
      destruct e as [|[|x v]|vs];
        try (eexists; split; [reflexivity|]; now right).
      apply guarded_cases.
      * intros w'. eexists. split; [reflexivity|]. now right.
      * intros similar w3.
        destruct (after_search_outcomes env (_normalize_question question)
                    (x :: v) similar context language user_id
                    (["input_normalized"] ++ ["embedding_generated"]) w3)
          as (r & Hr & H).
        exists r. split; [exact Hr|].
        destruct H as [(Hs & best & rest & _ & Hq & Hc)|H]; [left|now right].
        split; [exact Hs|]. now rewrite Hc.
Qed.

(** C2.  The miss branch ends in an error with reason [internal_error]
    in every world and for every argument.  At the cold miss of the first
    end-to-end scenario, both stores empty and every collaborator up,
    the ask embeds the question, searches, finds nothing, and ends that
    way: no context is fetched, Gemini is not called, nothing is
    stored. *)
Theorem miss_path_internal_error :
  (forall env nq emb similar context language user_id steps w,
      outcome (miss_branch env nq emb similar context language user_id steps) w
      = Return (_format_error (steps ++ ["semantic_search_miss_or_low_quality"])
                  "internal_error")) /\
  outcome (process_question Scenario.env_ok Scenario.capital_q None None
             (lit "auto")) Scenario.w_empty
  = Return (_format_error
              ["input_normalized"; "embedding_generated";
               "semantic_search_miss_or_low_quality"] "internal_error") /\
  world_after (process_question Scenario.env_ok Scenario.capital_q None None
                 (lit "auto")) Scenario.w_empty
  = mkWorld [] [] true 1700000000 1
      [EvEmbedContent Scenario.capital_q; EvQdrantGetCollections; EvQdrantSearch].
Proof.
  split; [|split].
  - intros. unfold outcome. now rewrite miss_branch_internal_error.
  - vm_compute. reflexivity.
  - vm_compute. reflexivity.
Qed.

(** C3.  The write-back never changes the vector index, so a search
    after it sees what a search before it saw.  At the question of the
    first scenario: after its pair is stored, the canonical store holds
    the row but the index holds no point for it, and asking the question
    again ends in [internal_error] instead of a [vector_search] hit. *)
Theorem stored_question_misses_again :
  (forall env question answer embedding confidence metadata user_id query
          limit threshold w,
      QdrantService.scored_points env
        (w_index (world_after (_store_new_qa_pair env question answer
                                 embedding confidence metadata user_id) w))
        query limit threshold
      = QdrantService.scored_points env (w_index w) query limit threshold) /\
  let admission := _store_new_qa_pair Scenario.env_ok Scenario.capital_q
                     (lit "Damascus") Scenario.v_query (8 # 10)%Q [] None in
  let w1 := world_after admission Scenario.w_empty in
  map question_text (w_db w1) = [Scenario.capital_q] /\
  w_index w1 = [] /\
  outcome (process_question Scenario.env_ok Scenario.capital_q None None
             (lit "auto")) w1
  = Return (_format_error
              ["input_normalized"; "embedding_generated";
               "semantic_search_miss_or_low_quality"] "internal_error").
Proof.
  split.
  - intros env q a emb conf md uid query limit th w.
    destruct (store_new_qa_pair_run env q a emb conf md uid w) as (_ & Hi & _).
    now rewrite Hi.
  - vm_compute. repeat split.
Qed.

(** ** Normalization and the empty question *)

Lemma normalize_nonempty (question : pystr) : _normalize_question question <> [].
Proof.
  unfold _normalize_question.
  set (n := sub_ws false (strip question)).
  destruct (endswith_any n _) eqn:E.
  - intros Hn. rewrite Hn in E. discriminate.
  - intros Hn. apply app_eq_nil in Hn. destruct Hn as [_ Hn]. discriminate.
Qed.

(** C7, as the code has it.  A question that is empty once white space
    is trimmed normalizes to ["?"], never to the empty text, and the
    pipeline has no validation step; the rejection sits in the HTTP
    endpoint, which answers 400 for such a question without calling the
    pipeline, hence without any I/O. *)
Theorem empty_question_rejected_at_endpoint (env : Env) (question : pystr)
    (user_id : option UserRef) (context : option pystr) (language : pystr)
    (current_user_id : N) (w : World) :
  strip question = [] ->
  _normalize_question question = [question_mark] /\
  Api.ask_intelligent_question env question user_id context language
    current_user_id w = (Return (Api.HttpError 400), w).
Proof.
  intros Hs. split.
  - unfold _normalize_question. rewrite Hs. reflexivity.
  - unfold Api.ask_intelligent_question. rewrite Hs. simpl.
    rewrite orb_true_r. reflexivity.
Qed.

Lemma empty_question_rejected_at_endpoint_witness :
  _normalize_question (lit "   ") = lit "?" /\
  Api.ask_intelligent_question Scenario.env_ok (lit "   ") None None
    (lit "auto") 7 Scenario.w_empty
  = (Return (Api.HttpError 400), Scenario.w_empty).
Proof.
  exact (empty_question_rejected_at_endpoint Scenario.env_ok (lit "   ") None
           None (lit "auto") 7%N Scenario.w_empty eq_refl).
Defined.

(** C7, as stated, fails: for the empty question the pipeline raises no
    validation error; it sends ["?"] to the embedding provider, queries
    Qdrant and ends in [internal_error]. *)
Lemma empty_question_reaches_provider :
  let ask := process_question Scenario.env_ok [] None None (lit "auto") in
  strip [] = [] /\
  w_trace (world_after ask Scenario.w_empty)
  = [EvEmbedContent (lit "?"); EvQdrantGetCollections; EvQdrantSearch] /\
  outcome ask Scenario.w_empty
  = Return (_format_error
              ["input_normalized"; "embedding_generated";
               "semantic_search_miss_or_low_quality"] "internal_error") /\
  w_trace (world_after ask Scenario.w_empty) <> w_trace Scenario.w_empty.
Proof. vm_compute. repeat split. discriminate. Qed.

End Ask.

(* ================================================================== *)
(** * The fallback after a failed generation *)
(* ================================================================== *)

Section Fallback.

Import IntelligentQAService.

Lemma in_firstn_in {A} (n : nat) (l : list A) (x : A) :
  In x (firstn n l) -> In x l.
Proof.
  revert l. induction n as [|n IH]; intros [|y l]; simpl; auto.
  - intros [].
  - intros [->|H]; auto.
Qed.

Lemma in_insert_desc (x y : Point * Q) (l : list (Point * Q)) :
  In y (QdrantService.insert_desc x l) -> y = x \/ In y l.
Proof.
  induction l as [|z l IH]; simpl.
  - intros [->|[]]. now left.
  - destruct (Qle_bool (snd x) (snd z)); simpl.
    + intros [->|H]; auto. destruct (IH H); auto.
    + intros [->|[->|H]]; auto.
Qed.

Lemma in_sort_desc (l : list (Point * Q)) (y : Point * Q) :
  In y (QdrantService.sort_desc l) -> In y l.
Proof.
  unfold QdrantService.sort_desc.
  assert (G : forall acc, In y (fold_left (fun a x => QdrantService.insert_desc x a) l acc)
                          -> In y acc \/ In y l).
  { induction l as [|x l IH]; simpl; intros acc H; auto.
    destruct (IH _ H) as [H1|H1]; auto.
    destruct (in_insert_desc _ _ _ H1) as [->|H2]; auto. }
  intros H. destruct (G [] H) as [[]|H1]. exact H1.
Qed.

(** No point scoring below the threshold is among the results. *)
Lemma scored_points_threshold (env : Env) (ix : list Point) (query : list Q)
    (limit : nat) (score_threshold : Q) (ps : Point * Q) :
  In ps (QdrantService.scored_points env ix query limit score_threshold) ->
  (score_threshold <= snd ps)%Q /\ In (fst ps) ix /\
  snd ps = qdrant_score env (point_vector (fst ps)) query.
Proof.
  unfold QdrantService.scored_points. intros H.
  apply in_firstn_in, in_sort_desc, filter_In in H.
  destruct H as [Hin Hle]. apply Qle_bool_iff in Hle.
  apply in_map_iff in Hin. destruct Hin as (p & <- & Hp). simpl. auto.
Qed.

(** What [search_similar_questions] does in every world: it returns,
    only hits scoring at least the threshold, each the formatted payload
    of a point of the index, no more of them than a positive limit
    allows and none for another limit; both stores stay as they were. *)
Lemma search_run (env : Env) (query : list Component) (limit : Z)
    (score_threshold : Q) (w : World) :
  exists hits w1,
    QdrantService.search_similar_questions env query limit score_threshold w
    = (Return hits, w1) /\
    w_db w1 = w_db w /\ w_index w1 = w_index w /\
    (List.length hits <= Z.to_nat limit)%nat /\
    forall h, In h hits ->
      (score_threshold <= similarity_score h)%Q /\
      exists p, In p (w_index w) /\
                hit_qa_id h = dict_atom (point_payload p) "qa_id".
Proof.
  unfold QdrantService.search_similar_questions, QdrantService.usable,
    QdrantService.is_connected, QdrantService.as_vector.
  destruct (qdrant_client env); run;
    [destruct (qdrant_alive env); simpl;
     [destruct (floats_of query) as [query_vector|]; simpl;
      [destruct (qdrant_search_ok env); simpl;
       [destruct (Z.leb 1 limit); simpl;
        [destruct (QdrantService.fits query_vector); simpl|]|]|]|]|];
    eexists _, _; (split; [reflexivity|]); simpl;
    (split; [reflexivity|]); (split; [reflexivity|]);
    try (split; [lia|intros h []]).
  split.
  - rewrite length_map. unfold QdrantService.scored_points.
    rewrite length_firstn. lia.
  - intros h Hh. apply in_map_iff in Hh. destruct Hh as (ps & <- & Hps).
    apply scored_points_threshold in Hps. destruct Hps as (Hs & Hin & _).
    simpl. split; [exact Hs|]. exists (fst ps). auto.
Qed.

(** What [search_similar_questions] returns: only hits scoring at least
    the threshold; both stores stay as they were. *)
Lemma search_hits_threshold (env : Env) (query : list Component) (limit : Z)
    (score_threshold : Q) (w w1 : World) (hits : list Hit) :
  QdrantService.search_similar_questions env query limit score_threshold w
  = (Return hits, w1) ->
  (forall h, In h hits -> (score_threshold <= similarity_score h)%Q) /\
  w_db w1 = w_db w /\ w_index w1 = w_index w.
Proof.
  intros H.
  destruct (search_run env query limit score_threshold w)
    as (hits' & w1' & E & Hd & Hi & _ & Hh).
  rewrite E in H. injection H as <- <-.
  split; [|auto]. intros h Hin. apply (Hh h Hin).
Qed.

Lemma fallback_floor_below_search : (fallback_floor <= semantic_search_threshold)%Q.
Proof. unfold Qle. simpl. lia. Qed.

(** The query by [qa_id] is sent, refused and answered with [None], in
    every world and for every identifier. *)
Lemma lookup_by_qa_id_finds_nothing (env : Env) (question_id : PyAtom)
    (w : World) :
  QAPairRepository.get_qa_pair_by_question_id env question_id w
  = (Return None, add_event w EvDbQuery).
Proof. reflexivity. Qed.

(** C5, where the code departs from it.  The handler of a failed Gemini
    call never answers [vector_search_fallback]: for a best hit scoring
    at least 0.30 it opens a session and asks the canonical store for
    the row of the hit's [qa_id], and that query is refused, so it ends
    in an error in every world and for all hits.  And the ask never
    reaches the handler.  With Gemini out of quota and a stored pair
    whose point scores 9/10 against the question, the search step gives
    that hit, which passes the 0.30 test; the ask ends in
    [internal_error] at the scraper call, and the handler, run on the
    hit, ends in [generation_failure]. *)
Theorem fallback_never_answers :
  (forall env hits processing_steps w,
      exists reason,
        outcome (gemini_failed env hits processing_steps) w
        = Return (_format_error processing_steps reason) /\
        (reason = "generation_failure" \/ reason = "internal_error")) /\
  (exists hit,
      outcome (QdrantService.search_similar_questions Scenario.env_llm_down
                 Scenario.v_query 5 semantic_search_threshold) Scenario.w_close
      = Return [hit] /\
      (similarity_score hit == 9 # 10)%Q /\
      Qle_bool fallback_floor (similarity_score hit) = true /\
      hit_qa_id hit = AId Scenario.id_old /\
      row_carries_qa_id (hit_qa_id hit) Scenario.row_old = true /\
      outcome (gemini_failed Scenario.env_llm_down [hit] ["gemini_api_failed"])
        Scenario.w_close
      = Return (_format_error ["gemini_api_failed"] "generation_failure")) /\
  outcome (process_question Scenario.env_llm_down Scenario.capital_q None
             None (lit "auto")) Scenario.w_close
  = Return (_format_error
              ["input_normalized"; "embedding_generated";
               "semantic_search_hit"; "semantic_search_miss_or_low_quality"]
              "internal_error").
Proof.
  split; [|split].
  - intros env hits steps w. unfold outcome, gemini_failed.
    destruct hits as [|best rest];
      [exists "generation_failure"; split; [reflexivity|now left]|].
    destruct (Qle_bool fallback_floor (similarity_score best));
      [|exists "generation_failure"; split; [reflexivity|now left]].
    unfold guarded, QAPairRepository.get_db. run.
    destruct (db_session_ok env); simpl.
    + exists "generation_failure". split; [reflexivity|now left].
    + exists "internal_error". split; [reflexivity|now right].
  - eexists. split; [vm_compute; reflexivity|].
    repeat split; vm_compute; reflexivity.
  - vm_compute. reflexivity.
Qed.

End Fallback.

(* ================================================================== *)
(** * Canonical points and the paths that write the stores *)
(* ================================================================== *)

Section CanonicalPoints.

Import IntelligentQAService.













End CanonicalPoints.

(* ================================================================== *)
(** * Further properties of the ask pipeline *)
(* ================================================================== *)

Section AskResponses.

Import IntelligentQAService.

Lemma try_unit_returns (c : M unit) (w : World) :
  try_except c (fun _ => ret tt) w = (Return tt, snd (c w)).
Proof.
  unfold try_except, ret. destruct (c w) as [[[]|e] w']; reflexivity.
Qed.

Lemma ensure_initialized_returns (env : Env) (w : World) :
  ensure_initialized env w
  = (Return tt, world_after (ensure_initialized env) w).
Proof.
  unfold world_after, ensure_initialized, bind, get_world.
  destruct (w_initialized w); [reflexivity|].
  unfold initialize_system. rewrite try_unit_returns. reflexivity.
Qed.

Lemma coerce_cons (d : nat) (x : Component) (e : list Component) :
  exists y v, EmbeddingService.coerce (Some (S d)) (x :: e) = y :: v.
Proof.
  unfold EmbeddingService.coerce.
  destruct (negb (Nat.eqb (S d) 0) &&
            negb (Nat.eqb (List.length (x :: e)) (S d))).
  - unfold EmbeddingService.resize. simpl. eauto.
  - eauto.
Qed.

(** A text that is not empty never embeds to [None] or to the empty
    vector. *)
Lemma embedding_of_text_shape (env : Env) (d : nat) (c : N) (t : pystr)
    (e : EmbeddingService.Embeddings) (w w' : World) :
  EmbeddingService.generate_embedding env (Some (S d))
    (EmbeddingService.OneText (c :: t)) w = (Return e, w') ->
  exists x v, e = EmbeddingService.OneEmbedding (x :: v).
Proof.
  unfold EmbeddingService.generate_embedding, EmbeddingService.embed_item.
  run. destruct (embed_client env); simpl; [|discriminate].
  destruct (EmbeddingService.extract (embed_content env (c :: t)))
    as [[|x l]|]; simpl; try discriminate.
  intros H. injection H as <- _.
  destruct (coerce_cons d x l) as (y & v & Hc).
  exists y, v. f_equal. exact Hc.
Qed.

Lemma normalize_cons (question : pystr) :
  exists c t, _normalize_question question = c :: t.
Proof.
  pose proof (normalize_nonempty question) as H.
  destruct (_normalize_question question) as [|c t]; [contradiction|eauto].
Qed.

Lemma after_search_responses (env : Env) (nq : pystr) (emb : list Component)
    (similar : list Hit) (context : option pystr) (language : pystr)
    (user_id : option UserRef) (steps : list string) (w : World) :
  exists r,
    outcome (after_search env nq emb similar context language user_id steps) w
    = Return r /\
    ((r_source r = "vector_search" /\ r_status r = "success" /\
      r_steps r = steps ++ ["semantic_search_hit"] /\
      (quality_threshold <= r_confidence r)%Q) \/
     (r_source r = "error" /\ r_status r = "error" /\ r_answer r = None /\
      r_reason r = Some "internal_error" /\
      exists more, r_steps r = steps ++ more)).
Proof.
  unfold outcome, after_search.
  destruct similar as [|best rest].
  - rewrite miss_branch_internal_error. eexists. split; [reflexivity|].
    right. simpl. eauto 6.
  - destruct (Qle_bool quality_threshold (similarity_score best)) eqn:Eq.
    + apply Qle_bool_iff in Eq.
      apply guarded_cases.
      * intros w'. eexists. split; [reflexivity|]. right. simpl. eauto 6.
      * intros _ w'. apply guarded_cases.
        -- intros w''. eexists. split; [reflexivity|]. right. simpl. eauto 6.
        -- intros [qa|] w''.
           ++ eexists. split; [reflexivity|]. left. simpl. auto.
           ++ rewrite miss_branch_internal_error.
              eexists. split; [reflexivity|]. right. simpl.
              rewrite <- app_assoc. eauto 6.
    + rewrite miss_branch_internal_error. eexists. split; [reflexivity|].
      right. simpl. rewrite <- app_assoc. eauto 6.
Qed.

(** X1.  Whatever the collaborators do, [process_question] returns a
    response (it never raises), the response's steps begin with
    [input_normalized], and it is one of two kinds: a [vector_search]
    answer whose steps are exactly normalization, embedding and hit and
    whose confidence is at least 0.95, or an error whose reason is
    [internal_error].  The reasons [embedding_failure] and
    [generation_failure] never leave the pipeline. *)
Theorem process_question_responses (env : Env) (question : pystr)
    (user_id : option UserRef) (context : option pystr) (language : pystr)
    (w : World) :
  exists r,
    outcome (process_question env question user_id context language) w
    = Return r /\
    (exists more, r_steps r = "input_normalized" :: more) /\
    ((r_source r = "vector_search" /\ r_status r = "success" /\
      r_steps r = ["input_normalized"; "embedding_generated"; "semantic_search_hit"] /\
      (quality_threshold <= r_confidence r)%Q) \/
     (r_source r = "error" /\ r_status r = "error" /\ r_answer r = None /\
      r_reason r = Some "internal_error")).
Proof.
  unfold outcome, process_question, guarded.
  rewrite ensure_initialized_returns.
  set (w0 := world_after (ensure_initialized env) w).
  destruct (normalize_cons question) as (c & t & Hn). rewrite Hn.
  destruct (EmbeddingService.generate_embedding env EmbeddingService.output_dim
              (EmbeddingService.OneText (c :: t)) w0) as [[e|ex] w1] eqn:E.
  - destruct (embedding_of_text_shape env 767 c t e w0 w1 E) as (x & v & ->).
    destruct (QdrantService.search_similar_questions env (x :: v) 5
                semantic_search_threshold w1) as [[similar|ex] w2].
    + destruct (after_search_responses env (c :: t) (x :: v) similar context
                  language user_id
                  (["input_normalized"] ++ ["embedding_generated"]) w2)
        as (r & Hr & H).
      unfold outcome in Hr. exists r. split; [exact Hr|].
      destruct H as [(Hs & Hst & Hsteps & Hq)
                    |(Hs & Hst & Ha & Hre & more & Hsteps)].
      * split; [rewrite Hsteps; simpl; eauto|]. left. auto.
      * split; [rewrite Hsteps; simpl; eauto|]. right. auto.
    + eexists. split; [reflexivity|]. simpl. split; [eauto|]. right. auto.
  - eexists. split; [reflexivity|]. simpl. split; [eauto|]. right. auto.
Qed.

(** X2.  The HTTP endpoint in front of the pipeline answers in one of
    three ways only: 400 for a question that is empty or all white
    space, 200 with a [vector_search] answer of confidence at least
    0.95, or 500.  The 503 that the endpoint maps [embedding_failure]
    and [generation_failure] to is never sent. *)
Theorem ask_endpoint_status_codes (env : Env) (question : pystr)
    (user_id : option UserRef) (context : option pystr) (language : pystr)
    (current_user_id : N) (w : World) :
  let answer := outcome (Api.ask_intelligent_question env question user_id
                           context language current_user_id) w in
  (strip question = [] /\ answer = Return (Api.HttpError 400)) \/
  (strip question <> [] /\
   (answer = Return (Api.HttpError 500) \/
    exists r, answer = Return (Api.HttpOk r) /\
      r_source r = "vector_search" /\
      (quality_threshold <= r_confidence r)%Q)).
Proof.
  unfold outcome, Api.ask_intelligent_question.
  destruct (strip question) as [|c t] eqn:Es.
  - left. split; [reflexivity|]. simpl. rewrite orb_true_r. reflexivity.
  - right. split; [discriminate|].
    assert (Hq : PyStr.falsy question = false).
    { destruct question; [discriminate Es|reflexivity]. }
    rewrite Hq. simpl.
    set (uid := match user_id with
                | Some (UserText []) | None => Some (UserUuid current_user_id)
                | _ => user_id
                end).
    unfold bind, process_question, guarded.
    rewrite ensure_initialized_returns.
    set (w0 := world_after (ensure_initialized env) w).
    destruct (normalize_cons (c :: t)) as (c' & t' & Hn). rewrite Hn.
    destruct (EmbeddingService.generate_embedding env
                EmbeddingService.output_dim
                (EmbeddingService.OneText (c' :: t')) w0)
      as [[e|ex] w1] eqn:E; [|now left].
    destruct (embedding_of_text_shape env 767 c' t' e w0 w1 E) as (x & v & ->).
    destruct (QdrantService.search_similar_questions env (x :: v) 5
                semantic_search_threshold w1) as [[similar|ex] w2]; [|now left].
    destruct (after_search_responses env (c' :: t') (x :: v) similar context
                language uid
                (["input_normalized"] ++ ["embedding_generated"]) w2)
      as (r & Hr & H).
    unfold outcome in Hr.
    destruct (after_search env (c' :: t') (x :: v) similar context language
                uid (["input_normalized"] ++ ["embedding_generated"]) w2)
      as [o w3].
    simpl in Hr. subst o.
    destruct H as [(Hs & Hst & _ & Hc)|(Hs & Hst & _ & Hre & _)].
    + right. exists r. rewrite Hst. simpl. auto.
    + left. rewrite Hst, Hre. reflexivity.
Qed.

End AskResponses.

Section CacheHit.

Import IntelligentQAService.

(** After the search every branch ends in [internal_error]: at the
    scraper call, or at the session of the hit branch. *)
Lemma after_search_internal_error (env : Env) (nq : pystr)
    (emb : list Component) (similar : list Hit) (context : option pystr)
    (language : pystr) (user_id : option UserRef) (steps : list string)
    (w : World) :
  exists more,
    outcome (after_search env nq emb similar context language user_id steps) w
    = Return (_format_error (steps ++ more) "internal_error") /\
    In more [["semantic_search_miss_or_low_quality"];
             ["semantic_search_hit"];
             ["semantic_search_hit"; "semantic_search_miss_or_low_quality"]].
Proof.
  unfold outcome, after_search.
  destruct similar as [|best rest].
  - exists ["semantic_search_miss_or_low_quality"]. simpl. auto.
  - destruct (Qle_bool quality_threshold (similarity_score best)).
    + unfold guarded, QAPairRepository.get_db. run.
      destruct (db_session_ok env); simpl.
      * exists ["semantic_search_hit"; "semantic_search_miss_or_low_quality"].
        rewrite <- app_assoc. simpl. auto.
      * exists ["semantic_search_hit"]. simpl. auto.
    + exists ["semantic_search_hit"; "semantic_search_miss_or_low_quality"].
      rewrite miss_branch_internal_error, <- app_assoc. simpl. auto.
Qed.

(** X3.  No ask is answered.  Whatever the collaborators do and whatever
    the stores hold, [process_question] returns the error response of
    reason [internal_error], after one of four step lists: the embedding
    or the search raised; the search gave no hit; the session of the hit
    branch could not be opened; or the ask reached the scraper call,
    after a hit or without one.  A hit scoring 0.95 or more changes
    nothing: the row of its [qa_id] is never found. *)
Theorem ask_ends_in_internal_error (env : Env) (question : pystr)
    (user_id : option UserRef) (context : option pystr) (language : pystr)
    (w : World) :
  exists steps,
    outcome (process_question env question user_id context language) w
    = Return (_format_error steps "internal_error") /\
    In steps ask_step_lists.
Proof.
  unfold outcome, process_question, guarded, ask_step_lists.
  rewrite ensure_initialized_returns.
  set (w0 := world_after (ensure_initialized env) w).
  destruct (normalize_cons question) as (c & t & Hn). rewrite Hn.
  destruct (EmbeddingService.generate_embedding env EmbeddingService.output_dim
              (EmbeddingService.OneText (c :: t)) w0) as [[e|ex] w1] eqn:E.
  - destruct (embedding_of_text_shape env 767 c t e w0 w1 E) as (x & v & ->).
    destruct (search_run env (x :: v) 5 semantic_search_threshold w1)
      as (similar & w2 & -> & _).
    destruct (after_search_internal_error env (c :: t) (x :: v) similar
                context language user_id
                (["input_normalized"] ++ ["embedding_generated"]) w2)
      as (more & Hr & Hin).
    unfold outcome in Hr. eexists. split; [exact Hr|].
    simpl in Hin. destruct Hin as [<-|[<-|[<-|[]]]]; simpl; auto.
  - eexists. split; [reflexivity|]. simpl. auto.
Qed.

Lemma embedding_health_run (env : Env) (w : World) :
  exists w1,
    EmbeddingService.get_system_health env w
    = (Return (embed_client env && embeds env EmbeddingService.health_check_text),
       w1) /\
    w_db w1 = w_db w /\ w_index w1 = w_index w /\
    w_initialized w1 = w_initialized w.
Proof.
  unfold EmbeddingService.get_system_health, embeds.
  destruct (embed_client env) eqn:Ec; run; [|eauto].
  rewrite Ec. unfold EmbeddingService.embed_item. run.
  destruct (EmbeddingService.extract
              (embed_content env EmbeddingService.health_check_text))
    as [[|x e]|]; simpl; eauto.
  destruct (Nat.eqb (List.length e) 767); simpl; eauto.
Qed.

(** X4.  Start-up.  [ensure_initialized] never raises and never writes
    either store.  On an initialised service it makes no external call
    at all; otherwise the service becomes initialised exactly when
    Qdrant answers (client, collections, collection info) and the
    embedding service embeds its probe sentence: Gemini's state plays no
    part. *)
Theorem initialization_needs_core_services (env : Env) (w : World) :
  let w' := world_after (ensure_initialized env) w in
  outcome (ensure_initialized env) w = Return tt /\
  w_db w' = w_db w /\ w_index w' = w_index w /\
  if w_initialized w then w' = w
  else w_initialized w' =
       qdrant_client env && qdrant_alive env && qdrant_get_collection_ok env &&
       (embed_client env && embeds env EmbeddingService.health_check_text).
Proof.
  split.
  { unfold outcome. now rewrite ensure_initialized_returns. }
  unfold world_after, ensure_initialized, bind, get_world.
  destruct (w_initialized w) eqn:Ei; [simpl; auto|].
  unfold initialize_system. rewrite try_unit_returns. simpl.
  unfold QdrantService._ensure_collection_exists, _check_system_health,
    QdrantService.get_collection_stats, QdrantService.usable,
    QdrantService.is_connected, GeminiService.get_system_health.
  destruct (qdrant_client env), (qdrant_alive env),
    (qdrant_collection_present env), (qdrant_get_collection_ok env); run;
    match goal with
    | |- context [EmbeddingService.get_system_health env ?w0] =>
        destruct (embedding_health_run env w0) as (w1 & -> & Hd & Hi & Hn)
    end;
    simpl in *;
    destruct (embed_client env), (gemini_model env); simpl;
    destruct (embeds env EmbeddingService.health_check_text);
    simpl; repeat split; auto; congruence.
Qed.

End CacheHit.

(* ================================================================== *)
(** * Further properties of the embedding service *)
(* ================================================================== *)

Section EmbeddingCalls.

Import EmbeddingService.

Lemma embed_item_run (env : Env) (od : option nat) (t : pystr) (w : World) :
  world_after (embed_item env od t) w = add_event w (EvEmbedContent t) /\
  if embeds env t
  then exists v, outcome (embed_item env od t) w = Return v
  else outcome (embed_item env od t) w
       = Raise (RuntimeError "Embedding generation failed").
Proof.
  unfold embed_item, embeds. run.
  destruct (extract (embed_content env t)) as [[|x e]|]; simpl; eauto.
Qed.

Lemma embed_items_run (env : Env) (od : option nat) (ts : list pystr) :
  forall w,
    match outcome (embed_items env od ts) w with
    | Return vs =>
        List.length vs = List.length ts /\
        forallb (embeds env) ts = true /\
        w_trace (world_after (embed_items env od ts) w)
        = w_trace w ++ map EvEmbedContent ts
    | Raise e =>
        e = RuntimeError "Embedding generation failed" /\
        forallb (embeds env) ts = false
    end.
Proof.
  induction ts as [|t ts IH]; intros w.
  - simpl. run. rewrite app_nil_r. auto.
  - destruct (embed_item_run env od t w) as [Hw Ho].
    unfold outcome, world_after in *.
    change (embed_items env od (t :: ts) w)
      with (match embed_item env od t w with
            | (Return e, w1) =>
                match embed_items env od ts w1 with
                | (Return es, w2) => (Return (e :: es), w2)
                | (Raise ex, w2) => (Raise ex, w2)
                end
            | (Raise ex, w1) => (Raise ex, w1)
            end).
    simpl forallb.
    destruct (embed_item env od t w) as [[v|ex] w1]; simpl in Hw, Ho.
    + destruct (embeds env t); [|discriminate]. simpl.
      specialize (IH w1).
      destruct (embed_items env od ts w1) as [[vs|ex] w2]; simpl in *.
      * destruct IH as (Hl & Hf & Ht). repeat split; auto.
        rewrite Ht, Hw. simpl. now rewrite <- app_assoc.
      * exact IH.
    + destruct (embeds env t).
      * destruct Ho as (v & Hv). discriminate.
      * simpl. split; [congruence|reflexivity].
Qed.

(** X5.  A list of texts is embedded all or nothing.  The call returns
    only if the provider gives a non-empty sequence for every text, and
    then it returns one vector per text after exactly one provider call
    per text, in the order of the texts.  If the client is missing or
    one text fails, the call raises [RuntimeError] and returns no
    partial list.  The empty list returns [None] without any call. *)
Theorem embedding_list_all_or_nothing (env : Env) (od : option nat)
    (ts : list pystr) (w : World) :
  let w' := world_after (generate_embedding env od (ManyTexts ts)) w in
  match outcome (generate_embedding env od (ManyTexts ts)) w with
  | Return NoEmbedding => ts = [] /\ w' = w
  | Return (OneEmbedding _) => False
  | Return (ManyEmbeddings vs) =>
      List.length vs = List.length ts /\
      embed_client env = true /\ forallb (embeds env) ts = true /\
      w_trace w' = w_trace w ++ map EvEmbedContent ts
  | Raise e =>
      e = RuntimeError "Embedding service failed" /\ ts <> [] /\
      (embed_client env = false \/ forallb (embeds env) ts = false)
  end.
Proof.
  unfold generate_embedding.
  destruct ts as [|t ts]; [run; auto|].
  unfold outcome, world_after, try_except.
  destruct (embed_client env) eqn:Ec.
  - pose proof (embed_items_run env od (t :: ts) w) as H.
    unfold outcome, world_after, bind, ret, raise in *.
    destruct (embed_items env od (t :: ts) w) as [[vs|ex] w1]; simpl in *.
    + destruct H as (Hl & Hf & Ht). auto.
    + destruct H as (_ & Hf). repeat split; [discriminate|auto].
  - run. repeat split; [discriminate|auto].
Qed.

End EmbeddingCalls.

(* ================================================================== *)
(** * Further properties of the vector index *)
(* ================================================================== *)

Section VectorIndexOperations.

Import QdrantService.

(** X6.  An unusable Qdrant is contained.  When the client is missing
    or Qdrant does not answer, storing returns [False], the batch store
    returns 0, searching returns the empty list, deleting and updating
    return [False]; none of them raises, and neither store changes. *)
Theorem qdrant_unusable_contained (env : Env) (w : World) :
  qdrant_client env && qdrant_alive env = false ->
  (forall qa_id question embedding metadata,
      outcome (store_qa_embedding env qa_id question embedding metadata) w
      = Return false /\
      w_index (world_after (store_qa_embedding env qa_id question embedding
                              metadata) w) = w_index w) /\
  (forall qa_data,
      outcome (batch_store_embeddings env qa_data) w = Return 0%nat /\
      w_index (world_after (batch_store_embeddings env qa_data) w) = w_index w) /\
  (forall query limit threshold,
      outcome (search_similar_questions env query limit threshold) w
      = Return []) /\
  (forall qa_id,
      outcome (delete_qa_embedding env qa_id) w = Return false /\
      w_index (world_after (delete_qa_embedding env qa_id) w) = w_index w) /\
  (forall qa_id question embedding metadata,
      outcome (update_qa_embedding env qa_id question embedding metadata) w
      = Return false /\
      w_index (world_after (update_qa_embedding env qa_id question embedding
                              metadata) w) = w_index w).
Proof.
  intros H.
  unfold update_qa_embedding, store_qa_embedding, batch_store_embeddings,
    search_similar_questions, delete_qa_embedding, usable, is_connected.
  destruct (qdrant_client env); simpl in H; [rewrite H|]; run;
    repeat split; reflexivity.
Qed.

Lemma qdrant_unusable_contained_witness :
  outcome (store_qa_embedding Cases.env_qdrant_down Scenario.id_old
             Scenario.capital_q Scenario.v_query None) Scenario.w_near
  = Return false /\
  outcome (search_similar_questions Cases.env_qdrant_down
             (EmbeddingService.resize 768 Scenario.v_query) 5 (85 # 100)%Q)
    Scenario.w_near = Return [].
Proof.
  destruct (qdrant_unusable_contained Cases.env_qdrant_down Scenario.w_near
              eq_refl) as (Hs & _ & Hq & _).
  split; [apply Hs | apply Hq].
Defined.

Lemma nodup_map_inj {A B} (f : A -> B) (l : list A) (x y : A) :
  NoDup (map f l) -> In x l -> In y l -> f x = f y -> x = y.
Proof.
  induction l as [|a l IH]; simpl; intros Hn Hx Hy Hf; [contradiction|].
  inversion Hn as [|b l' Hnotin Hn']; subst.
  destruct Hx as [->|Hx], Hy as [->|Hy]; auto.
  - exfalso. apply Hnotin. rewrite Hf. now apply in_map.
  - exfalso. apply Hnotin. rewrite <- Hf. now apply in_map.
Qed.

Lemma filter_none_keeps_rest {A} (f : A -> bool) (l : list A) :
  filter f l = [] -> filter (fun x => negb (f x)) l = l.
Proof.
  induction l as [|a l IH]; simpl; [reflexivity|].
  destruct (f a); [discriminate|]. simpl. intros H. now rewrite IH.
Qed.

(** Among points with distinct identifiers, the identifiers found by the
    scroll select exactly the points carrying the [qa_id]. *)
Lemma scrolled_ids_select (qa_id : QaId) (ix : list Point) (p : Point) :
  point_ids_distinct ix -> In p ix ->
  existsb (N.eqb (point_id p)) (map point_id (filter (has_qa_id qa_id) ix))
  = has_qa_id qa_id p.
Proof.
  intros Hn Hp.
  destruct (has_qa_id qa_id p) eqn:Eh.
  - apply existsb_exists. exists (point_id p). split; [|apply N.eqb_refl].
    apply in_map. apply filter_In. auto.
  - destruct (existsb _ _) eqn:Ee; [|reflexivity].
    apply existsb_exists in Ee. destruct Ee as (i & Hi & Heq).
    apply N.eqb_eq in Heq. apply in_map_iff in Hi.
    destruct Hi as (q & Hq & Hin). apply filter_In in Hin.
    destruct Hin as [Hin Hhas].
    assert (p = q) by (eapply nodup_map_inj; eauto; congruence).
    subst q. congruence.
Qed.

(** What [delete_qa_embedding] does with Qdrant up: it answers [True]
    and the points of the [qa_id] are gone when the scroll goes through
    and the delete does, or has nothing to delete; otherwise it answers
    [False] and the index is as it was. *)
Lemma delete_qa_embedding_run (env : Env) (qa_id : QaId) (w : World) :
  qdrant_client env = true -> qdrant_alive env = true ->
  point_ids_distinct (w_index w) ->
  (List.length (points_with_qa_id qa_id (w_index w)) <= 100)%nat ->
  let done :=
    qdrant_scroll_ok env &&
    (qdrant_delete_ok env ||
     Nat.eqb (List.length (points_with_qa_id qa_id (w_index w))) 0) in
  exists w1,
    delete_qa_embedding env qa_id w = (Return done, w1) /\
    w_index w1 = (if done
                  then filter (fun p => negb (has_qa_id qa_id p)) (w_index w)
                  else w_index w) /\
    w_db w1 = w_db w /\ w_uuid w1 = w_uuid w.
Proof.
  intros Hc Ha Hn Hle.
  unfold delete_qa_embedding, usable, is_connected, client_delete.
  rewrite Hc.
  unfold bind, ret, raise, emit, try_except, get_world.
  cbn -[firstn filter Nat.eqb]. rewrite Ha. cbn -[firstn filter Nat.eqb].
  destruct (qdrant_scroll_ok env); cbn -[firstn filter Nat.eqb];
    [|eexists; split; [reflexivity|]; simpl; auto].
  unfold points_with_qa_id in *.
  rewrite (firstn_all2 (n := 100)) by exact Hle.
  destruct (filter (has_qa_id qa_id) (w_index w)) as [|q l] eqn:Ef.
  - rewrite orb_true_r. simpl. eexists. split; [reflexivity|]. simpl.
    rewrite (filter_none_keeps_rest _ _ Ef). auto.
  - cbn -[filter existsb]. rewrite orb_false_r.
    destruct (qdrant_delete_ok env); cbn -[filter existsb map];
      (eexists; split; [reflexivity|]); cbn -[filter existsb map]; auto.
    split; [|auto].
    apply filter_ext_in. intros p Hp. f_equal.
    rewrite <- (scrolled_ids_select qa_id (w_index w) p Hn Hp).
    rewrite Ef. reflexivity.
Qed.

Lemma filter_negb_none {A} (f : A -> bool) (l : list A) :
  filter f (filter (fun x => negb (f x)) l) = [].
Proof.
  induction l as [|a l IH]; simpl; [reflexivity|].
  destruct (f a) eqn:E; simpl; [exact IH|]. now rewrite E.
Qed.

(** X7.  Deleting by [qa_id].  With Qdrant up, points under distinct
    identifiers and at most 100 of them carrying the [qa_id] (the
    scroll's limit), [delete_qa_embedding] never raises and never
    touches the canonical store.  If the scroll goes through and the
    delete does, or finds nothing to delete, it returns [True], every
    point carrying the [qa_id] is removed and every other point kept, in
    order.  If the scroll or the delete is refused, it returns [False]
    and the index is as it was.  The [qa_id] is compared as the string
    it is. *)
Theorem delete_by_qa_id (env : Env) (qa_id : QaId) (w : World) :
  qdrant_client env = true -> qdrant_alive env = true ->
  point_ids_distinct (w_index w) ->
  (List.length (points_with_qa_id qa_id (w_index w)) <= 100)%nat ->
  let w' := world_after (delete_qa_embedding env qa_id) w in
  w_db w' = w_db w /\
  if qdrant_scroll_ok env &&
     (qdrant_delete_ok env ||
      Nat.eqb (List.length (points_with_qa_id qa_id (w_index w))) 0)
  then outcome (delete_qa_embedding env qa_id) w = Return true /\
       w_index w' = filter (fun p => negb (has_qa_id qa_id p)) (w_index w) /\
       points_with_qa_id qa_id (w_index w') = []
  else outcome (delete_qa_embedding env qa_id) w = Return false /\
       w_index w' = w_index w.
Proof.
  intros Hc Ha Hn Hle.
  destruct (delete_qa_embedding_run env qa_id w Hc Ha Hn Hle)
    as (w1 & E & Hi & Hd & _).
  unfold outcome, world_after. rewrite E. cbn [fst snd].
  split; [exact Hd|].
  destruct (qdrant_scroll_ok env &&
            (qdrant_delete_ok env ||
             Nat.eqb (List.length (points_with_qa_id qa_id (w_index w))) 0)).
  - repeat split; auto. rewrite Hi. apply filter_negb_none.
  - auto.
Qed.

Lemma three_points_distinct : point_ids_distinct (w_index Cases.w_three_points).
Proof.
  unfold point_ids_distinct. simpl.
  repeat constructor; simpl; intuition discriminate.
Qed.

(** The points stored under [qa_7_1600000000] are deleted under the same
    text from elsewhere; when Qdrant refuses the delete they all stay. *)
Lemma delete_by_qa_id_witness :
  map point_id
    (w_index (world_after
                (delete_qa_embedding Scenario.env_ok Cases.id_old_as_text)
                Cases.w_three_points)) = [2%N] /\
  outcome (delete_qa_embedding Cases.env_delete_fails Scenario.id_old)
    Cases.w_three_points = Return false /\
  map point_id
    (w_index (world_after
                (delete_qa_embedding Cases.env_delete_fails Scenario.id_old)
                Cases.w_three_points)) = [1%N; 2%N; 3%N].
Proof.
  assert (Hle : forall i,
             (List.length (points_with_qa_id i (w_index Cases.w_three_points))
              <= 100)%nat).
  { intros i. unfold points_with_qa_id.
    etransitivity; [apply filter_length_le|]. simpl. lia. }
  pose proof (delete_by_qa_id Scenario.env_ok Cases.id_old_as_text
                Cases.w_three_points eq_refl eq_refl three_points_distinct
                (Hle _)) as [_ H1].
  pose proof (delete_by_qa_id Cases.env_delete_fails Scenario.id_old
                Cases.w_three_points eq_refl eq_refl three_points_distinct
                (Hle _)) as [_ H2].
  vm_compute in H1. vm_compute in H2.
  destruct H1 as (_ & H1 & _). destruct H2 as (H2 & H3).
  split; [|split].
  - vm_compute. vm_compute in H1. reflexivity.
  - vm_compute. exact H2.
  - vm_compute. reflexivity.
Defined.

Lemma store_qa_embedding_run (env : Env) (qa_id : QaId) (question : pystr)
    (embedding : list Component) (vector : list Q) (metadata : option dict)
    (w : World) :
  qdrant_client env = true -> qdrant_alive env = true ->
  qdrant_upsert_ok env = true ->
  floats_of embedding = Some vector -> fits vector = true ->
  (forall p, In p (w_index w) -> point_id p <> w_uuid w) ->
  exists w1,
    store_qa_embedding env qa_id question embedding metadata w
    = (Return true, w1) /\
    w_index w1 = w_index w ++
                 [mkPoint (w_uuid w) vector
                    (store_payload qa_id question metadata)] /\
    w_db w1 = w_db w.
Proof.
  intros Hc Ha Hu Hv Hfit Hf.
  unfold store_qa_embedding, usable, is_connected, client_upsert, as_vector.
  rewrite Hc, Hv. run. rewrite Ha, Hu, Hfit. simpl.
  eexists. split; [reflexivity|]. simpl. split; [|reflexivity].
  unfold upsert_points. simpl. apply upsert_point_fresh. exact Hf.
Qed.

Lemma filter_filter_same {A} (f : A -> bool) (l : list A) :
  filter f (filter f l) = filter f l.
Proof.
  induction l as [|a l IH]; simpl; [reflexivity|].
  destruct (f a) eqn:E; simpl; [rewrite E; now f_equal|exact IH].
Qed.

(** X8.  Updating.  With Qdrant up and taking the upsert, distinct
    point identifiers, at most 100 points carrying the [qa_id], unused
    [uuid4] values, an embedding of 768 floats and metadata that does
    not override the [qa_id], [update_qa_embedding] returns [True] and
    the new point is the last of the index.  It replaces only if the
    delete went through: then the new point is the one point carrying
    the [qa_id], behind the points of other pairs.  The result of the
    delete is not looked at: if the scroll or the delete was refused,
    every old point is still there and the new one is added to those
    carrying the [qa_id]. *)
Theorem update_replaces_if_delete_succeeds (env : Env) (qa_id : QaId)
    (question : pystr) (embedding : list Component) (vector : list Q)
    (metadata : option dict) (w : World) :
  qdrant_client env = true -> qdrant_alive env = true ->
  qdrant_upsert_ok env = true ->
  point_ids_distinct (w_index w) -> uuids_fresh w ->
  (List.length (points_with_qa_id qa_id (w_index w)) <= 100)%nat ->
  floats_of embedding = Some vector ->
  List.length vector = embedding_dimension ->
  dict_get (match metadata with Some m => m | None => [] end) "qa_id" = None ->
  let update := update_qa_embedding env qa_id question embedding metadata in
  let new_point :=
    mkPoint (w_uuid w) vector (store_payload qa_id question metadata) in
  outcome update w = Return true /\
  if qdrant_scroll_ok env &&
     (qdrant_delete_ok env ||
      Nat.eqb (List.length (points_with_qa_id qa_id (w_index w))) 0)
  then w_index (world_after update w)
       = filter (fun p => negb (has_qa_id qa_id p)) (w_index w) ++ [new_point] /\
       points_with_qa_id qa_id (w_index (world_after update w)) = [new_point]
  else w_index (world_after update w) = w_index w ++ [new_point] /\
       points_with_qa_id qa_id (w_index (world_after update w))
       = points_with_qa_id qa_id (w_index w) ++ [new_point].
Proof.
  intros Hc Ha Hu Hn Hf Hle Hv Hlen Hm.
  assert (Hfit : fits vector = true) by (apply Nat.eqb_eq; exact Hlen).
  destruct (delete_qa_embedding_run env qa_id w Hc Ha Hn Hle)
    as (w1 & E1 & Hi1 & Hd1 & Hu1).
  destruct (store_qa_embedding_run env qa_id question embedding vector
              metadata w1 Hc Ha Hu Hv Hfit) as (w2 & E2 & Hi2 & Hd2).
  { intros p Hp. rewrite Hu1.
    assert (Hin : In p (w_index w)).
    { rewrite Hi1 in Hp. destruct (_ && _); [|exact Hp].
      apply filter_In in Hp. tauto. }
    specialize (Hf p Hin). lia. }
  assert (Hnew : has_qa_id qa_id
                   (mkPoint (w_uuid w) vector
                      (store_payload qa_id question metadata)) = true).
  { unfold has_qa_id. simpl. rewrite (store_payload_qa_id _ _ _ Hm).
    apply PyAtom_eqb_refl. }
  unfold update_qa_embedding, outcome, world_after, bind.
  rewrite E1, E2. cbn [fst snd]. split; [reflexivity|].
  rewrite Hi2, Hi1, Hu1.
  destruct (qdrant_scroll_ok env &&
            (qdrant_delete_ok env ||
             Nat.eqb (List.length (points_with_qa_id qa_id (w_index w))) 0))
    eqn:Ed.
  - split; [reflexivity|].
    unfold points_with_qa_id. rewrite filter_app, filter_negb_none. simpl.
    now rewrite Hnew.
  - split; [reflexivity|].
    unfold points_with_qa_id. rewrite filter_app. simpl. now rewrite Hnew.
Qed.

Lemma three_points_fresh : uuids_fresh Cases.w_three_points.
Proof.
  intros p Hp. simpl in Hp.
  destruct Hp as [<-|[<-|[<-|[]]]]; simpl; lia.
Qed.

(** With the delete going through the two old points of the pair give
    way to the new one; with the delete refused they stay beside it. *)
Lemma update_replaces_if_delete_succeeds_witness :
  map point_id
    (w_index (world_after
                (update_qa_embedding Scenario.env_ok Scenario.id_old
                   Scenario.capital_q Scenario.v_query None)
                Cases.w_three_points)) = [2%N; 4%N] /\
  map point_id
    (points_with_qa_id Scenario.id_old
       (w_index (world_after
                   (update_qa_embedding Cases.env_delete_fails Scenario.id_old
                      Scenario.capital_q Scenario.v_query None)
                   Cases.w_three_points))) = [1%N; 3%N; 4%N].
Proof.
  assert (Hle : (List.length (points_with_qa_id Scenario.id_old
                                (w_index Cases.w_three_points)) <= 100)%nat).
  { unfold points_with_qa_id.
    etransitivity; [apply filter_length_le|]. simpl. lia. }
  assert (Hv : floats_of Scenario.v_query = Some Scenario.unit_query)
    by apply floats_of_floats.
  assert (Hlen : List.length Scenario.unit_query = embedding_dimension).
  { vm_compute. reflexivity. }
  pose proof (update_replaces_if_delete_succeeds Scenario.env_ok
                Scenario.id_old Scenario.capital_q Scenario.v_query
                Scenario.unit_query None Cases.w_three_points
                eq_refl eq_refl eq_refl three_points_distinct
                three_points_fresh Hle Hv Hlen eq_refl) as [_ H1].
  pose proof (update_replaces_if_delete_succeeds Cases.env_delete_fails
                Scenario.id_old Scenario.capital_q Scenario.v_query
                Scenario.unit_query None Cases.w_three_points
                eq_refl eq_refl eq_refl three_points_distinct
                three_points_fresh Hle Hv Hlen eq_refl) as [_ H2].
  split.
  - change (qdrant_scroll_ok Scenario.env_ok &&
            (qdrant_delete_ok Scenario.env_ok ||
             Nat.eqb (List.length (points_with_qa_id Scenario.id_old
                                     (w_index Cases.w_three_points))) 0))
      with true in H1.
    destruct H1 as [H1 _]. rewrite H1. vm_compute. reflexivity.
  - assert (Ec : qdrant_scroll_ok Cases.env_delete_fails &&
                 (qdrant_delete_ok Cases.env_delete_fails ||
                  Nat.eqb (List.length (points_with_qa_id Scenario.id_old
                                          (w_index Cases.w_three_points))) 0)
                 = false) by (vm_compute; reflexivity).
    rewrite Ec in H2. destruct H2 as [_ H2]. rewrite H2.
    vm_compute. reflexivity.
Defined.

Lemma upsert_points_fresh (ps : list Point) :
  forall ix,
    NoDup (map point_id ps) ->
    (forall p q, In p ps -> In q ix -> point_id q <> point_id p) ->
    upsert_points ix ps = ix ++ ps.
Proof.
  unfold upsert_points.
  induction ps as [|p ps IH]; intros ix Hn Hf; simpl.
  - now rewrite app_nil_r.
  - inversion Hn as [|i l Hnotin Hn']; subst.
    rewrite upsert_point_fresh by (intros q Hq; apply Hf; simpl; auto).
    rewrite IH; [now rewrite <- app_assoc|exact Hn'|].
    intros p' q Hp' Hq. apply in_app_or in Hq. destruct Hq as [Hq|[<-|[]]].
    + apply Hf; simpl; auto.
    + intros Heq. apply Hnotin. rewrite Heq. now apply in_map.
Qed.

(** The points of a batch whose elements all hold lists of floats carry
    those vectors under consecutive new identifiers; with one element
    that holds something else no list of points is made. *)
Lemma batch_points_run (qa_data : list BatchItem) :
  forall w,
    match batch_vectors qa_data with
    | Some vs =>
        exists ps w1,
          batch_points qa_data w = (Return ps, w1) /\
          map point_vector ps = vs /\
          NoDup (map point_id ps) /\
          (forall p, In p ps -> (w_uuid w <= point_id p < w_uuid w1)%N) /\
          (w_uuid w <= w_uuid w1)%N /\
          w_index w1 = w_index w /\ w_db w1 = w_db w /\ w_trace w1 = w_trace w
    | None =>
        exists ex w1,
          batch_points qa_data w = (Raise ex, w1) /\
          w_index w1 = w_index w /\ w_db w1 = w_db w /\ w_trace w1 = w_trace w
    end.
Proof.
  induction qa_data as [|d rest IH]; intros w.
  - simpl. exists [], w. unfold ret.
    split; [reflexivity|]. split; [reflexivity|]. split; [constructor|].
    split; [intros p []|]. split; [lia|]. auto.
  - cbn [batch_vectors fold_right batch_points].
    fold (batch_vectors rest).
    unfold bind, uuid4, ret, as_vector.
    destruct (floats_of (b_embedding d)) as [v|]; cbn [fst snd];
      [|unfold raise; eexists _, _; split; [reflexivity|]; simpl; auto].
    specialize (IH (set_uuid w (N.succ (w_uuid w)))).
    destruct (batch_vectors rest) as [vs|].
    + destruct IH as (ps & w1 & E & Hv & Hn & Hr & Hle & Hi & Hd & Ht).
      simpl in Hr, Hle, Hi, Hd, Ht.
      unfold ret. cbv beta iota.
      eexists. exists w1. rewrite E.
      split; [reflexivity|]. simpl.
      split; [now rewrite Hv|].
      split.
      { constructor; [|exact Hn].
        intros Hin. apply in_map_iff in Hin. destruct Hin as (p & Hp & Hin).
        specialize (Hr p Hin). lia. }
      split.
      { intros p [<-|Hp]; simpl; [lia|]. specialize (Hr p Hp). lia. }
      split; [lia|]. auto.
    + destruct IH as (ex & w1 & E & Hi & Hd & Ht).
      simpl in Hi, Hd, Ht.
      unfold ret. cbv beta iota.
      exists ex, w1. rewrite E. auto.
Qed.

Lemma batch_vectors_length (qa_data : list BatchItem) :
  forall vs, batch_vectors qa_data = Some vs ->
             List.length vs = List.length qa_data.
Proof.
  induction qa_data as [|d rest IH]; simpl; intros vs H.
  - now injection H as <-.
  - fold (batch_vectors rest) in H.
    destruct (floats_of (b_embedding d)); [|discriminate].
    destruct (batch_vectors rest) as [vs'|]; [|discriminate].
    injection H as <-. simpl. f_equal. now apply IH.
Qed.

Lemma forallb_fits_map (ps : list Point) :
  forallb (fun p => fits (point_vector p)) ps
  = forallb fits (map point_vector ps).
Proof.
  induction ps as [|p ps IH]; simpl; [reflexivity|]. now rewrite IH.
Qed.

Lemma batch_store_run (env : Env) (qa_data : list BatchItem) (w : World) :
  uuids_fresh w ->
  exists n w',
    batch_store_embeddings env qa_data w = (Return n, w') /\
    match batch_vectors qa_data with
    | Some vs =>
        if qdrant_client env && qdrant_alive env && qdrant_upsert_ok env &&
           forallb fits vs
        then n = List.length qa_data /\
             exists ps, w_index w' = w_index w ++ ps /\
                        map point_vector ps = vs
        else n = 0%nat /\ w_index w' = w_index w
    | None => n = 0%nat /\ w_index w' = w_index w
    end.
Proof.
  intros Hf.
  unfold batch_store_embeddings, usable, is_connected, client_upsert.
  destruct (qdrant_client env);
    [|run; eexists _, _; split; [reflexivity|];
      destruct (batch_vectors qa_data); simpl; auto].
  unfold bind at 1. unfold bind at 1. unfold emit, ret. simpl.
  destruct (qdrant_alive env); simpl;
    [|eexists _, _; split; [reflexivity|];
      destruct (batch_vectors qa_data); simpl; auto].
  pose proof (batch_points_run qa_data (add_event w EvQdrantGetCollections))
    as H.
  destruct (batch_vectors qa_data) as [vs|] eqn:Eb.
  - destruct H as (ps & w1 & E & Hv & Hn & Hr & Hle & Hi & Hd & Ht).
    simpl in Hr, Hle, Hi.
    unfold try_except, bind. rewrite E.
    rewrite forallb_fits_map, Hv.
    destruct (qdrant_upsert_ok env); simpl;
      [destruct (forallb fits vs); simpl|].
    + eexists. eexists. split; [reflexivity|]. simpl. split.
      * rewrite <- (length_map point_vector), Hv.
        apply (batch_vectors_length _ _ Eb).
      * exists ps. split; [|exact Hv].
        rewrite Hi. apply upsert_points_fresh; [exact Hn|].
        intros p q Hp Hq. specialize (Hr p Hp). specialize (Hf q Hq). lia.
    + eexists. eexists. split; [reflexivity|]. simpl. auto.
    + eexists. eexists. split; [reflexivity|]. simpl. auto.
  - destruct H as (ex & w1 & E & Hi & Hd & Ht). simpl in Hi.
    unfold try_except, bind. rewrite E.
    eexists. eexists. split; [reflexivity|]. simpl. auto.
Qed.

(** X9.  The batch store is all or nothing.  With unused [uuid4]
    values: if every element holds a list of 768 floats, Qdrant is up
    and the upsert goes through, the call returns the number of items
    and appends one point per item, with the items' vectors in order;
    otherwise it returns 0 and the index is as it was.  It never
    raises. *)
Theorem batch_store_all_or_nothing (env : Env) (qa_data : list BatchItem)
    (w : World) :
  uuids_fresh w ->
  let w' := world_after (batch_store_embeddings env qa_data) w in
  match batch_vectors qa_data with
  | Some vs =>
      if qdrant_client env && qdrant_alive env && qdrant_upsert_ok env &&
         forallb fits vs
      then outcome (batch_store_embeddings env qa_data) w
           = Return (List.length qa_data) /\
           exists ps, w_index w' = w_index w ++ ps /\
                      map point_vector ps = vs
      else outcome (batch_store_embeddings env qa_data) w = Return 0%nat /\
           w_index w' = w_index w
  | None =>
      outcome (batch_store_embeddings env qa_data) w = Return 0%nat /\
      w_index w' = w_index w
  end.
Proof.
  intros Hf. destruct (batch_store_run env qa_data w Hf) as (n & w' & E & H).
  unfold outcome, world_after. rewrite E. simpl.
  destruct (batch_vectors qa_data) as [vs|].
  - destruct (qdrant_client env && qdrant_alive env && qdrant_upsert_ok env &&
              forallb fits vs);
      destruct H as [-> H]; auto.
  - destruct H as [-> H]; auto.
Qed.

(** Two elements of 768 floats are stored; with an element that holds
    the nested list of the embedding service none is. *)
Lemma batch_store_all_or_nothing_witness :
  outcome (batch_store_embeddings Scenario.env_ok
             [mkBatchItem Cases.id_other (lit "Where is Homs?") Scenario.v_far [];
              mkBatchItem Scenario.id_old (lit "Where is Aleppo?") Scenario.v_query []])
    Cases.w_three_points = Return 2%nat /\
  outcome (batch_store_embeddings Scenario.env_ok
             [mkBatchItem Cases.id_other (lit "Where is Homs?") Scenario.v_far [];
              mkBatchItem Scenario.id_old (lit "Where is Aleppo?")
                (CVec Scenario.unit_query :: repeat (CNum 0) 767) []])
    Cases.w_three_points = Return 0%nat.
Proof.
  pose proof (batch_store_all_or_nothing Scenario.env_ok
                [mkBatchItem Cases.id_other (lit "Where is Homs?")
                   Scenario.v_far [];
                 mkBatchItem Scenario.id_old (lit "Where is Aleppo?")
                   Scenario.v_query []]
                Cases.w_three_points three_points_fresh) as H1.
  pose proof (batch_store_all_or_nothing Scenario.env_ok
                [mkBatchItem Cases.id_other (lit "Where is Homs?")
                   Scenario.v_far [];
                 mkBatchItem Scenario.id_old (lit "Where is Aleppo?")
                   (CVec Scenario.unit_query :: repeat (CNum 0) 767) []]
                Cases.w_three_points three_points_fresh) as H2.
  split.
  - assert (Eb : batch_vectors
                   [mkBatchItem Cases.id_other (lit "Where is Homs?")
                      Scenario.v_far [];
                    mkBatchItem Scenario.id_old (lit "Where is Aleppo?")
                      Scenario.v_query []]
                 = Some [Scenario.unit_far; Scenario.unit_query]).
    { vm_compute. reflexivity. }
    rewrite Eb in H1.
    assert (Ec : qdrant_client Scenario.env_ok && qdrant_alive Scenario.env_ok &&
                 qdrant_upsert_ok Scenario.env_ok &&
                 forallb fits [Scenario.unit_far; Scenario.unit_query] = true)
      by (vm_compute; reflexivity).
    rewrite Ec in H1. exact (proj1 H1).
  - assert (Eb : batch_vectors
                   [mkBatchItem Cases.id_other (lit "Where is Homs?")
                      Scenario.v_far [];
                    mkBatchItem Scenario.id_old (lit "Where is Aleppo?")
                      (CVec Scenario.unit_query :: repeat (CNum 0) 767) []]
                 = None).
    { vm_compute. reflexivity. }
    rewrite Eb in H2. exact (proj1 H2).
Defined.

End VectorIndexOperations.

(* ================================================================== *)
(** * Further properties of the canonical store *)
(* ================================================================== *)

Section CanonicalStore.

Import QAPairRepository.

(** X10.  Create, then look up by [qa_id].  If the commit succeeds,
    [create_qa_pair] appends the row, with the metadata it was given; if
    the commit fails it rolls back, raises, and the store is as it was.
    The lookup by [qa_id] never finds a row: its query is refused and
    [get_qa_pair_by_question_id] answers [None] in every world, also
    right after the creation of a row whose metadata carries that
    [qa_id]. *)
Theorem created_row_not_found_by_qa_id (env : Env) (question answer : pystr)
    (user_id : option N) (confidence : Q) (source language : pystr)
    (metadata : dict) (i : QaId) (w : World) :
  dict_get metadata "qa_id" = Some (VAtom (AId i)) ->
  let create := create_qa_pair env question answer user_id confidence source
                  language metadata in
  let new_row := mkQAPair (w_uuid w) question answer user_id confidence source
                   language metadata in
  (forall question_id w0,
      get_qa_pair_by_question_id env question_id w0
      = (Return None, add_event w0 EvDbQuery)) /\
  if db_commit_ok env
  then outcome create w = Return new_row /\
       w_db (world_after create w) = w_db w ++ [new_row] /\
       row_carries_qa_id (AId i) new_row = true /\
       outcome (get_qa_pair_by_question_id env (AId i)) (world_after create w)
       = Return None
  else outcome create w = Raise (StorageError "commit") /\
       w_db (world_after create w) = w_db w.
Proof.
  intros Hm. cbv zeta. split; [reflexivity|].
  unfold create_qa_pair. run.
  destruct (db_commit_ok env); simpl; [|auto].
  repeat split.
  unfold row_carries_qa_id. simpl. rewrite Hm. apply PyAtom_eqb_refl.
Qed.

Lemma created_row_not_found_by_qa_id_witness :
  w_db (world_after
          (create_qa_pair Scenario.env_ok (lit "Where is Homs?")
             (lit "In the west.") None (8 # 10)%Q (lit "gemini_api") (lit "en")
             [("qa_id", VAtom (AId Cases.id_other))])
          Scenario.w_near)
  = [Scenario.row_old;
     mkQAPair 1 (lit "Where is Homs?") (lit "In the west.") None
       (8 # 10)%Q (lit "gemini_api") (lit "en")
       [("qa_id", VAtom (AId Cases.id_other))]] /\
  outcome (get_qa_pair_by_question_id Scenario.env_ok (AId Cases.id_other))
    (world_after
       (create_qa_pair Scenario.env_ok (lit "Where is Homs?")
          (lit "In the west.") None (8 # 10)%Q (lit "gemini_api") (lit "en")
          [("qa_id", VAtom (AId Cases.id_other))])
       Scenario.w_near)
  = Return None.
Proof.
  destruct (created_row_not_found_by_qa_id Scenario.env_ok
              (lit "Where is Homs?") (lit "In the west.") None
              (8 # 10)%Q (lit "gemini_api") (lit "en")
              [("qa_id", VAtom (AId Cases.id_other))]
              Cases.id_other Scenario.w_near eq_refl)
    as (_ & _ & H2 & _ & H4).
  split; [exact H2 | exact H4].
Defined.

Lemma find_filter_none (k : N) (db : list QAPair) :
  find (fun row => N.eqb (qa_pk row) k)
       (filter (fun r => negb (N.eqb (qa_pk r) k)) db) = None.
Proof.
  induction db as [|r db IH]; simpl; [reflexivity|].
  destruct (N.eqb (qa_pk r) k) eqn:E; simpl; [exact IH|].
  now rewrite E.
Qed.

Lemma find_pk_eq (k : N) (db : list QAPair) (row : QAPair) :
  find (fun r => N.eqb (qa_pk r) k) db = Some row -> qa_pk row = k.
Proof.
  intros H. apply find_some in H. destruct H as [_ H]. now apply N.eqb_eq.
Qed.

(** X11.  Deleting by primary key.  With PostgreSQL answering:
    deleting a key that has a row returns [True], removes the rows under
    that key and no other, and a following [get_qa_pair_by_id] finds
    nothing; deleting a key that has no row returns [False] and changes
    nothing, without a commit. *)
Theorem delete_then_lookup (env : Env) (qa_id : N) (w : World) :
  db_query_ok env = true -> db_commit_ok env = true ->
  let w' := world_after (delete_qa_pair env qa_id) w in
  match find (fun row => N.eqb (qa_pk row) qa_id) (w_db w) with
  | Some _ =>
      outcome (delete_qa_pair env qa_id) w = Return true /\
      w_db w' = filter (fun r => negb (N.eqb (qa_pk r) qa_id)) (w_db w) /\
      outcome (get_qa_pair_by_id env qa_id) w' = Return None
  | None =>
      outcome (delete_qa_pair env qa_id) w = Return false /\
      w_db w' = w_db w /\ w_trace w' = w_trace w ++ [EvDbQuery]
  end.
Proof.
  intros Hq Hc.
  unfold delete_qa_pair, get_qa_pair_by_id. run. rewrite Hq. simpl.
  destruct (find _ (w_db w)) as [row|] eqn:Ef; simpl.
  - rewrite Hc. simpl. rewrite (find_pk_eq _ _ _ Ef).
    repeat split. now rewrite find_filter_none.
  - auto.
Qed.

Lemma delete_then_lookup_witness :
  outcome (delete_qa_pair Scenario.env_ok 0) Scenario.w_near = Return true /\
  w_db (world_after (delete_qa_pair Scenario.env_ok 0) Scenario.w_near) = [].
Proof.
  destruct (delete_then_lookup Scenario.env_ok 0 Scenario.w_near eq_refl eq_refl)
    as (H1 & H2 & _).
  split; [exact H1 | exact H2].
Defined.

End CanonicalStore.

(* ================================================================== *)
(** * Further properties of normalization *)
(* ================================================================== *)

Section Normalization.

Import IntelligentQAService.

Lemma lstrip_cases (s : pystr) :
  lstrip s = [] \/ exists c t, lstrip s = c :: t /\ is_space c = false.
Proof.
  induction s as [|c s IH]; simpl; [now left|].
  destruct (is_space c) eqn:E; [exact IH|]. right. eauto.
Qed.

Lemma lstrip_snoc (l : pystr) (c : N) :
  is_space c = false -> lstrip (l ++ [c]) = lstrip l ++ [c].
Proof.
  intros Hc. induction l as [|a l IH]; simpl.
  - now rewrite Hc.
  - destruct (is_space a); [exact IH|reflexivity].
Qed.

Lemma rstrip_cons (c : N) (t : pystr) :
  is_space c = false -> rstrip (c :: t) = c :: rstrip t.
Proof.
  intros Hc. unfold rstrip. simpl.
  rewrite lstrip_snoc by exact Hc.
  rewrite rev_app_distr. reflexivity.
Qed.

Lemma rstrip_snoc (l : pystr) (c : N) :
  is_space c = false -> rstrip (l ++ [c]) = l ++ [c].
Proof.
  intros Hc. unfold rstrip. rewrite rev_app_distr. simpl. rewrite Hc.
  simpl. now rewrite rev_involutive.
Qed.

Lemma rstrip_cases (s : pystr) :
  rstrip s = [] \/ exists l c, rstrip s = l ++ [c] /\ is_space c = false.
Proof.
  unfold rstrip.
  destruct (lstrip_cases (rev s)) as [->|(c & t & -> & Hc)]; [now left|].
  right. exists (rev t), c. simpl. auto.
Qed.

Lemma sub_ws_snoc (c : N) :
  is_space c = false ->
  forall l b, sub_ws b (l ++ [c]) = sub_ws b l ++ [c].
Proof.
  intros Hc. induction l as [|a l IH]; intros b; simpl.
  - now rewrite Hc.
  - destruct (is_space a); [destruct b|]; simpl; now rewrite IH.
Qed.

(** Collapsing white space twice is collapsing it once. *)
Lemma sub_ws_twice (s : pystr) :
  (forall b, sub_ws false (sub_ws b s) = sub_ws b s) /\
  sub_ws true (sub_ws true s) = sub_ws true s.
Proof.
  induction s as [|c s [IH1 IH2]]; [split; [intros b|]; reflexivity|].
  split.
  - intros b. simpl. destruct (is_space c) eqn:E.
    + destruct b; [apply IH1|]. simpl. now rewrite IH2.
    + simpl. rewrite E. now rewrite IH1.
  - simpl. destruct (is_space c) eqn:E; [exact IH2|].
    simpl. rewrite E. now rewrite IH1.
Qed.

(** The text before the punctuation step: trimmed on both sides and
    collapsed, it is left as it is by trimming and collapsing. *)
Lemma normalized_core_fixed (question : pystr) :
  let n := sub_ws false (strip question) in
  lstrip n = n /\ rstrip n = n /\ sub_ws false n = n.
Proof.
  unfold strip. split; [|split].
  - destruct (lstrip_cases question) as [->|(c & t & -> & Hc)]; [reflexivity|].
    rewrite rstrip_cons by exact Hc. simpl. rewrite Hc. simpl. now rewrite Hc.
  - destruct (rstrip_cases (lstrip question)) as [->|(l & c & -> & Hc)];
      [reflexivity|].
    rewrite sub_ws_snoc by exact Hc. apply rstrip_snoc, Hc.
  - apply sub_ws_twice.
Qed.

(** X12.  Normalization ends every question with ['?'], ['؟'] or ['.'],
    and normalizing a normalized question changes nothing. *)
Theorem normalize_terminated_and_idempotent (question : pystr) :
  endswith_any (_normalize_question question)
    [question_mark; arabic_question_mark; full_stop] = true /\
  _normalize_question (_normalize_question question)
  = _normalize_question question.
Proof.
  destruct (normalized_core_fixed question) as (Hl & Hr & Hs).
  unfold _normalize_question at 1 3 4.
  set (n := sub_ws false (strip question)) in *.
  destruct (endswith_any n _) eqn:E.
  - split; [exact E|].
    unfold _normalize_question, strip. now rewrite Hl, Hr, Hs, E.
  - set (m := if existsb (contains n) arabic_letters
              then arabic_question_mark else question_mark).
    assert (Hm : is_space m = false) by (unfold m; destruct (existsb _ _); reflexivity).
    assert (He : endswith_any (n ++ [m])
                   [question_mark; arabic_question_mark; full_stop] = true).
    { unfold endswith_any. rewrite rev_app_distr. simpl.
      unfold m. destruct (existsb _ _); reflexivity. }
    split; [exact He|].
    unfold _normalize_question, strip.
    rewrite lstrip_snoc, Hl by exact Hm.
    rewrite rstrip_snoc by exact Hm.
    rewrite sub_ws_snoc, Hs by exact Hm.
    now rewrite He.
Qed.

End Normalization.

(* ================================================================== *)
(** * The rule-based question variants *)
(* ================================================================== *)

Section RuleBasedVariants.

Import EmbeddingService.

Lemma slice_to_prefix {A} (n : Z) (l : list A) :
  exists k, slice_to n l = firstn k l /\
            ((0 <= n)%Z -> k = Z.to_nat n).
Proof.
  unfold slice_to. destruct (0 <=? n)%Z eqn:E.
  - eexists. split; [reflexivity|auto].
  - eexists. split; [reflexivity|]. intros H. apply Z.leb_gt in E. lia.
Qed.

Lemma nodup_firstn {A} (k : nat) (l : list A) : NoDup l -> NoDup (firstn k l).
Proof.
  intros H. rewrite <- (firstn_skipn k l) in H.
  now apply NoDup_app_remove_r in H.
Qed.

Lemma unique_variants_spec (variants : list pystr) :
  forall seen,
    NoDup (unique_variants seen variants) /\
    forall v, In v (unique_variants seen variants) ->
              In v variants /\ ~ In v seen.
Proof.
  induction variants as [|x vs IH]; intros seen; simpl.
  - split; [constructor|intros v []].
  - destruct (existsb (PyStr.eqb x) seen) eqn:E.
    + destruct (IH seen) as [Hn Hin]. split; [exact Hn|].
      intros v Hv. destruct (Hin v Hv). auto.
    + destruct (IH (x :: seen)) as [Hn Hin]. split.
      * constructor; [|exact Hn]. intros Hx.
        destruct (Hin x Hx) as [_ Hns]. apply Hns. now left.
      * intros v [<-|Hv].
        -- split; [now left|]. intros Hs.
           assert (existsb (PyStr.eqb x) seen = true).
           { apply existsb_exists. exists x. split; [exact Hs|].
             now apply pystr_eqb_eq. }
           congruence.
        -- destruct (Hin v Hv) as [Hv1 Hv2]. split; [now right|].
           intros Hs. apply Hv2. now right.
Qed.

Lemma variants_for_prefix_shape (alts : list pystr) (q prefix v : pystr) :
  In v (variants_for_prefix alts q prefix) ->
  exists p, (p = prefix \/ In p alts) /\ v = prefixed p q.
Proof.
  unfold variants_for_prefix.
  destruct (negb (startswith q prefix)).
  - intros [<-|[]]. eauto.
  - destruct (find _ alts) as [alt|] eqn:Ef; [|intros []].
    intros [<-|[]]. apply find_some in Ef. destruct Ef as [Ha _]. eauto.
Qed.

Lemma in_firstn_list {A} (k : nat) (l : list A) (x : A) :
  In x (firstn k l) -> In x l.
Proof.
  intros H. rewrite <- (firstn_skipn k l). apply in_or_app. now left.
Qed.

(** X13.  The rule-based variants of a question are pairwise different,
    each of them is the question behind one of the sixteen fixed
    prefixes and a space (so none is the question itself), and for a
    non-negative [num_variants] there are at most that many. *)
Theorem rule_based_variants (original_question : pystr) (num_variants : Z) :
  let variants := generate_question_variants original_question num_variants in
  NoDup variants /\
  (forall v, In v variants ->
     exists prefix, In prefix (arabic_prefixes ++ english_prefixes) /\
       v = prefix ++ [32%N] ++ original_question /\
       v <> original_question) /\
  ((0 <= num_variants)%Z ->
   (List.length variants <= Z.to_nat num_variants)%nat).
Proof.
  unfold generate_question_variants.
  set (cands := if existsb _ _ then _ else _).
  destruct (slice_to_prefix num_variants (unique_variants [] cands))
    as (k & -> & Hk).
  destruct (unique_variants_spec cands []) as [Hn Hin].
  split; [now apply nodup_firstn|]. split.
  - intros v Hv. apply in_firstn_list in Hv. destruct (Hin v Hv) as [Hc _].
    assert (Hp : exists p, In p (arabic_prefixes ++ english_prefixes) /\
                           v = prefixed p original_question).
    { unfold cands in Hc.
      destruct (existsb _ _); apply in_flat_map in Hc;
        destruct Hc as (prefix & Hpre & Hv');
        destruct (slice_to_prefix num_variants arabic_prefixes) as (ka & Ea & _);
        destruct (slice_to_prefix num_variants english_prefixes) as (ke & Ee & _);
        rewrite ?Ea, ?Ee in Hpre; apply in_firstn_list in Hpre;
        destruct (variants_for_prefix_shape _ _ _ _ Hv') as (p & Hor & ->);
        exists p; (split; [|reflexivity]); apply in_or_app;
        destruct Hor as [->|Ha].
      - now left.
      - left. now apply (in_firstn_list 3).
      - now right.
      - right. now apply (in_firstn_list 3). }
    destruct Hp as (p & Hp & ->). exists p. split; [exact Hp|].
    split; [reflexivity|].
    unfold prefixed. intros Heq.
    apply (f_equal (@List.length N)) in Heq.
    rewrite !length_app in Heq. simpl in Heq. lia.
  - intros H0. rewrite (Hk H0), length_firstn. lia.
Qed.

Lemma rule_based_variants_witness :
  generate_question_variants (lit "What is Syria") 3
  = [lit "Tell me about What is Syria"; lit "Explain What is Syria"] /\
  (List.length (generate_question_variants (lit "What is Syria") 3) <= 3)%nat.
Proof.
  split; [vm_compute; reflexivity|].
  refine (proj2 (proj2 (rule_based_variants (lit "What is Syria") 3)) _).
  lia.
Defined.

End RuleBasedVariants.

(* ================================================================== *)
(** * The quota check and the confidence of a generated answer *)
(* ================================================================== *)

Section GeminiSide.

Import IntelligentQAService.

(** X14. [check_gemini_quota] never reports "available",
    "quota_exceeded" or "unauthorized": whatever the provider would do,
    the probe call stops at the undefined name [log_function_entry], the
    text of that error holds none of "429", "401" and "403", so the
    status is "error" with that text, the provider is not called and
    nothing is changed. *)
Theorem quota_check_always_error (lower : pystr -> pystr) (env : Env)
    (w : World) :
  check_gemini_quota lower env w
  = (Return (mkQuotaReport "error"
               (Some (lit "name 'log_function_entry' is not defined"))), w).
Proof.
  unfold check_gemini_quota, try_except, bind.
  rewrite answer_question_raises.
  reflexivity.
Qed.

Lemma filter_length_bound {A : Type} (f : A -> bool) (l : list A) :
  (List.length (filter f l) <= List.length l)%nat.
Proof.
  induction l as [|a l IH]; simpl; [lia|]. destruct (f a); simpl; lia.
Qed.

Lemma relevance_bounds (overlap n : nat) :
  (0 < n)%nat -> (overlap <= n)%nat ->
  (0 <= Z.of_nat overlap # Pos.of_nat n)%Q /\
  (Z.of_nat overlap # Pos.of_nat n <= 1)%Q.
Proof.
  intros Hn Ho. unfold Qle. simpl.
  assert (Hp : Z.pos (Pos.of_nat n) = Z.of_nat n).
  { rewrite <- (Nat2Pos.id n) at 2 by lia. now rewrite positive_nat_Z. }
  rewrite Hp. lia.
Qed.

(** X15. The confidence [_calculate_confidence] gives an answer lies
    between 0.7 and 1.0 for every answer and question: the length of
    the answer moves the base 0.8 by at most 0.1, the share of the
    question's words found in the answer adds between 0 and 0.1, and
    the result is capped at 1.0; the lower cap at 0.0 is never
    reached. *)
Theorem confidence_between_07_and_1 (lower : pystr -> pystr)
    (answer question : pystr) :
  (7 # 10 <= GeminiService._calculate_confidence lower answer question)%Q /\
  (GeminiService._calculate_confidence lower answer question <= 1)%Q.
Proof.
  unfold GeminiService._calculate_confidence.
  set (qw := GeminiService.word_set lower question).
  set (aw := GeminiService.word_set lower answer).
  set (by_length :=
         if Nat.ltb 100 (List.length answer) then ((8 # 10) + (1 # 10))%Q
         else if Nat.ltb (List.length answer) 50 then ((8 # 10) - (1 # 10))%Q
         else (8 # 10)%Q).
  assert (Hb : (7 # 10 <= by_length)%Q /\ (by_length <= 9 # 10)%Q).
  { unfold by_length.
    destruct (Nat.ltb 100 (List.length answer));
      [|destruct (Nat.ltb (List.length answer) 50)];
      split; unfold Qle; simpl; lia. }
  set (confidence :=
         match qw, aw with
         | _ :: _, _ :: _ =>
             (by_length +
              (Z.of_nat
                 (List.length
                    (filter (fun w => existsb (PyStr.eqb w) aw) qw))
               # Pos.of_nat (List.length qw)) * (1 # 10))%Q
         | _, _ => by_length
         end).
  assert (Hc : (7 # 10 <= confidence)%Q).
  { unfold confidence. destruct qw as [|q qw']; [tauto|].
    destruct aw as [|a aw']; [tauto|].
    destruct (relevance_bounds
                (List.length
                   (filter (fun w => existsb (PyStr.eqb w) (a :: aw'))
                           (q :: qw')))
                (List.length (q :: qw'))) as [H0 _].
    - simpl. lia.
    - apply filter_length_bound.
    - destruct Hb as [Hb _]. Lqa.lra. }
  change ((7 # 10 <=
           (let capped := if Qle_bool 1 confidence then 1%Q else confidence in
            if Qle_bool capped 0 then 0%Q else capped))%Q /\
          ((let capped := if Qle_bool 1 confidence then 1%Q else confidence in
            if Qle_bool capped 0 then 0%Q else capped) <= 1)%Q).
  cbv zeta.
  destruct (Qle_bool 1 confidence) eqn:E1.
  - simpl. split; unfold Qle; simpl; lia.
  - destruct (Qle_bool confidence 0) eqn:E0.
    + apply Qle_bool_iff in E0. Lqa.lra.
    + split; [exact Hc|].
      destruct (Qlt_le_dec confidence 1) as [Hlt|Hge].
      * now apply Qlt_le_weak.
      * apply Qle_bool_iff in Hge. congruence.
Qed.

End GeminiSide.

(* ================================================================== *)
(** * Fetching a page *)
(* ================================================================== *)

Section FetchPage.

Import WebScrapingService.

Lemma requests_app (a b : list FetchStep) :
  requests (a ++ b) = (requests a + requests b)%nat.
Proof. unfold requests. now rewrite filter_app, length_app. Qed.

Lemma sleeps_app (a b : list FetchStep) : sleeps (a ++ b) = sleeps a ++ sleeps b.
Proof. unfold sleeps. apply flat_map_app. Qed.

Lemma fetch_attempts_requests (m : Z) (reply : nat -> PageReply) (todo : nat) :
  forall a, (requests (snd (fetch_attempts m reply todo a)) <= todo)%nat.
Proof.
  induction todo as [|todo IH]; intros a; simpl; [unfold requests; simpl; lia|].
  destruct (reply a); simpl; try (unfold requests; simpl; lia).
  - change (requests (StRateLimit :: StRequest :: ?l))
      with (S (requests l)).
    rewrite requests_app. specialize (IH (S a)).
    destruct (Z.ltb (Z.of_nat a) (m - 1)); unfold requests at 1; simpl; lia.
  - change (requests (StRateLimit :: StRequest :: ?l))
      with (S (requests l)).
    rewrite requests_app. specialize (IH (S a)).
    destruct (Z.ltb (Z.of_nat a) (m - 1)); unfold requests at 1; simpl; lia.
Qed.

(** One attempt that meets a passing failure, with more to come or not. *)
Lemma fetch_attempts_step (m : Z) (reply : nat -> PageReply) (todo a : nat) :
  transient (reply a) = true -> Z.of_nat (a + S todo) = m ->
  let rest := fetch_attempts m reply todo (S a) in
  fst (fetch_attempts m reply (S todo) a) = fst rest /\
  requests (snd (fetch_attempts m reply (S todo) a)) = S (requests (snd rest)) /\
  sleeps (snd (fetch_attempts m reply (S todo) a))
  = (match todo with O => [] | S _ => [(2 ^ Z.of_nat a)%Z] end) ++ sleeps (snd rest).
Proof.
  intros Ht Hm. simpl.
  assert (Hb : Z.ltb (Z.of_nat a) (m - 1)
               = match todo with O => false | S _ => true end).
  { destruct todo; [apply Z.ltb_ge|apply Z.ltb_lt]; lia. }
  destruct (reply a); try discriminate; simpl; rewrite Hb;
    (split; [reflexivity|]);
    change (requests (StRateLimit :: StRequest :: ?l)) with (S (requests l));
    change (sleeps (StRateLimit :: StRequest :: ?l)) with (sleeps l);
    rewrite requests_app, sleeps_app; destruct todo; simpl; auto.
Qed.

Lemma fetch_attempts_exhausted (m : Z) (reply : nat -> PageReply) (todo : nat) :
  forall a,
    Z.of_nat (a + todo) = m ->
    (forall j, (a <= j < a + todo)%nat -> transient (reply j) = true) ->
    fst (fetch_attempts m reply todo a) = None /\
    requests (snd (fetch_attempts m reply todo a)) = todo /\
    sleeps (snd (fetch_attempts m reply todo a))
    = map (fun j => (2 ^ Z.of_nat j)%Z) (seq a (todo - 1)).
Proof.
  induction todo as [|todo IH]; intros a Hm Ht; [simpl; auto|].
  destruct (fetch_attempts_step m reply todo a) as (Hf & Hr & Hs);
    [apply Ht; lia|exact Hm|].
  destruct (IH (S a)) as (Hf' & Hr' & Hs'); [lia|intros j Hj; apply Ht; lia|].
  rewrite Hf, Hr, Hs, Hf', Hr', Hs'. split; [reflexivity|]. split; [reflexivity|].
  destruct todo as [|todo]; [reflexivity|].
  simpl. now rewrite Nat.sub_0_r.
Qed.

Lemma fetch_attempts_decided (m : Z) (reply : nat -> PageReply) (k : nat) :
  forall todo a,
    (k < todo)%nat -> Z.of_nat (a + todo) = m ->
    (forall j, (a <= j < a + k)%nat -> transient (reply j) = true) ->
    transient (reply (a + k)) = false ->
    fst (fetch_attempts m reply todo a) = page_of (reply (a + k)) /\
    requests (snd (fetch_attempts m reply todo a)) = S k /\
    sleeps (snd (fetch_attempts m reply todo a))
    = map (fun j => (2 ^ Z.of_nat j)%Z) (seq a k).
Proof.
  induction k as [|k IH]; intros todo a Hk Hm Ht Hd.
  - rewrite Nat.add_0_r in *. destruct todo as [|todo]; [lia|]. simpl.
    destruct (reply a); try discriminate; simpl; auto.
  - destruct todo as [|todo]; [lia|].
    destruct (fetch_attempts_step m reply todo a) as (Hf & Hr & Hs);
      [apply Ht; lia|exact Hm|].
    destruct (IH todo (S a)) as (Hf' & Hr' & Hs');
      [lia|lia|intros j Hj; apply Ht; lia| |].
    + now replace (S a + k)%nat with (a + S k)%nat by lia.
    + rewrite Hf, Hr, Hs, Hf', Hr', Hs'.
      replace (S a + k)%nat with (a + S k)%nat by lia.
      split; [reflexivity|]. split; [reflexivity|].
      destruct todo as [|todo]; [lia|]. reflexivity.
Qed.

(** X16. The retry policy of [_fetch_page].  It makes at most
    [max_retries] requests.  The first attempt that meets status 200 or
    404 ends it: 200 gives the page, 404 gives [None] at once, without
    further attempts.  Every attempt before it met another status or an
    exception and was followed by a sleep of 1, 2, 4, ... seconds.  If
    all [max_retries] attempts fail in that way the result is [None]
    and no sleep follows the last attempt. *)
Theorem fetch_page_retry_policy (max_retries : Z) (reply : nat -> PageReply) :
  let page := fst (_fetch_page max_retries reply) in
  let steps := snd (_fetch_page max_retries reply) in
  (requests steps <= Z.to_nat max_retries)%nat /\
  (forall k, (k < Z.to_nat max_retries)%nat ->
     (forall j, (j < k)%nat -> transient (reply j) = true) ->
     transient (reply k) = false ->
     page = page_of (reply k) /\ requests steps = S k /\
     sleeps steps = map (fun j => (2 ^ Z.of_nat j)%Z) (seq 0 k)) /\
  ((forall j, (j < Z.to_nat max_retries)%nat -> transient (reply j) = true) ->
     page = None /\ requests steps = Z.to_nat max_retries /\
     sleeps steps
     = map (fun j => (2 ^ Z.of_nat j)%Z) (seq 0 (Z.to_nat max_retries - 1))).
Proof.
  unfold _fetch_page. cbv zeta. split; [apply fetch_attempts_requests|]. split.
  - intros k Hk Ht Hd.
    apply (fetch_attempts_decided max_retries reply k (Z.to_nat max_retries) 0);
      [exact Hk|simpl; lia|intros j Hj; apply Ht; lia|exact Hd].
  - intros Ht.
    destruct (Z.to_nat max_retries) as [|n] eqn:En; [simpl; auto|].
    apply (fetch_attempts_exhausted max_retries reply (S n) 0);
      [simpl; lia|intros j Hj; apply Ht; lia].
Qed.

Lemma fetch_page_retry_policy_witness :
  let reply := fun k => match k with
                        | 0%nat => GetRaises
                        | 1%nat => StatusOther 503
                        | _ => Status200 (lit "<html>")
                        end in
  fst (_fetch_page 3 reply) = Some (lit "<html>") /\
  requests (snd (_fetch_page 3 reply)) = 3%nat /\
  sleeps (snd (_fetch_page 3 reply)) = [1; 2]%Z.
Proof.
  intros reply.
  refine (proj1 (proj2 (fetch_page_retry_policy 3 reply)) 2%nat _ _ _).
  - vm_compute. lia.
  - intros [|[|j]] Hj; [reflexivity|reflexivity|lia].
  - reflexivity.
Defined.

End FetchPage.

(* ================================================================== *)
(** * The news update *)
(* ================================================================== *)

Section NewsUpdate.

Import NewsIntegrationService.

Lemma generate_qa_from_article_empty (md5_hex : pystr -> pystr)
    (content_reply : ScrapedArticle -> ContentReply) (article : ScrapedArticle)
    (w : World) :
  _generate_qa_from_article md5_hex content_reply article w = (Return [], w).
Proof. reflexivity. Qed.

Lemma convert_articles_adds_nothing (md5_hex : pystr -> pystr)
    (content_reply : ScrapedArticle -> ContentReply)
    (articles : list ScrapedArticle) :
  forall qa_pairs w,
    _convert_articles_to_qa md5_hex content_reply articles qa_pairs w
    = (Return qa_pairs, w).
Proof.
  induction articles as [|a articles IH]; intros qa_pairs w; [reflexivity|].
  cbn [_convert_articles_to_qa].
  rewrite generate_qa_from_article_empty, app_nil_r. apply IH.
Qed.

(** X17. A news update never reaches the store.  Every article's
    conversion stops at the attribute [generate_content], which the
    Gemini service does not have, so the pairs list stays empty,
    whatever the provider would have answered.  An update that is due
    and scraped at least one article therefore reports the conversion
    error; in every case nothing is written, no provider is called and
    [last_update_time] keeps its value, so the next call is due
    again. *)
Theorem news_update_stores_nothing (env : Env) (md5_hex : pystr -> pystr)
    (content_reply : ScrapedArticle -> ContentReply) (now : Z)
    (force_update : bool) (last_update_time : option Z)
    (scraping_result : ScrapingResult) (w : World) :
  update_news_knowledge env md5_hex content_reply now force_update
    last_update_time scraping_result w
  = (Return
       (if negb force_update && negb (_should_update last_update_time now)
        then UpSkipped last_update_time
        else if negb (String.eqb (scr_status scraping_result) "success")
        then UpScrapingFailed (scr_error scraping_result)
        else match scr_articles scraping_result with
             | [] => UpNoArticles
             | _ :: _ => UpConversionFailed
             end,
        last_update_time),
     w).
Proof.
  unfold update_news_knowledge, try_except.
  destruct (negb force_update && negb (_should_update last_update_time now));
    [reflexivity|].
  destruct (negb (String.eqb (scr_status scraping_result) "success"));
    [reflexivity|].
  destruct (scr_articles scraping_result) as [|a articles]; [reflexivity|].
  unfold bind. rewrite convert_articles_adds_nothing. reflexivity.
Qed.

End NewsUpdate.

(* ================================================================== *)
(** * Embedding in batches *)
(* ================================================================== *)

Section Batches.

Import EmbeddingService.

Lemma embed_item_value (env : Env) (od : option nat) (t : pystr) (w : World) :
  embeds env t = true ->
  embed_item env od t w
  = (Return (embedding_of env od t), add_event w (EvEmbedContent t)).
Proof.
  unfold embeds, embed_item, embedding_of. run.
  destruct (extract (embed_content env t)) as [[|x e]|]; try discriminate.
  reflexivity.
Qed.

Lemma embed_items_values (env : Env) (od : option nat) (ts : list pystr) :
  forall w,
    forallb (embeds env) ts = true ->
    embed_items env od ts w
    = (Return (map (embedding_of env od) ts), after_embedding w ts).
Proof.
  induction ts as [|t ts IH]; intros w H; [reflexivity|].
  simpl in H. apply andb_prop in H. destruct H as [Ht Hts].
  change (embed_items env od (t :: ts) w)
    with (match embed_item env od t w with
          | (Return e, w1) =>
              match embed_items env od ts w1 with
              | (Return es, w2) => (Return (e :: es), w2)
              | (Raise ex, w2) => (Raise ex, w2)
              end
          | (Raise ex, w1) => (Raise ex, w1)
          end).
  rewrite (embed_item_value env od t w Ht), (IH _ Hts). reflexivity.
Qed.

Lemma generate_many_values (env : Env) (od : option nat) (t : pystr)
    (ts : list pystr) (w : World) :
  embed_client env = true -> forallb (embeds env) (t :: ts) = true ->
  generate_embedding env od (ManyTexts (t :: ts)) w
  = (Return (ManyEmbeddings (map (embedding_of env od) (t :: ts))),
     after_embedding w (t :: ts)).
Proof.
  intros Hc H. unfold generate_embedding, try_except. rewrite Hc.
  unfold bind. rewrite (embed_items_values env od (t :: ts) w H). reflexivity.
Qed.

Lemma generate_many_cases (env : Env) (od : option nat) (ts : list pystr)
    (w : World) :
  ts <> [] ->
  match outcome (generate_embedding env od (ManyTexts ts)) w with
  | Return (ManyEmbeddings (_ :: _)) =>
      embed_client env = true /\ forallb (embeds env) ts = true
  | Return _ => False
  | Raise _ => True
  end.
Proof.
  intros Hne. destruct ts as [|t ts]; [congruence|].
  unfold generate_embedding, outcome, try_except.
  destruct (embed_client env); [|exact I].
  pose proof (embed_items_run env od (t :: ts) w) as H.
  unfold outcome, world_after, bind, ret in *.
  destruct (embed_items env od (t :: ts) w) as [[vs|ex] w1]; simpl in *; [|exact I].
  destruct H as (Hl & Hf & _). destruct vs; [discriminate|auto].
Qed.

Lemma forallb_skipn {A : Type} (f : A -> bool) (n : nat) (l : list A) :
  forallb f l = true -> forallb f (skipn n l) = true.
Proof.
  intros H. rewrite <- (firstn_skipn n l), forallb_app in H.
  now apply andb_prop in H.
Qed.

Lemma skipn_split {A : Type} (i b : nat) (l : list A) :
  skipn i l = firstn b (skipn i l) ++ skipn (i + b) l.
Proof.
  rewrite (Nat.add_comm i b), <- skipn_skipn. symmetry. apply firstn_skipn.
Qed.

Lemma batch_nonempty {A : Type} (i b : nat) (l : list A) :
  (i < List.length l)%nat -> (0 < b)%nat -> firstn b (skipn i l) <> [].
Proof.
  intros Hi Hb H. apply (f_equal (@List.length A)) in H.
  rewrite length_firstn, length_skipn in H. simpl in H. lia.
Qed.

Lemma after_embedding_app (w : World) (a b : list pystr) :
  after_embedding w (a ++ b) = after_embedding (after_embedding w a) b.
Proof. unfold after_embedding. now rewrite map_app, fold_left_app. Qed.

Lemma embed_batches_values (env : Env) (od : option nat) (texts : list pystr)
    (bs : nat) :
  (0 < bs)%nat -> embed_client env = true ->
  forall fuel i acc w,
    (List.length texts - i <= fuel)%nat ->
    forallb (embeds env) (skipn i texts) = true ->
    embed_batches env od texts bs
      (range_from fuel i (List.length texts) bs) acc w
    = (Return (acc ++ map (embedding_of env od) (skipn i texts)),
       after_embedding w (skipn i texts)).
Proof.
  intros Hbs Hc. induction fuel as [|fuel IH]; intros i acc w Hf Hall.
  - rewrite (skipn_all2 texts) by lia. simpl. now rewrite app_nil_r.
  - simpl. destruct (Nat.ltb i (List.length texts)) eqn:Ei.
    + apply Nat.ltb_lt in Ei.
      pose proof (batch_nonempty i bs texts Ei Hbs) as Hne.
      assert (Hb : forallb (embeds env) (firstn bs (skipn i texts)) = true).
      { rewrite (skipn_split i bs texts), forallb_app in Hall.
        now apply andb_prop in Hall. }
      assert (Hr : forallb (embeds env) (skipn (i + bs) texts) = true).
      { rewrite (skipn_split i bs texts), forallb_app in Hall.
        now apply andb_prop in Hall. }
      cbn [embed_batches]. unfold bind at 1.
      destruct (firstn bs (skipn i texts)) as [|t batch] eqn:Eb; [congruence|].
      rewrite (generate_many_values env od t batch w Hc Hb).
      cbn [map]. rewrite IH by (auto; lia).
      pose proof (skipn_split i bs texts) as Hs. rewrite Eb in Hs.
      rewrite Hs, after_embedding_app, map_app, <- app_assoc. reflexivity.
    + apply Nat.ltb_ge in Ei. rewrite (skipn_all2 texts) by lia.
      simpl. now rewrite app_nil_r.
Qed.

Lemma embed_batches_raises (env : Env) (od : option nat) (texts : list pystr)
    (bs : nat) :
  (0 < bs)%nat ->
  forall fuel i acc w,
    (List.length texts - i <= fuel)%nat -> (i < List.length texts)%nat ->
    embed_client env = false \/ forallb (embeds env) (skipn i texts) = false ->
    exists e,
      outcome (embed_batches env od texts bs
                 (range_from fuel i (List.length texts) bs) acc) w
      = Raise e.
Proof.
  intros Hbs. induction fuel as [|fuel IH]; intros i acc w Hf Hi Hbad; [lia|].
  simpl. apply Nat.ltb_lt in Hi as Ei. rewrite Ei.
  pose proof (batch_nonempty i bs texts Hi Hbs) as Hne.
  pose proof (generate_many_cases env od (firstn bs (skipn i texts)) w Hne) as Hg.
  cbn [embed_batches]. unfold outcome, bind in *.
  destruct (generate_embedding env od (ManyTexts (firstn bs (skipn i texts))) w)
    as [[[|v|[|e es]]|ex] w1]; simpl in Hg; try contradiction;
    [|simpl; eauto].
  destruct Hg as [Hc Hb].
  destruct Hbad as [Hbad|Hbad]; [congruence|].
  rewrite (skipn_split i bs texts), forallb_app, Hb in Hbad. simpl in Hbad.
  destruct (Nat.ltb (i + bs) (List.length texts)) eqn:Ej.
  - apply Nat.ltb_lt in Ej. apply IH; [lia|exact Ej|now right].
  - apply Nat.ltb_ge in Ej. rewrite (skipn_all2 texts) in Hbad by lia.
    discriminate.
Qed.

(** X20. Batching is transparent.  For a positive batch size,
    [batch_generate_embeddings] returns one vector per text, in the
    order of the texts and after one provider call per text, exactly
    when every text embeds (and, if there is a text at all, the client
    is there): the result does not depend on the batch size.  If the
    client is missing or any text fails, it raises [RuntimeError] and
    returns no partial list.  A batch size of zero raises the same error
    even for the empty list; a negative batch size returns the empty
    list for any texts, without a provider call. *)
Theorem batching_is_transparent (env : Env) (od : option nat)
    (texts : list pystr) (batch_size : Z) (w : World) :
  let run := batch_generate_embeddings env od texts batch_size w in
  (batch_size = 0%Z ->
   run = (Raise (RuntimeError "Batch embedding generation failed"), w)) /\
  ((batch_size < 0)%Z -> run = (Return [], w)) /\
  ((0 < batch_size)%Z ->
   texts = [] \/ embed_client env = true ->
   forallb (embeds env) texts = true ->
   run = (Return (map (embedding_of env od) texts), after_embedding w texts)) /\
  ((0 < batch_size)%Z -> texts <> [] ->
   embed_client env = false \/ forallb (embeds env) texts = false ->
   fst run = Raise (RuntimeError "Batch embedding generation failed")).
Proof.
  cbv zeta. unfold batch_generate_embeddings, try_except.
  split; [intros ->; reflexivity|]. split.
  - intros H. destruct (Z.eqb_spec batch_size 0); [lia|].
    apply Z.ltb_lt in H. rewrite H. reflexivity.
  - assert (Hpos : (0 < batch_size)%Z ->
                   Z.eqb batch_size 0 = false /\ Z.ltb batch_size 0 = false /\
                   (0 < Z.to_nat batch_size)%nat).
    { intros H. split; [apply Z.eqb_neq; lia|]. split; [apply Z.ltb_ge|]; lia. }
    split.
    + intros H Hc Hall. destruct (Hpos H) as (-> & -> & Hbs).
      destruct texts as [|t texts]; [reflexivity|].
      destruct Hc as [Hc|Hc]; [discriminate|].
      rewrite (embed_batches_values env od (t :: texts) _ Hbs Hc
                 (List.length (t :: texts)) 0 [] w); [reflexivity|lia|exact Hall].
    + intros H Hne Hbad. destruct (Hpos H) as (-> & -> & Hbs).
      destruct (embed_batches_raises env od texts _ Hbs
                  (List.length texts) 0 [] w) as (e & He);
        [lia|destruct texts; [congruence|simpl; lia]|exact Hbad|].
      unfold outcome in He.
      destruct (embed_batches env od texts (Z.to_nat batch_size)
                  (range_from (List.length texts) 0 (List.length texts)
                     (Z.to_nat batch_size)) [] w) as [o w1].
      simpl in He. subst o. reflexivity.
Qed.

Lemma batching_is_transparent_witness :
  batch_generate_embeddings Scenario.env_ok None
    [lit "Where is Homs?"; lit "Where is Aleppo?"; lit "Where is Hama?"] 2
    Scenario.w_empty
  = (Return [Scenario.v_query; Scenario.v_query; Scenario.v_query],
     after_embedding Scenario.w_empty
       [lit "Where is Homs?"; lit "Where is Aleppo?"; lit "Where is Hama?"]).
Proof.
  refine (proj1 (proj2 (proj2
            (batching_is_transparent Scenario.env_ok None
               [lit "Where is Homs?"; lit "Where is Aleppo?"; lit "Where is Hama?"]
               2 Scenario.w_empty))) _ _ _).
  - lia.
  - right. reflexivity.
  - reflexivity.
Defined.

End Batches.

(* ================================================================== *)
(** * Suggestions and augmentation *)
(* ================================================================== *)

Section Suggestions.

Import IntelligentQAService.

Lemma suggestions_run (env : Env) (hits : list Hit) :
  forall results w,
    exists w',
      suggestions env hits results w = (Return results, w') /\
      w_db w' = w_db w /\ w_index w' = w_index w.
Proof.
  induction hits as [|h hits IH]; intros results w.
  - exists w. simpl. unfold ret. auto.
  - cbn [suggestions]. unfold bind.
    rewrite lookup_by_qa_id_finds_nothing.
    destruct (IH results (add_event w EvDbQuery)) as (w' & E & Hd & Hi).
    exists w'. rewrite E. simpl in *. auto.
Qed.

(** X18.  No suggestion is ever made.  For every question and every
    [limit], negative and zero included, [find_similar_questions]
    returns the empty list, never raises and writes to neither store:
    a failing embedding, a limit Qdrant refuses or a session that does
    not open end in the empty list, and a hit of the search gives no
    suggestion because the row of its [qa_id] is never found. *)
Theorem no_suggestion_is_made (env : Env) (question : pystr) (limit : Z)
    (w : World) :
  outcome (find_similar_questions env question limit) w = Return [] /\
  w_db (world_after (find_similar_questions env question limit) w) = w_db w /\
  w_index (world_after (find_similar_questions env question limit) w)
  = w_index w.
Proof.
  pose proof (generate_embedding_stores env EmbeddingService.output_dim
                (EmbeddingService.OneText question) w) as [Hd Hi].
  unfold find_similar_questions, outcome, world_after, try_except, bind in *.
  destruct (EmbeddingService.generate_embedding env EmbeddingService.output_dim
              (EmbeddingService.OneText question) w) as [[e|ex] w1];
    simpl in Hd, Hi; [|simpl; auto].
  destruct e as [|[|x v]|vs]; try (simpl; auto; fail).
  destruct (search_run env (x :: v) limit suggestion_threshold w1)
    as (hits & w2 & Hs & Hd2 & Hi2 & _).
  rewrite Hs.
  unfold QAPairRepository.get_db, emit, ret, raise, bind.
  destruct (db_session_ok env);
    [|simpl; repeat split; congruence].
  destruct (suggestions_run env hits [] (add_event w2 EvDbSession))
    as (w3 & Hsg & Hd3 & Hi3).
  rewrite Hsg. simpl in *.
  repeat split; congruence.
Qed.

Lemma augment_variant_run (env : Env) (q a : pystr) (uid : option UserRef)
    (v : pystr) (w : World) :
  outcome (augment_variant env q a uid v) w = Return tt /\
  w_db (world_after (augment_variant env q a uid v) w) = w_db w /\
  w_index (world_after (augment_variant env q a uid v) w) = w_index w.
Proof.
  pose proof (generate_embedding_stores env EmbeddingService.output_dim
                (EmbeddingService.OneText v) w) as [Hd Hi].
  unfold augment_variant, outcome, world_after, try_except, bind, get_world,
    ret in *.
  destruct (EmbeddingService.generate_embedding env EmbeddingService.output_dim
              (EmbeddingService.OneText v) w)
    as [[e|ex] w1]; simpl in Hd, Hi; [|simpl; auto].
  rewrite call_store_raises. simpl. auto.
Qed.

Lemma augment_variants_run (env : Env) (q a : pystr) (uid : option UserRef)
    (vs : list pystr) :
  forall w,
    outcome (augment_variants env q a uid vs) w = Return tt /\
    w_db (world_after (augment_variants env q a uid vs) w) = w_db w /\
    w_index (world_after (augment_variants env q a uid vs) w) = w_index w.
Proof.
  induction vs as [|v vs IH]; intros w; [run; auto|].
  destruct (augment_variant_run env q a uid v w) as (Ho & Hd & Hi).
  unfold outcome, world_after in *.
  change (augment_variants env q a uid (v :: vs) w)
    with (match augment_variant env q a uid v w with
          | (Return _, w1) => augment_variants env q a uid vs w1
          | (Raise ex, w1) => (Raise ex, w1)
          end).
  destruct (augment_variant env q a uid v w) as [[u|ex] w1];
    simpl in Ho, Hd, Hi; [|discriminate].
  destruct (IH w1) as (Ho' & Hd' & Hi'). repeat split; congruence.
Qed.

(** X19. Augmentation stores nothing.  [augment_question_variants]
    never raises; it returns the variants the model gave, at most five,
    or the empty list when the model is missing or gives none; and for
    every variant the call of [store_qa_embedding] fails on its
    [answer] keyword, so neither the vector index nor the canonical
    store changes. *)
Theorem augmentation_stores_nothing (env : Env) (question answer : pystr)
    (user_id : option UserRef) (w : World) :
  outcome (augment_question_variants env question answer user_id) w
  = Return (if gemini_model env
            then match gemini_variants env question with
                 | Some variants => firstn max_variants_to_generate variants
                 | None => []
                 end
            else []) /\
  w_db (world_after (augment_question_variants env question answer user_id) w)
  = w_db w /\
  w_index (world_after (augment_question_variants env question answer user_id) w)
  = w_index w.
Proof.
  unfold augment_question_variants, GeminiService.generate_question_variants,
    outcome, world_after, try_except, bind.
  destruct (gemini_model env); [|run; auto].
  unfold emit.
  destruct (gemini_variants env question) as [variants|]; [|run; auto].
  unfold ret. cbv beta iota.
  pose proof (augment_variants_run env question answer user_id
                (firstn max_variants_to_generate variants)
                (add_event w EvGeminiGenerate)) as (Ho & Hd & Hi).
  unfold outcome, world_after in *.
  destruct (augment_variants env question answer user_id
              (firstn max_variants_to_generate variants)
              (add_event w EvGeminiGenerate)) as [[u|ex] w1];
    cbn [fst snd] in Ho, Hd, Hi; [|discriminate].
  cbn [fst snd]. auto.
Qed.

End Suggestions.
